(** * x402 (Go): EIP-3009 exact-scheme client and facilitator wire client

    A shallow embedding of
      - go/mechanisms/evm/constants.go            (network table),
      - go/mechanisms/evm/exact/client/scheme.go  (payment payload construction),
      - go/http/facilitator_client.go             (facilitator HTTP client),
    followed by the properties the protocol description states about them.

    Go strings are byte sequences and are carried as [string]; byte slices are
    [list byte]; [*big.Int] is [Z] (a nil pointer is [None]); Go [error] values
    are an inductive type; calls that leave the process (signer, chain RPC,
    clock, random source, HTTP) are oracles over an abstract world and are
    logged in a trace. *)

From Stdlib Require Import ZArith NArith List String Ascii Bool Lia.
From Stdlib.Strings Require Import Byte.
Import ListNotations.

#[local] Open Scope string_scope.
#[local] Open Scope Z_scope.
#[local] Open Scope list_scope.

(* ================================================================== *)
(** * Bytes and strings *)

Definition bytes := list byte.

Definition byte_of_Z (z : Z) : byte :=
  match Byte.of_N (Z.to_N (z mod 256)) with
  | Some b => b
  | None => x00
  end.

Definition Z_of_byte (b : byte) : Z := Z.of_N (Byte.to_N b).

Definition code (c : ascii) : Z := Z.of_N (N_of_ascii c).

Definition bytes_of_string (s : string) : bytes := list_byte_of_string s.

(** [strings.TrimPrefix] *)
Definition TrimPrefix (s pre : string) : string :=
  if String.prefix pre s
  then substring (String.length pre) (String.length s - String.length pre) s
  else s.

(* ================================================================== *)
(** * Go [error] values *)

(** [ErrorString] is an error built by [fmt.Errorf] without [%w];
    [WrapError msg e] is [fmt.Errorf] with a [%w] verb whose rendered text is
    [msg] and whose wrapped error is [e]; [VerifyError] and [SettleError] are
    the structured errors of [x402.NewVerifyError] and [x402.NewSettleError]. *)
Inductive error : Type :=
| ErrorString (msg : string)
| WrapError (msg : string) (inner : error)
| VerifyError (reason payer network : string) (err : error)
| SettleError (reason payer network transaction : string) (err : error).

(** [err.Error()] for the two [fmt] shapes; the structured errors print
    their reason. *)
Definition Error_ (e : error) : string :=
  match e with
  | ErrorString m => m
  | WrapError m _ => m
  | VerifyError r _ _ _ => r
  | SettleError r _ _ _ _ => r
  end.

Inductive result (A : Type) : Type :=
| Ok (a : A)
| Err (e : error).
Arguments Ok {A} a.
Arguments Err {A} e.

(* ================================================================== *)
(** * math/big: the part of [big.Int] the client uses *)

Module Big.

Definition digitVal (c : ascii) : option Z :=
  let n := code c in
  if (48 <=? n) && (n <=? 57) then Some (n - 48) else None.

(** [nat.scan] in base 10 without fraction: digits only, the caller checks
    that the whole input was consumed. *)
Fixpoint scanDigits (s : string) (acc : Z) : option Z :=
  match s with
  | EmptyString => Some acc
  | String c r =>
      match digitVal c with
      | Some d => scanDigits r (10 * acc + d)
      | None => None
      end
  end.

Definition scanMantissa (s : string) : option Z :=
  match s with
  | EmptyString => None
  | _ => scanDigits s 0
  end.

(** [scanSign]: one optional [+] or [-]; reading from empty input fails. *)
Definition scanSign (s : string) : option (bool * string) :=
  match s with
  | EmptyString => None
  | String c r =>
      if Ascii.eqb c "-" then Some (true, r)
      else if Ascii.eqb c "+" then Some (false, r)
      else Some (false, s)
  end.

(** [new(big.Int).SetString(s, 10)]: [None] is the [(nil, false)] result. *)
Definition SetString (s : string) : option Z :=
  match scanSign s with
  | None => None
  | Some (neg, r) =>
      match scanMantissa r with
      | None => None
      | Some m => Some (if neg then - m else m)
      end
  end.

Fixpoint natBytes (fuel : nat) (n : Z) (acc : bytes) : bytes :=
  match fuel with
  | O => acc
  | S f =>
      if n =? 0 then acc
      else natBytes f (n / 256) (byte_of_Z (n mod 256) :: acc)
  end.

(** [x.Bytes()]: big-endian bytes of the absolute value, no leading zero. *)
Definition Bytes (x : Z) : bytes :=
  natBytes (S (Z.to_nat (Z.log2 (Z.abs x)))) (Z.abs x) [].

Definition digitChar (d : Z) : ascii := ascii_of_N (Z.to_N (48 + d)).

Fixpoint natString (fuel : nat) (n : Z) (acc : string) : string :=
  match fuel with
  | O => acc
  | S f =>
      if n =? 0 then acc
      else natString f (n / 10) (String (digitChar (n mod 10)) acc)
  end.

(** [x.String()]: decimal text, ["0"] for zero, a leading [-] when negative. *)
Definition String_ (x : Z) : string :=
  if x =? 0 then "0"
  else
    let m := natString (S (Z.to_nat (Z.log2 (Z.abs x)))) (Z.abs x) "" in
    if x <? 0 then String "-" m else m.

End Big.

(* ================================================================== *)
(** * encoding/hex *)

Module Hex.

(** [reverseHexTable]: the value of a hexadecimal digit, either case. *)
Definition fromHexChar (c : ascii) : option Z :=
  let n := code c in
  if (48 <=? n) && (n <=? 57) then Some (n - 48)
  else if (97 <=? n) && (n <=? 102) then Some (n - 87)
  else if (65 <=? n) && (n <=? 70) then Some (n - 55)
  else None.

(** [hex.Decode]: pairs of digits; the bytes decoded before the first bad
    pair are kept, and the flag tells whether an error was reported (an
    invalid digit, or an odd trailing digit). *)
Fixpoint Decode (s : string) : bytes * bool :=
  match s with
  | EmptyString => ([], true)
  | String _ EmptyString => ([], false)
  | String p (String q r) =>
      match fromHexChar p, fromHexChar q with
      | Some a, Some b =>
          let '(bs, ok) := Decode r in
          (byte_of_Z (a * 16 + b) :: bs, ok)
      | _, _ => ([], false)
      end
  end.

(** [hex.DecodeString] returns [src[:n], err]. *)
Definition DecodeString (s : string) : bytes * bool := Decode s.

End Hex.

(* ================================================================== *)
(** * go-ethereum [common] *)

Module Common.

Definition AddressLength : nat := 20.

(** [common.LeftPadBytes] *)
Definition LeftPadBytes (slice : bytes) (l : nat) : bytes :=
  if (l <=? List.length slice)%nat then slice
  else repeat x00 (l - List.length slice) ++ slice.

Definition has0xPrefix (str : string) : bool :=
  match str with
  | String c0 (String c1 _) =>
      Ascii.eqb c0 "0" && (Ascii.eqb c1 "x" || Ascii.eqb c1 "X")
  | _ => false
  end.

(** [Hex2Bytes] drops the decoder's error. *)
Definition Hex2Bytes (str : string) : bytes := fst (Hex.DecodeString str).

Definition FromHex (s : string) : bytes :=
  let s := if has0xPrefix s then substring 2 (String.length s - 2) s else s in
  let s := if Nat.odd (String.length s) then String "0" s else s in
  Hex2Bytes s.

(** [Address.SetBytes] on the zero address: crop from the left when the
    input is longer than 20 bytes, right-align otherwise. *)
Definition BytesToAddress (b : bytes) : bytes :=
  let b := if (AddressLength <? List.length b)%nat
           then skipn (List.length b - AddressLength) b else b in
  repeat x00 (AddressLength - List.length b) ++ b.

Definition HexToAddress (s : string) : bytes := BytesToAddress (FromHex s).

End Common.

(* ================================================================== *)
(** * Dynamically typed Go values ([interface{}]) *)

(** A [float64] is carried as its IEEE-754 bit pattern; the client never
    computes with one. *)
Definition float64 := Z.

#[warnings="-register-all"]
Inductive value : Type :=
| VNil
| VBool (b : bool)
| VFloat64 (f : float64)
| VInt (n : Z)
| VString (s : string)
| VSlice (l : list value)
| VMap (m : list (string * value)).

(** A [map[string]interface{}] with its entries in insertion order. *)
Definition gomap := list (string * value).

Fixpoint lookup {A : Type} (k : string) (m : list (string * A)) : option A :=
  match m with
  | [] => None
  | (k', v) :: r => if String.eqb k k' then Some v else lookup k r
  end.

(** [m[k].(string)] with the comma-ok form; a nil map behaves as empty. *)
Definition assertString (m : option gomap) (k : string) : option string :=
  match m with
  | None => None
  | Some m =>
      match lookup k m with
      | Some (VString s) => Some s
      | _ => None
      end
  end.

(* ================================================================== *)
(** * evm/constants.go *)

Record AssetInfo : Type := mkAssetInfo {
  Address : string;
  Name : string;
  Version : string;
  Decimals : Z
}.

Record NetworkConfig : Type := mkNetworkConfig {
  ChainID : Z;
  DefaultAsset : AssetInfo
}.

Definition SchemeExact : string := "exact".
Definition DefaultDecimals : Z := 6.
Definition DefaultValidityPeriod : Z := 3600.
Definition ChainIDGateLayerTestnet : Z := 10087.

Definition NetworkConfigs : list (string * NetworkConfig) :=
  [ ("gatelayer_testnet",
     mkNetworkConfig ChainIDGateLayerTestnet
       (mkAssetInfo "0x9be8Df37C788B244cFc28E46654aD5Ec28a880AF" "USDC" "2"
          DefaultDecimals));
    ("eip155:10087",
     mkNetworkConfig ChainIDGateLayerTestnet
       (mkAssetInfo "0x9be8Df37C788B244cFc28E46654aD5Ec28a880AF" "USDC" "2"
          DefaultDecimals)) ].

(* ================================================================== *)
(** * Types of the evm and types packages used by the client *)

Record ExactEIP3009Authorization : Type := mkAuthorization {
  From : string;
  To : string;
  Value : string;
  ValidAfter : string;
  ValidBefore : string;
  Nonce : string
}.

Record ExactEIP3009Payload : Type := mkEvmPayload {
  Signature : string;
  Authorization : ExactEIP3009Authorization
}.

Record TypedDataDomain : Type := mkDomain {
  domName : string;
  domVersion : string;
  domChainID : Z;
  domVerifyingContract : string
}.

Record TypedDataField : Type := mkField {
  fieldName : string;
  fieldType : string
}.

(** Values stored in the typed-data message map. *)
Inductive msgValue : Type :=
| MString (s : string)
| MBigInt (x : option Z)
| MBytes (b : bytes).

Record PaymentRequirements : Type := mkRequirements {
  reqScheme : string;
  Network : string;
  Asset : string;
  Amount : string;
  PayTo : string;
  MaxTimeoutSeconds : Z;
  Extra : option gomap
}.

Record PaymentPayload (P : Type) : Type := mkPaymentPayload {
  X402Version : Z;
  Payload : P
}.
Arguments mkPaymentPayload {P} _ _.
Arguments X402Version {P} _.
Arguments Payload {P} _.

Record CallMsg : Type := mkCallMsg {
  callTo : bytes;
  callData : bytes
}.

(** [time.Hour] in nanoseconds. *)
Definition Hour : Z := 3600000000000.

(* ================================================================== *)
(** * Effects: oracles over an abstract world, with a trace *)

(** What the client asks of its environment.  Each constructor records one
    call, with its arguments and the answer it got, in the order the calls
    are made. *)
Inductive Event : Type :=
| EvCreateNonce (r : result string)
| EvCreateValidityWindow (d : Z) (r : Z * Z)
| EvAddress (a : string)
| EvSignDigest (digest : bytes) (r : result bytes)
| EvSignTypedData (domain : TypedDataDomain)
    (types : list (string * list TypedDataField))
    (primaryType : string) (message : list (string * msgValue))
    (r : result bytes)
| EvCallContract (msg : CallMsg) (r : result bytes).

Module Eff.
Section Monad.
Context {W E : Type}.

Record St : Type := mkSt { world : W; trace : list E }.

(** A computation either returns or stops in a Go run-time panic ([None]). *)
Definition M (A : Type) : Type := St -> option A * St.

Definition ret {A} (a : A) : M A := fun s => (Some a, s).

Definition bind {A B} (m : M A) (k : A -> M B) : M B :=
  fun s => match m s with
           | (Some a, s') => k a s'
           | (None, s') => (None, s')
           end.

Definition panic {A} : M A := fun s => (None, s).

(** One call of an oracle [f]; [ev] logs the answer. *)
Definition call {A} (ev : A -> E) (f : W -> A * W) : M A :=
  fun s => let '(a, w') := f (world s) in
           (Some a, mkSt w' (trace s ++ [ev a])).

(** Dereferencing a pointer: nil panics. *)
Definition deref {A} (p : option A) : M A :=
  match p with
  | Some a => ret a
  | None => panic
  end.

Definition start (w : W) : St := mkSt w [].

End Monad.
Arguments St : clear implicits.
Arguments M : clear implicits.
End Eff.

Import Eff.

Declare Scope eff_scope.
Delimit Scope eff_scope with eff.
Notation "x <- c ;; k" := (bind c (fun x => k))
  (at level 61, c at next level, right associativity) : eff_scope.
Notation "' p <- c ;; k" := (bind c (fun x => let 'p := x in k))
  (at level 61, p pattern, c at next level, right associativity) : eff_scope.

(* ================================================================== *)
(** * evm/exact/client/scheme.go *)

(** [evm.ClientEvmSigner]: the injected signing capability. *)
Record ClientEvmSigner (W : Type) : Type := mkSigner {
  signerAddress : W -> string * W;
  SignDigest : bytes -> W -> result bytes * W;
  SignTypedData :
    TypedDataDomain -> list (string * list TypedDataField) -> string ->
    list (string * msgValue) -> W -> result bytes * W
}.
Arguments signerAddress {W} _ _.
Arguments SignDigest {W} _ _ _.
Arguments SignTypedData {W} _ _ _ _ _ _.

(** The one method of [ethclient.Client] the scheme calls. *)
Record EthClient (W : Type) : Type := mkEthClient {
  CallContract : CallMsg -> W -> result bytes * W
}.
Arguments CallContract {W} _ _ _.

Record ExactEvmScheme (W : Type) : Type := mkScheme {
  signer : ClientEvmSigner W;
  rpcURL : string;
  ethClient : option (EthClient W)
}.
Arguments signer {W} _.
Arguments rpcURL {W} _.
Arguments ethClient {W} _.

Definition NewExactEvmScheme {W} (s : ClientEvmSigner W) : ExactEvmScheme W :=
  mkScheme W s "" None.

(** [SetRPCURL]; [dial] stands for [ethclient.Dial].  The scheme is returned
    as the call leaves it, with the error if there is one. *)
Definition SetRPCURL {W} (dial : string -> result (EthClient W))
    (c : ExactEvmScheme W) (rpcURL : string) : ExactEvmScheme W * option error :=
  match dial rpcURL with
  | Err e =>
      (c, Some (WrapError ("failed to connect to RPC: " ++ Error_ e)%string e))
  | Ok client => (mkScheme W (signer c) rpcURL (Some client), None)
  end.

(** Functions and constants of the repository that the scheme calls and
    whose source is outside this development: the helpers of package [evm]
    and the two error codes of package [client]. *)
Record EvmPkg (W PM : Type) : Type := mkEvmPkg {
  GetEvmChainId : string -> result Z;
  GetAssetInfo : string -> string -> result AssetInfo;
  CreateNonce : W -> result string * W;
  CreateValidityWindow : Z -> W -> (Z * Z) * W;
  HexToBytes : string -> bytes * option error;
  BytesToHex : bytes -> string;
  ToMap : ExactEIP3009Payload -> PM;
  ErrInvalidAmount : string;
  ErrFailedToSignAuthorization : string
}.
Arguments GetEvmChainId {W PM} _ _.
Arguments GetAssetInfo {W PM} _ _ _.
Arguments CreateNonce {W PM} _ _.
Arguments CreateValidityWindow {W PM} _ _ _.
Arguments HexToBytes {W PM} _ _.
Arguments BytesToHex {W PM} _ _.
Arguments ToMap {W PM} _ _.
Arguments ErrInvalidAmount {W PM} _.
Arguments ErrFailedToSignAuthorization {W PM} _.

Definition TransferWithAuthorizationType : string :=
  "TransferWithAuthorization(address from,address to,uint256 value,uint256 validAfter,uint256 validBefore,bytes32 nonce)".

Definition pinnedNetwork : string := "gatelayer_testnet".
Definition pinnedAsset : string := "0x9be8Df37C788B244cFc28E46654aD5Ec28a880AF".
Definition pinnedDomainSeparatorHex : string :=
  "2c2d6b621e73a4a094449d1894717413742130fb20149ec48340ca0354d1a707".

Definition eip712Types : list (string * list TypedDataField) :=
  [ ("EIP712Domain",
     [ mkField "name" "string"; mkField "version" "string";
       mkField "chainId" "uint256"; mkField "verifyingContract" "address" ]);
    ("TransferWithAuthorization",
     [ mkField "from" "address"; mkField "to" "address";
       mkField "value" "uint256"; mkField "validAfter" "uint256";
       mkField "validBefore" "uint256"; mkField "nonce" "bytes32" ]) ].

Section Scheme.
Context {W PM : Type}.
(** [crypto.Keccak256] of go-ethereum. *)
Variable Keccak256 : bytes -> bytes.
Variable evm : EvmPkg W PM.

#[local] Open Scope eff_scope.

Definition Scheme (c : ExactEvmScheme W) : string := SchemeExact.

Definition signDigest (c : ExactEvmScheme W) (digest : bytes)
  : M W Event (result bytes) :=
  call (EvSignDigest digest) (SignDigest (signer c) digest).

Definition signWithDomainSeparator (c : ExactEvmScheme W)
    (authorization : ExactEIP3009Authorization) (domainSeparator : bytes)
  : M W Event (result bytes) :=
  let typeHash := Keccak256 (bytes_of_string TransferWithAuthorizationType) in
  let value := Big.SetString (Value authorization) in
  let validAfter := Big.SetString (ValidAfter authorization) in
  let validBefore := Big.SetString (ValidBefore authorization) in
  let nonceBytes := fst (HexToBytes evm (Nonce authorization)) in
  let fromAddr := Common.HexToAddress (From authorization) in
  let toAddr := Common.HexToAddress (To authorization) in
  let encoded := typeHash in
  let encoded := encoded ++ Common.LeftPadBytes fromAddr 32 in
  let encoded := encoded ++ Common.LeftPadBytes toAddr 32 in
  v <- deref value ;;
  let encoded := encoded ++ Common.LeftPadBytes (Big.Bytes v) 32 in
  va <- deref validAfter ;;
  let encoded := encoded ++ Common.LeftPadBytes (Big.Bytes va) 32 in
  vb <- deref validBefore ;;
  let encoded := encoded ++ Common.LeftPadBytes (Big.Bytes vb) 32 in
  let encoded := encoded ++ nonceBytes in
  let structHash := Keccak256 encoded in
  let digest :=
    Keccak256 ([x19; x01] ++ (domainSeparator ++ structHash)) in
  signDigest c digest.

(** The 4-byte selector [contractABI.Methods["DOMAIN_SEPARATOR"].ID]. *)
Definition domainSeparatorSelector : bytes :=
  firstn 4 (Keccak256 (bytes_of_string "DOMAIN_SEPARATOR()")).

(** [queryDomainSeparator]: the ABI text is a constant that [abi.JSON]
    parses, so the call to the contract is the first thing that can fail. *)
Definition queryDomainSeparator (client : EthClient W) (tokenAddress : string)
  : M W Event (result bytes) :=
  let addr := Common.HexToAddress tokenAddress in
  let callData := domainSeparatorSelector in
  r <- call (EvCallContract (mkCallMsg addr callData))
            (CallContract client (mkCallMsg addr callData)) ;;
  match r with
  | Err e => ret (Err e)
  | Ok res =>
      if (List.length res <? 32)%nat
      then ret (Err (ErrorString
             ("invalid DOMAIN_SEPARATOR result length: "
              ++ Big.String_ (Z.of_nat (List.length res)))%string))
      else ret (Ok (firstn 32 res))
  end.

(** The [message] map of the typed-data fallback. *)
Definition typedMessage (authorization : ExactEIP3009Authorization)
  : list (string * msgValue) :=
  let value := Big.SetString (Value authorization) in
  let validAfter := Big.SetString (ValidAfter authorization) in
  let validBefore := Big.SetString (ValidBefore authorization) in
  let nonceBytes := fst (HexToBytes evm (Nonce authorization)) in
  [ ("from", MString (From authorization));
    ("to", MString (To authorization));
    ("value", MBigInt value);
    ("validAfter", MBigInt validAfter);
    ("validBefore", MBigInt validBefore);
    ("nonce", MBytes nonceBytes) ].

Definition signAuthorization (c : ExactEvmScheme W)
    (authorization : ExactEIP3009Authorization) (chainID : Z)
    (verifyingContract tokenName tokenVersion : string)
  : M W Event (result bytes) :=
  domainSeparator <-
    match ethClient c with
    | Some client =>
        r <- queryDomainSeparator client verifyingContract ;;
        match r with
        | Ok domainSep => ret (Some domainSep)
        | Err _ => ret None
        end
    | None => ret None
    end ;;
  match domainSeparator with
  | Some ds => signWithDomainSeparator c authorization ds
  | None =>
      let domain := mkDomain tokenName tokenVersion chainID verifyingContract in
      let message := typedMessage authorization in
      call (EvSignTypedData domain eip712Types "TransferWithAuthorization" message)
           (SignTypedData (signer c) domain eip712Types
              "TransferWithAuthorization" message)
  end.

Definition CreatePaymentPayload (c : ExactEvmScheme W)
    (requirements : PaymentRequirements)
  : M W Event (result (PaymentPayload PM)) :=
  let networkStr := Network requirements in
  match GetEvmChainId evm networkStr with
  | Err e => ret (Err e)
  | Ok chainID =>
  match GetAssetInfo evm networkStr (Asset requirements) with
  | Err e => ret (Err e)
  | Ok assetInfo =>
  match Big.SetString (Amount requirements) with
  | None =>
      ret (Err (ErrorString
        (ErrInvalidAmount evm ++ ": " ++ Amount requirements)%string))
  | Some value =>
  rn <- call EvCreateNonce (CreateNonce evm) ;;
  match rn with
  | Err e => ret (Err e)
  | Ok nonce =>
  '(validAfter, validBefore) <-
     call (EvCreateValidityWindow Hour) (CreateValidityWindow evm Hour) ;;
  let tokenName :=
    match assertString (Extra requirements) "name" with
    | Some name => name
    | None => Name assetInfo
    end in
  let tokenVersion :=
    match assertString (Extra requirements) "version" with
    | Some ver => ver
    | None => Version assetInfo
    end in
  from <- call EvAddress (signerAddress (signer c)) ;;
  let authorization :=
    mkAuthorization from (PayTo requirements) (Big.String_ value)
      (Big.String_ validAfter) (Big.String_ validBefore) nonce in
  let standard :=
    rs <- signAuthorization c authorization chainID (Address assetInfo)
            tokenName tokenVersion ;;
    match rs with
    | Err e =>
        ret (Err (WrapError
          (ErrFailedToSignAuthorization evm ++ ": " ++ Error_ e)%string e))
    | Ok signature =>
        let evmPayload := mkEvmPayload (BytesToHex evm signature) authorization in
        ret (Ok (mkPaymentPayload 2 (ToMap evm evmPayload)))
    end in
  if String.eqb networkStr "gatelayer_testnet"
     && String.eqb (Address assetInfo) "0x9be8Df37C788B244cFc28E46654aD5Ec28a880AF"
  then
    let domainSeparator := fst (Hex.DecodeString pinnedDomainSeparatorHex) in
    if (List.length domainSeparator =? 32)%nat then
      rs <- signWithDomainSeparator c authorization domainSeparator ;;
      match rs with
      | Ok signature =>
          let evmPayload :=
            mkEvmPayload (BytesToHex evm signature) authorization in
          ret (Ok (mkPaymentPayload 2 (ToMap evm evmPayload)))
      | Err _ => standard
      end
    else standard
  else standard
  end end end end.

End Scheme.

(* ================================================================== *)
(** * encoding/base64, strings.TrimSpace, net/http headers *)

Module Base64.

Definition encodeStd : string :=
  "ABCDEFGHIJKLMNOPQRSTUVWXYZabcdefghijklmnopqrstuvwxyz0123456789+/".

Definition enc (i : Z) : ascii :=
  match String.get (Z.to_nat i) encodeStd with
  | Some c => c
  | None => "="%char
  end.

(** [StdEncoding.EncodeToString]: three bytes give four characters, the
    last group is padded with [=]. *)
Fixpoint EncodeToString (src : bytes) : string :=
  match src with
  | [] => ""
  | [a] =>
      let v := Z_of_byte a * 65536 in
      String (enc (v / 262144 mod 64))
        (String (enc (v / 4096 mod 64)) "==")
  | [a; b] =>
      let v := Z_of_byte a * 65536 + Z_of_byte b * 256 in
      String (enc (v / 262144 mod 64))
        (String (enc (v / 4096 mod 64))
           (String (enc (v / 64 mod 64)) "="))
  | a :: b :: c :: r =>
      let v := Z_of_byte a * 65536 + Z_of_byte b * 256 + Z_of_byte c in
      String (enc (v / 262144 mod 64))
        (String (enc (v / 4096 mod 64))
           (String (enc (v / 64 mod 64))
              (String (enc (v mod 64)) (EncodeToString r))))
  end.

End Base64.

Module Strings.

(** The [asciiSpace] table: tab, newline, vertical tab, form feed,
    carriage return, space. *)
Definition asciiSpace (c : ascii) : bool :=
  let n := code c in
  ((9 <=? n) && (n <=? 13)) || (n =? 32).

Definition isASCII (c : ascii) : bool := code c <? 128.

Definition rev_string (s : string) : string :=
  string_of_list_ascii (rev (list_ascii_of_string s)).

Section TrimSpace.
(** [TrimFunc(s, unicode.IsSpace)] and [TrimRightFunc(s, unicode.IsSpace)]:
    the Unicode-aware slow path, entered when a byte >= 0x80 is met. *)
Variables TrimFuncIsSpace TrimRightFuncIsSpace : string -> string.

(** The backward scan of [TrimSpace], on the reversed remainder. *)
Fixpoint trimEnd (r : string) : string :=
  match r with
  | EmptyString => EmptyString
  | String c r' =>
      if negb (isASCII c) then rev_string (TrimRightFuncIsSpace (rev_string r))
      else if asciiSpace c then trimEnd r'
      else r
  end.

(** [strings.TrimSpace] *)
Fixpoint TrimSpace (s : string) : string :=
  match s with
  | EmptyString => EmptyString
  | String c s' =>
      if negb (isASCII c) then TrimFuncIsSpace s
      else if asciiSpace c then TrimSpace s'
      else rev_string (trimEnd (rev_string s))
  end.
End TrimSpace.

End Strings.

Module Http.

Definition isLower (c : ascii) : bool := (97 <=? code c) && (code c <=? 122).
Definition isUpper (c : ascii) : bool := (65 <=? code c) && (code c <=? 90).
Definition isDigit (c : ascii) : bool := (48 <=? code c) && (code c <=? 57).

Definition toUpper (c : ascii) : ascii := ascii_of_N (Z.to_N (code c - 32)).
Definition toLower (c : ascii) : ascii := ascii_of_N (Z.to_N (code c + 32)).

Definition validHeaderFieldByte (c : ascii) : bool :=
  isLower c || isUpper c || isDigit c
  || existsb (Ascii.eqb c) (list_ascii_of_string "!#$%&'*+-.^_`|~").

Fixpoint canonLoop (upper : bool) (s : string) : string :=
  match s with
  | EmptyString => EmptyString
  | String c r =>
      let c' := if upper && isLower c then toUpper c
                else if negb upper && isUpper c then toLower c
                else c in
      String c' (canonLoop (Ascii.eqb c' "-") r)
  end.

(** [textproto.CanonicalMIMEHeaderKey]: a key with a byte outside the token
    alphabet is returned unchanged. *)
Definition CanonicalMIMEHeaderKey (s : string) : string :=
  if forallb validHeaderFieldByte (list_ascii_of_string s)
  then canonLoop true s else s.

(** [http.Header], holding the single value [Set] leaves under a key. *)
Definition Header := list (string * string).

Fixpoint put (k v : string) (h : Header) : Header :=
  match h with
  | [] => [(k, v)]
  | (k', v') :: r =>
      if String.eqb k k' then (k, v) :: r else (k', v') :: put k v r
  end.

Definition Set_ (h : Header) (k v : string) : Header :=
  put (CanonicalMIMEHeaderKey k) v h.

Definition Get (h : Header) (k : string) : option string :=
  lookup (CanonicalMIMEHeaderKey k) h.

Record Request : Type := mkRequest {
  Method : string;
  URL : string;
  Hdr : Header;
  Body : bytes
}.

Definition setHeader (req : Request) (k v : string) : Request :=
  mkRequest (Method req) (URL req) (Set_ (Hdr req) k v) (Body req).

(** What the client reads of an [http.Response]: the status code and the
    outcome of [io.ReadAll(resp.Body)]. *)
Record Response : Type := mkResponse {
  StatusCode : Z;
  ReadAll : result bytes
}.

Definition MethodPost : string := "POST".
Definition StatusOK : Z := 200.

End Http.

(* ================================================================== *)
(** * http/facilitator_client.go *)

Import Http.

(** [AuthHeaders]: a header map per endpoint; a [range] over a map visits
    the entries in the order of the list. *)
Record AuthHeaders : Type := mkAuthHeaders {
  ahVerify : list (string * string);
  ahSettle : list (string * string);
  ahSupported : list (string * string)
}.

(** [AuthProvider] *)
Record AuthProvider (W : Type) : Type := mkAuthProvider {
  GetAuthHeaders : W -> result AuthHeaders * W
}.
Arguments GetAuthHeaders {W} _ _.

Inductive HttpEvent : Type :=
| EvNow (t : Z)
| EvNewUUID (id : string)
| EvGetAuthHeaders (r : result AuthHeaders)
| EvDo (req : Request) (r : result Response).

(** [*http.Client], as far as the facilitator client uses it. *)
Record HttpClient (W : Type) : Type := mkHttpClient {
  Do : Request -> W -> result Response * W
}.
Arguments Do {W} _ _ _.

Record HTTPFacilitatorClient (W : Type) : Type := mkFacilitatorClient {
  url : string;
  httpClient : HttpClient W;
  authProvider : option (AuthProvider W);
  identifier : string
}.
Arguments url {W} _.
Arguments httpClient {W} _.
Arguments authProvider {W} _.
Arguments identifier {W} _.

Record FacilitatorConfig (W : Type) : Type := mkFacilitatorConfig {
  cfgURL : string;
  cfgHTTPClient : option (HttpClient W);
  cfgAuthProvider : option (AuthProvider W);
  cfgTimeout : Z;
  cfgIdentifier : string
}.
Arguments cfgURL {W} _.
Arguments cfgHTTPClient {W} _.
Arguments cfgAuthProvider {W} _.
Arguments cfgTimeout {W} _.
Arguments cfgIdentifier {W} _.

Definition DefaultFacilitatorURL : string :=
  "https://openapi-test.gateweb3.cc/api/v1/x402".

Definition gateWeb3SigningPath : string := "/api/v1/dex".
Definition gateWeb3TargetURISupported : string := "/v1/x402/supported".
Definition gateWeb3TargetURIVerify : string := "/v1/x402/verify".
Definition gateWeb3TargetURISettle : string := "/v1/x402/settle".
Definition envGateWeb3APIKey : string := "GATE_WEB3_API_KEY".
Definition envGateWeb3APISecret : string := "GATE_WEB3_API_SECRET".
Definition envGateWeb3Passphrase : string := "GATE_WEB3_PASSPHRASE".
Definition envGateWeb3RealIP : string := "GATE_WEB3_REAL_IP".
Definition defaultGateWeb3ForwardedFor : string := "127.0.0.1".
Definition defaultGateWeb3Passphrase : string := "".
Definition defaultGateWeb3RequestIDPref : string := "req-".

Record gateWeb3Credentials : Type := mkCredentials {
  APIKey : string;
  APISecret : string;
  Passphrase : string;
  RealIP : string
}.

(** The envelope [{code, msg, data}]. *)
Record facilitatorAPIResponse (T : Type) : Type := mkAPIResponse {
  Code : Z;
  Msg : string;
  Data : T
}.
Arguments mkAPIResponse {T} _ _ _.
Arguments Code {T} _.
Arguments Msg {T} _.
Arguments Data {T} _.

(** [x402.VerifyResponse] and [x402.SettleResponse] *)
Record VerifyResponse : Type := mkVerifyResponse {
  IsValid : bool;
  InvalidReason : string;
  vPayer : string
}.

Record SettleResponse : Type := mkSettleResponse {
  Success : bool;
  ErrorReason : string;
  sPayer : string;
  Transaction : string;
  sNetwork : string
}.

(** The standard library and the packages of the repository the client
    calls: the process environment, the clock, the UUID source, the JSON
    codec at the types the client uses it at, URL validation of
    [http.NewRequestWithContext], HMAC-SHA256, the Unicode path of
    [strings.TrimSpace] and [types.DetectVersion]. *)
Record HttpEnv (W SR : Type) : Type := mkHttpEnv {
  Getenv : W -> string -> string;
  NowUnixMilli : W -> Z * W;
  NewUUID : W -> string * W;
  Marshal : value -> result bytes;
  UnmarshalMap : bytes -> result (option gomap);
  UnmarshalVerify : bytes -> option (facilitatorAPIResponse VerifyResponse);
  UnmarshalSettle : bytes -> option (facilitatorAPIResponse SettleResponse);
  UnmarshalSupported : bytes -> option (facilitatorAPIResponse SR);
  DetectVersion : bytes -> result Z;
  checkURL : string -> option error;
  HMAC_SHA256 : bytes -> bytes -> bytes;
  TrimFuncIsSpace : string -> string;
  TrimRightFuncIsSpace : string -> string
}.
Arguments Getenv {W SR} _ _ _.
Arguments NowUnixMilli {W SR} _ _.
Arguments NewUUID {W SR} _ _.
Arguments Marshal {W SR} _ _.
Arguments UnmarshalMap {W SR} _ _.
Arguments UnmarshalVerify {W SR} _ _.
Arguments UnmarshalSettle {W SR} _ _.
Arguments UnmarshalSupported {W SR} _ _.
Arguments DetectVersion {W SR} _ _.
Arguments checkURL {W SR} _ _.
Arguments HMAC_SHA256 {W SR} _ _ _.
Arguments TrimFuncIsSpace {W SR} _ _.
Arguments TrimRightFuncIsSpace {W SR} _ _.

(** A map held in an [interface{}]: a nil map stays nil. *)
Definition mapValue (m : option gomap) : value :=
  match m with
  | Some m => VMap m
  | None => VNil
  end.

(** [fmt.Errorf(prefix + "%w", err)] *)
Definition Errorf_w (prefix : string) (e : error) : error :=
  WrapError (prefix ++ Error_ e)%string e.

(** The [%d] verb. *)
Definition fmt_d (n : Z) : string := Big.String_ n.

Section Facilitator.
Context {W SR : Type}.
Variable env : HttpEnv W SR.

#[local] Open Scope eff_scope.
#[local] Abbreviation Mh := (M W HttpEvent).

Definition TrimSpace : string -> string :=
  Strings.TrimSpace (TrimFuncIsSpace env) (TrimRightFuncIsSpace env).

Definition loadGateWeb3Credentials (w : W) : option gateWeb3Credentials :=
  let ak := TrimSpace (Getenv env w envGateWeb3APIKey) in
  let sk := TrimSpace (Getenv env w envGateWeb3APISecret) in
  if String.eqb ak "" || String.eqb sk "" then None
  else
    let pass := Getenv env w envGateWeb3Passphrase in
    let pass := if String.eqb pass "" then defaultGateWeb3Passphrase else pass in
    let realIP := Getenv env w envGateWeb3RealIP in
    let realIP := if String.eqb realIP "" then defaultGateWeb3ForwardedFor
                  else realIP in
    Some (mkCredentials ak sk pass realIP).

(** [fmt.Sprintf("%d%s%s", timestamp, gateWeb3SigningPath, string(body))] *)
Definition prehashOf (timestamp : Z) (path : string) (body : bytes) : string :=
  (fmt_d timestamp ++ path ++ string_of_list_byte body)%string.

(** [base64(HMAC_SHA256(secret, prehash))] as the code computes it. *)
Definition signatureOf (secret : string) (prehash : string) : string :=
  Base64.EncodeToString
    (HMAC_SHA256 env (bytes_of_string secret) (bytes_of_string prehash)).

Definition applyGateWeb3Signature (req : Request) (body : bytes)
    (targetURI : string) : Mh Request :=
  fun s =>
  match loadGateWeb3Credentials (world s) with
  | None => ret req s
  | Some creds =>
      (timestamp <- call EvNow (NowUnixMilli env) ;;
       let prehash := prehashOf timestamp gateWeb3SigningPath body in
       let signature := signatureOf (APISecret creds) prehash in
       let req := setHeader req "X-Api-Key" (APIKey creds) in
       let req := setHeader req "X-Timestamp" (fmt_d timestamp) in
       let req := setHeader req "X-Signature" signature in
       let req := if negb (String.eqb (Passphrase creds) "")
                  then setHeader req "X-Passphrase" (Passphrase creds)
                  else req in
       let req := if negb (String.eqb (RealIP creds) "")
                  then setHeader req "X-Forwarded-For" (RealIP creds)
                  else req in
       id <- call EvNewUUID (NewUUID env) ;;
       let req := setHeader req "X-Request-Id" id in
       let req := setHeader req "x-target-uri" (TrimPrefix targetURI "/") in
       ret req) s
  end.

Definition NewHTTPFacilitatorClient (defaultClient : Z -> HttpClient W)
    (config : option (FacilitatorConfig W)) : HTTPFacilitatorClient W :=
  let config := match config with
                | Some c => c
                | None => mkFacilitatorConfig W "" None None 0 ""
                end in
  let url := cfgURL config in
  let url := if String.eqb url "" then DefaultFacilitatorURL else url in
  let httpClient :=
    match cfgHTTPClient config with
    | Some h => h
    | None =>
        let timeout := cfgTimeout config in
        let timeout := if timeout =? 0 then 30 * 1000000000 else timeout in
        defaultClient timeout
    end in
  let identifier := cfgIdentifier config in
  let identifier := if String.eqb identifier "" then url else identifier in
  mkFacilitatorClient W url httpClient (cfgAuthProvider config) identifier.

(** [http.NewRequestWithContext(ctx, method, url, bytes.NewReader(body))] *)
Definition NewRequestWithContext (method url : string) (body : bytes)
  : result Request :=
  match checkURL env url with
  | Some e => Err e
  | None => Ok (mkRequest method url [] body)
  end.

(** [for k, v := range headers { req.Header.Set(k, v) }] *)
Definition setAll (req : Request) (headers : list (string * string)) : Request :=
  fold_left (fun r kv => setHeader r (fst kv) (snd kv)) headers req.

(** The part the three operations share after the body is marshalled:
    build the request, sign it, add the provider's headers, send it and
    read the response body. *)
Definition roundTrip (c : HTTPFacilitatorClient W) (body : bytes)
    (targetURI : string) (pick : AuthHeaders -> list (string * string))
    (createMsg sendMsg readMsg : string)
  : Mh (result (Response * bytes)) :=
  match NewRequestWithContext MethodPost (url c) body with
  | Err e => ret (Err (Errorf_w createMsg e))
  | Ok req =>
      let req := setHeader req "Content-Type" "application/json" in
      req <- applyGateWeb3Signature req body targetURI ;;
      r <- match authProvider c with
           | None => ret (Ok req)
           | Some ap =>
               ra <- call EvGetAuthHeaders (GetAuthHeaders ap) ;;
               match ra with
               | Err e => ret (Err (Errorf_w "failed to get auth headers: " e))
               | Ok authHeaders => ret (Ok (setAll req (pick authHeaders)))
               end
           end ;;
      match r with
      | Err e => ret (Err e)
      | Ok req =>
          rr <- call (EvDo req) (Do (httpClient c) req) ;;
          match rr with
          | Err e => ret (Err (Errorf_w sendMsg e))
          | Ok resp =>
              match ReadAll resp with
              | Err e => ret (Err (Errorf_w readMsg e))
              | Ok responseBody => ret (Ok (resp, responseBody))
              end
          end
      end
  end.

Definition failedMsg (op : string) (status code : Z) (msg : string) : string :=
  ("facilitator " ++ op ++ " failed (http=" ++ fmt_d status ++ ", code="
     ++ fmt_d code ++ ", msg=" ++ msg ++ ")")%string.

Definition returnedMsg (status code : Z) (msg : string) : string :=
  ("facilitator returned http=" ++ fmt_d status ++ " code=" ++ fmt_d code
     ++ " msg=" ++ msg)%string.

Definition decodeFailedMsg (op : string) (status : Z) (body : bytes) : string :=
  ("facilitator " ++ op ++ " failed (" ++ fmt_d status ++ "): "
     ++ string_of_list_byte body)%string.

Definition GetSupported (c : HTTPFacilitatorClient W) : Mh (result SR) :=
  let requestBody :=
    VMap [("action", VString "x402.supported"); ("params", VMap [])] in
  match Marshal env requestBody with
  | Err e => ret (Err (Errorf_w "failed to marshal supported request: " e))
  | Ok body =>
      r <- roundTrip c body gateWeb3TargetURISupported ahSupported
             "failed to create supported request: "
             "supported request failed: "
             "failed to read supported response body: " ;;
      match r with
      | Err e => ret (Err e)
      | Ok (resp, responseBody) =>
          match UnmarshalSupported env responseBody with
          | None =>
              ret (Err (ErrorString
                ("failed to decode supported response ("
                   ++ fmt_d (StatusCode resp) ++ "): "
                   ++ string_of_list_byte responseBody)%string))
          | Some apiResp =>
              if negb (StatusCode resp =? StatusOK) || negb (Code apiResp =? 0)
              then ret (Err (ErrorString
                     (failedMsg "supported" (StatusCode resp) (Code apiResp)
                        (Msg apiResp))))
              else ret (Ok (Data apiResp))
          end
      end
  end.

(** The request body of verify and settle: unmarshal both inputs into
    generic maps and wrap them in the action envelope. *)
Definition buildBody (action : string) (version : Z)
    (payloadBytes requirementsBytes : bytes) (marshalMsg : string)
  : result bytes :=
  match UnmarshalMap env payloadBytes with
  | Err e => Err (Errorf_w "failed to unmarshal payload: " e)
  | Ok payloadMap =>
  match UnmarshalMap env requirementsBytes with
  | Err e => Err (Errorf_w "failed to unmarshal requirements: " e)
  | Ok requirementsMap =>
      let params :=
        VMap [ ("x402Version", VInt version);
               ("paymentPayload", mapValue payloadMap);
               ("paymentRequirements", mapValue requirementsMap) ] in
      let requestBody :=
        VMap [ ("action", VString action); ("params", params) ] in
      match Marshal env requestBody with
      | Err e => Err (Errorf_w marshalMsg e)
      | Ok body => Ok body
      end
  end end.

Definition verifyHTTP (c : HTTPFacilitatorClient W) (version : Z)
    (payloadBytes requirementsBytes : bytes) : Mh (result VerifyResponse) :=
  match buildBody "x402.verify" version payloadBytes requirementsBytes
          "failed to marshal verify request: " with
  | Err e => ret (Err e)
  | Ok body =>
      r <- roundTrip c body gateWeb3TargetURIVerify ahVerify
             "failed to create verify request: "
             "verify request failed: "
             "failed to read response body: " ;;
      match r with
      | Err e => ret (Err e)
      | Ok (resp, responseBody) =>
          match UnmarshalVerify env responseBody with
          | None =>
              ret (Err (ErrorString
                (decodeFailedMsg "verify" (StatusCode resp) responseBody)))
          | Some apiResp =>
              if negb (StatusCode resp =? StatusOK) || negb (Code apiResp =? 0)
              then
                if negb (String.eqb (InvalidReason (Data apiResp)) "")
                then ret (Err (VerifyError (InvalidReason (Data apiResp))
                       (vPayer (Data apiResp)) ""
                       (ErrorString (returnedMsg (StatusCode resp)
                          (Code apiResp) (Msg apiResp)))))
                else ret (Err (ErrorString
                       (failedMsg "verify" (StatusCode resp) (Code apiResp)
                          (Msg apiResp))))
              else ret (Ok (Data apiResp))
          end
      end
  end.

Definition settleHTTP (c : HTTPFacilitatorClient W) (version : Z)
    (payloadBytes requirementsBytes : bytes) : Mh (result SettleResponse) :=
  match buildBody "x402.settle" version payloadBytes requirementsBytes
          "failed to marshal settle request: " with
  | Err e => ret (Err e)
  | Ok body =>
      r <- roundTrip c body gateWeb3TargetURISettle ahSettle
             "failed to create settle request: "
             "settle request failed: "
             "failed to read response body: " ;;
      match r with
      | Err e => ret (Err e)
      | Ok (resp, responseBody) =>
          match UnmarshalSettle env responseBody with
          | None =>
              ret (Err (ErrorString
                (decodeFailedMsg "settle" (StatusCode resp) responseBody)))
          | Some apiResp =>
              if negb (StatusCode resp =? StatusOK) || negb (Code apiResp =? 0)
              then
                if negb (String.eqb (ErrorReason (Data apiResp)) "")
                then ret (Err (SettleError (ErrorReason (Data apiResp))
                       (sPayer (Data apiResp)) (sNetwork (Data apiResp))
                       (Transaction (Data apiResp))
                       (ErrorString (returnedMsg (StatusCode resp)
                          (Code apiResp) (Msg apiResp)))))
                else ret (Err (ErrorString
                       (failedMsg "settle" (StatusCode resp) (Code apiResp)
                          (Msg apiResp))))
              else ret (Ok (Data apiResp))
          end
      end
  end.

Definition Verify (c : HTTPFacilitatorClient W)
    (payloadBytes requirementsBytes : bytes) : Mh (result VerifyResponse) :=
  match DetectVersion env payloadBytes with
  | Err e => ret (Err (Errorf_w "failed to detect version: " e))
  | Ok version => verifyHTTP c version payloadBytes requirementsBytes
  end.

Definition Settle (c : HTTPFacilitatorClient W)
    (payloadBytes requirementsBytes : bytes) : Mh (result SettleResponse) :=
  match DetectVersion env payloadBytes with
  | Err e => ret (Err (Errorf_w "failed to detect version: " e))
  | Ok version => settleHTTP c version payloadBytes requirementsBytes
  end.

End Facilitator.

(* ================================================================== *)
(** * Reference implementations of the hash functions

    [crypto/sha256] with [crypto/hmac], and Keccak-256 as
    [crypto.Keccak256] of go-ethereum computes it.  The client is
    parametric in both; these are the functions the concrete runs below are
    evaluated with. *)

Definition Zs_of_bytes (b : bytes) : list Z := map Z_of_byte b.
Definition bytes_of_Zs (l : list Z) : bytes := map byte_of_Z l.

(** Splitting into blocks of [n] items. *)
Fixpoint chunks {A} (fuel n : nat) (l : list A) : list (list A) :=
  match fuel with
  | O => []
  | S f =>
      match l with
      | [] => []
      | _ => firstn n l :: chunks f n (skipn n l)
      end
  end.

Module Sha256.

Definition w32 (x : Z) : Z := x mod 4294967296.
Definition add32 (a b : Z) : Z := w32 (a + b).
Definition rotr (n x : Z) : Z :=
  Z.lor (Z.shiftr x n) (w32 (Z.shiftl x (32 - n))).
Definition not32 (x : Z) : Z := Z.lxor x 4294967295.

Definition Ch (x y z : Z) : Z := Z.lxor (Z.land x y) (Z.land (not32 x) z).
Definition Maj (x y z : Z) : Z :=
  Z.lxor (Z.lxor (Z.land x y) (Z.land x z)) (Z.land y z).
Definition Sigma0 (x : Z) : Z := Z.lxor (Z.lxor (rotr 2 x) (rotr 13 x)) (rotr 22 x).
Definition Sigma1 (x : Z) : Z := Z.lxor (Z.lxor (rotr 6 x) (rotr 11 x)) (rotr 25 x).
Definition sigma0 (x : Z) : Z := Z.lxor (Z.lxor (rotr 7 x) (rotr 18 x)) (Z.shiftr x 3).
Definition sigma1 (x : Z) : Z := Z.lxor (Z.lxor (rotr 17 x) (rotr 19 x)) (Z.shiftr x 10).

(** The first 64 primes. *)
Definition isPrime (n : Z) : bool :=
  forallb (fun d => negb (n mod Z.of_nat d =? 0)) (seq 2 (Z.to_nat n - 2)).

Definition primes : list Z :=
  firstn 64 (filter isPrime (map Z.of_nat (seq 2 310))).

(** The integer cube root, bit by bit from the top. *)
Definition icbrt (n : Z) : Z :=
  fold_left (fun r i =>
               let c := r + 2 ^ Z.of_nat (40 - i) in
               if c * c * c <=? n then c else r)
            (seq 0 41) 0.

(** The round constants: the first 32 bits of the fractional parts of the
    cube roots of the first 64 primes. *)
Definition K : list Z :=
  Eval vm_compute in map (fun p => w32 (icbrt (p * 2 ^ 96))) primes.

(** The initial hash value: the same of the square roots of the first 8
    primes. *)
Definition H0 : list Z :=
  Eval vm_compute in map (fun p => w32 (Z.sqrt (p * 2 ^ 64))) (firstn 8 primes).

Definition be32 (l : list Z) : Z :=
  fold_left (fun a x => a * 256 + x) l 0.

Definition be_bytes (n : nat) (x : Z) : list Z :=
  map (fun i => Z.shiftr x (8 * Z.of_nat (n - 1 - i)) mod 256) (seq 0 n).

(** Message padding: 0x80, zeros, the bit length on 64 bits. *)
Definition pad (m : list Z) : list Z :=
  let len := Z.of_nat (List.length m) in
  let zeros := Z.to_nat ((55 - len) mod 64) in
  m ++ [128] ++ repeat 0 zeros ++ be_bytes 8 (8 * len).

(** The message schedule, one word per step. *)
Fixpoint schedule (steps : nat) (w : list Z) : list Z :=
  match steps with
  | O => w
  | S k =>
      let t := List.length w in
      let x := add32 (add32 (sigma1 (nth (t - 2) w 0)) (nth (t - 7) w 0))
                 (add32 (sigma0 (nth (t - 15) w 0)) (nth (t - 16) w 0)) in
      schedule k (w ++ [x])
  end.

Definition round (st : list Z) (kw : Z * Z) : list Z :=
  match st with
  | [a; b; c; d; e; f; g; h] =>
      let t1 := add32 (add32 (add32 h (Sigma1 e)) (add32 (Ch e f g) (fst kw)))
                  (snd kw) in
      let t2 := add32 (Sigma0 a) (Maj a b c) in
      [add32 t1 t2; a; b; c; add32 d t1; e; f; g]
  | _ => st
  end.

Definition compress (h : list Z) (block : list Z) : list Z :=
  let w := schedule 48 (map be32 (chunks 16 4 block)) in
  let st := fold_left round (combine K w) h in
  map (fun p => add32 (fst p) (snd p)) (combine h st).

Definition sumZ (m : list Z) : list Z :=
  let p := pad m in
  let h := fold_left compress (chunks (List.length p) 64 p) H0 in
  flat_map (be_bytes 4) h.

(** [sha256.Sum256] *)
Definition Sum256 (m : bytes) : bytes := bytes_of_Zs (sumZ (Zs_of_bytes m)).

Definition BlockSize : nat := 64.

(** [hmac.New(sha256.New, key)], [Write(msg)], [Sum(nil)] *)
Definition HMAC (key msg : bytes) : bytes :=
  let k := Zs_of_bytes key in
  let k := if (BlockSize <? List.length k)%nat then sumZ k else k in
  let k := k ++ repeat 0 (BlockSize - List.length k) in
  let ipad := map (fun x => Z.lxor x 0x36) k in
  let opad := map (fun x => Z.lxor x 0x5c) k in
  bytes_of_Zs (sumZ (opad ++ sumZ (ipad ++ Zs_of_bytes msg))).

End Sha256.

Module Keccak.

Definition mask64 : Z := 18446744073709551615.

Definition rotl64 (n x : Z) : Z :=
  Z.lor (Z.land (Z.shiftl x n) mask64) (Z.shiftr x (64 - n)).

Definition RC : list Z :=
  [ 0x0000000000000001; 0x0000000000008082; 0x800000000000808A;
    0x8000000080008000; 0x000000000000808B; 0x0000000080000001;
    0x8000000080008081; 0x8000000000008009; 0x000000000000008A;
    0x0000000000000088; 0x0000000080008009; 0x000000008000000A;
    0x000000008000808B; 0x800000000000008B; 0x8000000000008089;
    0x8000000000008003; 0x8000000000008002; 0x8000000000000080;
    0x000000000000800A; 0x800000008000000A; 0x8000000080008081;
    0x8000000000008080; 0x0000000080000001; 0x8000000080008008 ].

(** Rotation offsets, at index [x + 5 * y]. *)
Definition rho : list Z :=
  [ 0; 1; 62; 28; 27;  36; 44; 6; 55; 20;  3; 10; 43; 25; 39;
    41; 45; 15; 21; 8;  18; 2; 61; 56; 14 ].

Definition lane (st : list Z) (x y : nat) : Z :=
  nth (x mod 5 + 5 * (y mod 5)) st 0.

Definition idx : list nat := seq 0 25.

Definition theta (st : list Z) : list Z :=
  let C := fun x => fold_left Z.lxor (map (lane st x) (seq 0 5)) 0 in
  let D := fun x => Z.lxor (C (x + 4)%nat) (rotl64 1 (C (x + 1)%nat)) in
  map (fun i => Z.lxor (nth i st 0) (D (i mod 5)%nat)) idx.

(** [B[y][2x+3y] = rot(A[x][y], r[x][y])], read from the target side. *)
Definition rhoPi (st : list Z) : list Z :=
  map (fun j =>
         let X := (j mod 5)%nat in
         let Y := (j / 5)%nat in
         let x := ((X + 3 * Y) mod 5)%nat in
         let y := X in
         rotl64 (nth (x + 5 * y) rho 0) (lane st x y)) idx.

Definition chi (st : list Z) : list Z :=
  map (fun i =>
         let x := (i mod 5)%nat in
         let y := (i / 5)%nat in
         Z.lxor (lane st x y)
           (Z.land (Z.lxor (lane st (x + 1) y) mask64) (lane st (x + 2) y)))
      idx.

Definition iota (rc : Z) (st : list Z) : list Z :=
  match st with
  | a :: r => Z.lxor a rc :: r
  | [] => []
  end.

Definition round (st : list Z) (rc : Z) : list Z :=
  iota rc (chi (rhoPi (theta st))).

Definition keccakF (st : list Z) : list Z := fold_left round RC st.

Definition rate : nat := 136.

Definition le64 (l : list Z) : Z :=
  fold_right (fun x a => a * 256 + x) 0 l.

Definition le_bytes (x : Z) : list Z :=
  map (fun i => Z.shiftr x (8 * Z.of_nat i) mod 256) (seq 0 8).

(** Keccak padding (the original [pad10*1] with the 0x01 domain byte). *)
Definition pad (m : list Z) : list Z :=
  let q := (rate - List.length m mod rate)%nat in
  match q with
  | 1%nat => m ++ [0x81]
  | _ => m ++ [0x01] ++ repeat 0 (q - 2) ++ [0x80]
  end.

Definition absorb (st : list Z) (block : list Z) : list Z :=
  let lanes := map le64 (chunks 17 8 block) ++ repeat 0 8 in
  keccakF (map (fun p => Z.lxor (fst p) (snd p)) (combine st lanes)).

Definition sumZ (m : list Z) : list Z :=
  let p := pad m in
  let st := fold_left absorb (chunks (List.length p) rate p) (repeat 0 25) in
  flat_map le_bytes (firstn 4 st).

(** [crypto.Keccak256] *)
Definition Keccak256 (m : bytes) : bytes := bytes_of_Zs (sumZ (Zs_of_bytes m)).

End Keccak.

(** Lower-case hexadecimal text of a byte string ([hex.EncodeToString]). *)
Definition hexdigit (d : Z) : ascii :=
  match String.get (Z.to_nat d) "0123456789abcdef" with
  | Some c => c
  | None => "0"%char
  end.

Fixpoint hexOf (b : bytes) : string :=
  match b with
  | [] => ""
  | x :: r =>
      String (hexdigit (Z_of_byte x / 16))
        (String (hexdigit (Z_of_byte x mod 16)) (hexOf r))
  end.

(* ================================================================== *)
(** * Notions used to state the properties *)

(** A text that is empty or starts with a decimal digit. *)
Definition digitHead (s : string) : Prop :=
  match s with
  | EmptyString => True
  | String c _ => exists d, 0 <= d <= 9 /\ c = Big.digitChar d
  end.

(** The value of a big-endian byte string, continuing from [a]. *)
Definition beAcc (a : Z) (b : bytes) : Z :=
  fold_left (fun a x => a * 256 + Z_of_byte x) b a.

Definition beValue (b : bytes) : Z := beAcc 0 b.

(** [leftPad32] of the protocol description: zero bytes in front, up to a
    total of 32 bytes. *)
Definition spec_leftPad32 (b : bytes) : bytes :=
  repeat x00 (32 - List.length b) ++ b.

Section DigestSpec.
Variable hash : bytes -> bytes.

(** The fixed hash of the canonical authorization type string. *)
Definition spec_typeHash : bytes :=
  hash (bytes_of_string TransferWithAuthorizationType).

(** [structHash = hash(typeHash ‖ leftPad32(from) ‖ leftPad32(to) ‖
    leftPad32(value) ‖ leftPad32(validAfter) ‖ leftPad32(validBefore) ‖ nonce)] *)
Definition spec_structHash (from to : bytes) (value validAfter validBefore : Z)
    (nonce : bytes) : bytes :=
  hash (spec_typeHash ++ spec_leftPad32 from ++ spec_leftPad32 to
          ++ spec_leftPad32 (Big.Bytes value)
          ++ spec_leftPad32 (Big.Bytes validAfter)
          ++ spec_leftPad32 (Big.Bytes validBefore) ++ nonce).

(** [digest = hash(0x19 ‖ 0x01 ‖ domainSeparator ‖ structHash)] *)
Definition spec_digest (domainSeparator structHash : bytes) : bytes :=
  hash (x19 :: x01 :: domainSeparator ++ structHash).
End DigestSpec.

(** The digest the description assigns to an authorization whose three
    amounts read as [v], [va] and [vb]. *)
Definition spec_signingDigest {W PM} (hash : bytes -> bytes) (evm : EvmPkg W PM)
    (a : ExactEIP3009Authorization) (v va vb : Z) (domainSeparator : bytes)
  : bytes :=
  spec_digest hash domainSeparator
    (spec_structHash hash (Common.HexToAddress (From a))
       (Common.HexToAddress (To a)) v va vb (fst (HexToBytes evm (Nonce a)))).

(** Integer lexical form: an optional sign and at least one decimal digit. *)
Definition allDigits (s : string) : bool :=
  forallb Http.isDigit (list_ascii_of_string s).

Definition integerLexical (s : string) : bool :=
  match s with
  | EmptyString => false
  | String c r =>
      if Ascii.eqb c "-" || Ascii.eqb c "+"
      then negb (String.eqb r "") && allDigits r
      else allDigits s
  end.

(** ** Runs of [CreatePaymentPayload], read off the trace *)

Definition isChainQuery (ev : Event) : bool :=
  match ev with
  | EvCallContract _ _ => true
  | _ => false
  end.

(** The answer of a call to the signing capability. *)
Definition signingAnswer (ev : Event) : option (result bytes) :=
  match ev with
  | EvSignDigest _ r => Some r
  | EvSignTypedData _ _ _ _ r => Some r
  | _ => None
  end.

Definition chainQueries (tr : list Event) : nat :=
  List.length (filter isChainQuery tr).

(** The pinned 32-byte domain separator. *)
Definition pinnedDomainSeparator : bytes :=
  fst (Hex.DecodeString pinnedDomainSeparatorHex).

(** The guard of the pinned shortcut. *)
Definition pinnedGuard (networkStr assetAddress : string) : bool :=
  String.eqb networkStr pinnedNetwork && String.eqb assetAddress pinnedAsset.

(** The first call that either signs or queries the chain. *)
Fixpoint firstSignOrQuery (tr : list Event) : option Event :=
  match tr with
  | [] => None
  | ev :: r =>
      match ev with
      | EvSignDigest _ _ | EvSignTypedData _ _ _ _ _ | EvCallContract _ _ => Some ev
      | _ => firstSignOrQuery r
      end
  end.

(** A run took the pinned shortcut when it signed a digest without having
    asked the chain for a separator first. *)
Definition pinnedPathTaken (tr : list Event) : bool :=
  match firstSignOrQuery tr with
  | Some (EvSignDigest _ _) => true
  | _ => false
  end.

Section Runs.
Context {W PM : Type}.
Variable Keccak256 : bytes -> bytes.
Variable evm : EvmPkg W PM.

(** The payload built from a signature. *)
Definition payloadOf (signature : bytes) (a : ExactEIP3009Authorization)
  : PaymentPayload PM :=
  mkPaymentPayload 2 (ToMap evm (mkEvmPayload (BytesToHex evm signature) a)).

(** What the caller gets from the answer of the standard signing path. *)
Definition signedResult (a : ExactEIP3009Authorization) (rs : result bytes)
  : result (PaymentPayload PM) :=
  match rs with
  | Ok signature => Ok (payloadOf signature a)
  | Err e =>
      Err (WrapError
             (ErrFailedToSignAuthorization evm ++ ": " ++ Error_ e)%string e)
  end.

Definition queryMsg (contract : string) : CallMsg :=
  mkCallMsg (Common.HexToAddress contract) (domainSeparatorSelector Keccak256).

Definition queryFailed (rq : result bytes) : Prop :=
  match rq with
  | Err _ => True
  | Ok res => (List.length res < 32)%nat
  end.

Variable c : ExactEvmScheme W.
Variable a : ExactEIP3009Authorization.
Variables v va vb : Z.

(** Traces of the standard signing path ([signAuthorization]) and the
    signer's answer they end with. *)
Inductive stdTrace (chainID : Z) (contract name version : string)
  : list Event -> result bytes -> Prop :=
| std_no_rpc rs :
    ethClient c = None ->
    stdTrace chainID contract name version
      [EvSignTypedData (mkDomain name version chainID contract) eip712Types
         "TransferWithAuthorization" (typedMessage evm a) rs] rs
| std_query_failed client rq rs :
    ethClient c = Some client -> queryFailed rq ->
    stdTrace chainID contract name version
      [EvCallContract (queryMsg contract) rq;
       EvSignTypedData (mkDomain name version chainID contract) eip712Types
         "TransferWithAuthorization" (typedMessage evm a) rs] rs
| std_query_ok client res rs :
    ethClient c = Some client -> (32 <= List.length res)%nat ->
    stdTrace chainID contract name version
      [EvCallContract (queryMsg contract) (Ok res);
       EvSignDigest (spec_signingDigest Keccak256 evm a v va vb (firstn 32 res)) rs]
      rs.

End Runs.

Section CreateRuns.
Context {W PM : Type}.
Variable Keccak256 : bytes -> bytes.
Variable evm : EvmPkg W PM.
Variable c : ExactEvmScheme W.
Variable req : PaymentRequirements.
Variable chainID : Z.
Variable assetInfo : AssetInfo.
Variable value : Z.

Definition tokenNameOf : string :=
  match assertString (Extra req) "name" with
  | Some name => name
  | None => Name assetInfo
  end.

Definition tokenVersionOf : string :=
  match assertString (Extra req) "version" with
  | Some ver => ver
  | None => Version assetInfo
  end.

(** The authorization built from the answers of the environment. *)
Definition authorizationOf (from nonce : string) (validAfter validBefore : Z)
  : ExactEIP3009Authorization :=
  mkAuthorization from (PayTo req) (Big.String_ value)
    (Big.String_ validAfter) (Big.String_ validBefore) nonce.

Definition prelude (from nonce : string) (validAfter validBefore : Z)
  : list Event :=
  [ EvCreateNonce (Ok nonce);
    EvCreateValidityWindow Hour (validAfter, validBefore);
    EvAddress from ].

(** Traces of [CreatePaymentPayload] once network, asset and amount are
    resolved, with the result the caller gets. *)
Inductive cppTrace : list Event -> result (PaymentPayload PM) -> Prop :=
| cpp_nonce_failed e :
    cppTrace [EvCreateNonce (Err e)] (Err e)
| cpp_pinned_signed from nonce va vb signature :
    pinnedGuard (Network req) (Address assetInfo) = true ->
    let a := authorizationOf from nonce va vb in
    cppTrace
      (prelude from nonce va vb
       ++ [EvSignDigest
             (spec_signingDigest Keccak256 evm a value va vb pinnedDomainSeparator)
             (Ok signature)])
      (Ok (payloadOf evm signature a))
| cpp_pinned_fallback from nonce va vb e tl rs :
    pinnedGuard (Network req) (Address assetInfo) = true ->
    let a := authorizationOf from nonce va vb in
    stdTrace Keccak256 evm c a value va vb chainID (Address assetInfo)
      tokenNameOf tokenVersionOf tl rs ->
    cppTrace
      (prelude from nonce va vb
       ++ EvSignDigest
            (spec_signingDigest Keccak256 evm a value va vb pinnedDomainSeparator)
            (Err e) :: tl)
      (signedResult evm a rs)
| cpp_standard from nonce va vb tl rs :
    pinnedGuard (Network req) (Address assetInfo) = false ->
    let a := authorizationOf from nonce va vb in
    stdTrace Keccak256 evm c a value va vb chainID (Address assetInfo)
      tokenNameOf tokenVersionOf tl rs ->
    cppTrace (prelude from nonce va vb ++ tl) (signedResult evm a rs).

End CreateRuns.

(** A run on a pinned pair: whatever call first signs or queries the chain
    is a digest signing under the pinned separator; if the signer answers it
    with a signature, the run has asked the chain nothing. *)
Definition pinnedSigning {W PM} (hash : bytes -> bytes) (evm : EvmPkg W PM)
    (req : PaymentRequirements) (value : Z) (tr : list Event) : Prop :=
  forall ev, firstSignOrQuery tr = Some ev ->
    exists from nonce va vb rs,
      ev = EvSignDigest
             (spec_signingDigest hash evm (authorizationOf req value from nonce va vb)
                value va vb pinnedDomainSeparator) rs
      /\ (forall signature, rs = Ok signature -> chainQueries tr = 0%nat).

Section PathRuns.
Context {W PM : Type}.
Variable Keccak256 : bytes -> bytes.
Variable evm : EvmPkg W PM.
Variable c : ExactEvmScheme W.
Variable req : PaymentRequirements.
Variable chainID : Z.
Variable assetInfo : AssetInfo.
Variable value : Z.

(** The number of contract calls the standard path makes: one when an RPC
    client is configured, none otherwise. *)
Definition queriesOf : nat :=
  match ethClient c with
  | Some _ => 1%nat
  | None => 0%nat
  end.

(** The standard signing path was run with the authorization built from
    [from], [nonce] and the window: [tl] are its calls (the chain query,
    if an RPC client is configured, then one signing request: a digest
    under the first 32 bytes the chain returned, typed data otherwise),
    and the caller gets what the answer [rs] of that signing request
    gives. *)
Definition standardRun (from nonce : string) (va vb : Z) (tl : list Event)
    (r : result (PaymentPayload PM)) : Prop :=
  let a := authorizationOf req value from nonce va vb in
  exists rs,
    stdTrace Keccak256 evm c a value va vb chainID (Address assetInfo)
      (tokenNameOf req assetInfo) (tokenVersionOf req assetInfo) tl rs
    /\ chainQueries tl = queriesOf
    /\ r = signedResult evm a rs.

(** A run on the pinned pair: unless the nonce source fails, the first
    call after nonce, window and address is a digest signing under the
    pinned separator.  If the signer answers it with a signature, that is
    the whole run and the payload carries it; if the signer refuses, the
    standard path is run next and decides the result. *)
Definition pinnedRun (tr : list Event) (r : result (PaymentPayload PM))
  : Prop :=
  (exists e, tr = [EvCreateNonce (Err e)] /\ r = Err e)
  \/ exists from nonce va vb rs tl,
       let a := authorizationOf req value from nonce va vb in
       tr = prelude from nonce va vb
            ++ EvSignDigest
                 (spec_signingDigest Keccak256 evm a value va vb
                    pinnedDomainSeparator) rs :: tl
       /\ match rs with
          | Ok signature => tl = [] /\ r = Ok (payloadOf evm signature a)
          | Err _ => standardRun from nonce va vb tl r
          end.

(** A run off the pinned pair: unless the nonce source fails, the
    standard path follows nonce, window and address at once. *)
Definition unpinnedRun (tr : list Event) (r : result (PaymentPayload PM))
  : Prop :=
  (exists e, tr = [EvCreateNonce (Err e)] /\ r = Err e)
  \/ exists from nonce va vb tl,
       tr = prelude from nonce va vb ++ tl
       /\ standardRun from nonce va vb tl r.

End PathRuns.

(** ** Requests of the facilitator client, read off the trace *)

Import Http.

Definition isDo (ev : HttpEvent) : bool :=
  match ev with
  | EvDo _ _ => true
  | _ => false
  end.

(** The number of HTTP requests a trace sends. *)
Definition posts (tr : list HttpEvent) : nat := List.length (filter isDo tr).

(** Whether a header map of the auth provider writes the header [k]. *)
Definition touches (hs : list (string * string)) (k : string) : bool :=
  existsb (fun kv => String.eqb (CanonicalMIMEHeaderKey (fst kv))
                       (CanonicalMIMEHeaderKey k)) hs.

(** The request carries [k: v] unless the provider's headers [hs] wrote [k]. *)
Definition attached (hs : list (string * string)) (r : Request) (k v : string)
  : Prop :=
  touches hs k = false -> Get (Hdr r) k = Some v.

(** ASCII white space only (the empty text included, which is what
    [os.Getenv] gives for an unset variable). *)
Definition blank (s : string) : bool :=
  forallb Strings.asciiSpace (list_ascii_of_string s).

(** The body [{action, params}] of a verify or settle request. *)
Definition spec_requestBody (action : string) (version : Z)
    (payload requirements : option gomap) : value :=
  VMap [ ("action", VString action);
         ("params", VMap [ ("x402Version", VInt version);
                           ("paymentPayload", mapValue payload);
                           ("paymentRequirements", mapValue requirements) ]) ].

Definition spec_supportedBody : value :=
  VMap [ ("action", VString "x402.supported"); ("params", VMap []) ].

Section HttpRuns.
Context {W SR : Type}.
Variable env : HttpEnv W SR.

(** The request [applyGateWeb3Signature] leaves when credentials are
    configured, the clock answered [ts] and the UUID source [id]. *)
Definition signedRequest (creds : gateWeb3Credentials) (ts : Z) (id : string)
    (req : Request) (body : bytes) (targetURI : string) : Request :=
  let prehash := prehashOf ts gateWeb3SigningPath body in
  let signature := signatureOf env (APISecret creds) prehash in
  let req := setHeader req "X-Api-Key" (APIKey creds) in
  let req := setHeader req "X-Timestamp" (fmt_d ts) in
  let req := setHeader req "X-Signature" signature in
  let req := if negb (String.eqb (Passphrase creds) "")
             then setHeader req "X-Passphrase" (Passphrase creds) else req in
  let req := if negb (String.eqb (RealIP creds) "")
             then setHeader req "X-Forwarded-For" (RealIP creds) else req in
  let req := setHeader req "X-Request-Id" id in
  setHeader req "x-target-uri" (TrimPrefix targetURI "/").

(** [prehash = timestamp ‖ signingPath ‖ rawRequestBody],
    [signature = base64(HMAC-SHA256(secret, prehash))]. *)
Definition spec_signature (secret : string) (ts : Z) (path : string)
    (body : bytes) : string :=
  Base64.EncodeToString
    (HMAC_SHA256 env (bytes_of_string secret)
       (bytes_of_string (fmt_d ts) ++ bytes_of_string path ++ body)).

(** The headers of the signing scheme, as far as the provider's headers
    [hs] left them alone. *)
Definition gateWeb3Signed (creds : gateWeb3Credentials) (ts : Z) (id : string)
    (hs : list (string * string)) (r : Request) : Prop :=
  attached hs r "X-Api-Key" (APIKey creds)
  /\ attached hs r "X-Timestamp" (fmt_d ts)
  /\ attached hs r "X-Signature"
       (spec_signature (APISecret creds) ts gateWeb3SigningPath (Body r))
  /\ attached hs r "X-Request-Id" id
  /\ (Passphrase creds <> "" ->
      attached hs r "X-Passphrase" (Passphrase creds))
  /\ (RealIP creds <> "" ->
      attached hs r "X-Forwarded-For" (RealIP creds)).

Variable c : HTTPFacilitatorClient W.
Variable body : bytes.
Variable targetURI : string.
Variable pick : AuthHeaders -> list (string * string).
Variables createMsg sendMsg readMsg : string.

(** The request before signing. *)
Definition baseRequest : Request :=
  setHeader (mkRequest MethodPost (url c) [] body)
    "Content-Type" "application/json".

(** The signing step: its trace and the request it leaves, from the
    world [w]. *)
Inductive sigTrace (w : W) : list HttpEvent -> Request -> Prop :=
| sig_off :
    loadGateWeb3Credentials env w = None ->
    sigTrace w [] baseRequest
| sig_on creds ts id :
    loadGateWeb3Credentials env w = Some creds ->
    sigTrace w [EvNow ts; EvNewUUID id]
      (signedRequest creds ts id baseRequest body targetURI).

(** The provider step: its trace and the headers it contributes. *)
Inductive authTrace : list HttpEvent -> list (string * string) -> Prop :=
| auth_none :
    authProvider c = None -> authTrace [] []
| auth_some ap ah :
    authProvider c = Some ap ->
    authTrace [EvGetAuthHeaders (Ok ah)] (pick ah).

Definition respResult (rr : result Response) : result (Response * bytes) :=
  match rr with
  | Err e => Err (Errorf_w sendMsg e)
  | Ok resp =>
      match ReadAll resp with
      | Err e => Err (Errorf_w readMsg e)
      | Ok responseBody => Ok (resp, responseBody)
      end
  end.

(** Traces of one round trip started in world [w]. *)
Inductive rtTrace (w : W)
  : list HttpEvent -> result (Response * bytes) -> Prop :=
| rt_bad_url e :
    checkURL env (url c) = Some e ->
    rtTrace w [] (Err (Errorf_w createMsg e))
| rt_auth_failed tsig req1 ap e :
    checkURL env (url c) = None ->
    sigTrace w tsig req1 ->
    authProvider c = Some ap ->
    rtTrace w (tsig ++ [EvGetAuthHeaders (Err e)])
      (Err (Errorf_w "failed to get auth headers: " e))
| rt_sent tsig req1 tauth hs rr :
    checkURL env (url c) = None ->
    sigTrace w tsig req1 ->
    authTrace tauth hs ->
    rtTrace w (tsig ++ tauth ++ [EvDo (setAll req1 hs) rr]) (respResult rr).

End HttpRuns.

Section HttpOutcomes.
Context {W SR : Type}.
Variable env : HttpEnv W SR.

(** What [verifyHTTP], [settleHTTP] and [GetSupported] make of the outcome
    of the round trip. *)
Definition verifyOutcome (rt : result (Response * bytes))
  : result VerifyResponse :=
  match rt with
  | Err e => Err e
  | Ok (resp, responseBody) =>
      match UnmarshalVerify env responseBody with
      | None =>
          Err (ErrorString
                 (decodeFailedMsg "verify" (StatusCode resp) responseBody))
      | Some apiResp =>
          if negb (StatusCode resp =? StatusOK) || negb (Code apiResp =? 0)
          then
            if negb (String.eqb (InvalidReason (Data apiResp)) "")
            then Err (VerifyError (InvalidReason (Data apiResp))
                        (vPayer (Data apiResp)) ""
                        (ErrorString (returnedMsg (StatusCode resp)
                           (Code apiResp) (Msg apiResp))))
            else Err (ErrorString
                        (failedMsg "verify" (StatusCode resp) (Code apiResp)
                           (Msg apiResp)))
          else Ok (Data apiResp)
      end
  end.

Definition settleOutcome (rt : result (Response * bytes))
  : result SettleResponse :=
  match rt with
  | Err e => Err e
  | Ok (resp, responseBody) =>
      match UnmarshalSettle env responseBody with
      | None =>
          Err (ErrorString
                 (decodeFailedMsg "settle" (StatusCode resp) responseBody))
      | Some apiResp =>
          if negb (StatusCode resp =? StatusOK) || negb (Code apiResp =? 0)
          then
            if negb (String.eqb (ErrorReason (Data apiResp)) "")
            then Err (SettleError (ErrorReason (Data apiResp))
                        (sPayer (Data apiResp)) (sNetwork (Data apiResp))
                        (Transaction (Data apiResp))
                        (ErrorString (returnedMsg (StatusCode resp)
                           (Code apiResp) (Msg apiResp))))
            else Err (ErrorString
                        (failedMsg "settle" (StatusCode resp) (Code apiResp)
                           (Msg apiResp)))
          else Ok (Data apiResp)
      end
  end.

Definition supportedOutcome (rt : result (Response * bytes)) : result SR :=
  match rt with
  | Err e => Err e
  | Ok (resp, responseBody) =>
      match UnmarshalSupported env responseBody with
      | None =>
          Err (ErrorString
                 ("failed to decode supported response ("
                    ++ fmt_d (StatusCode resp) ++ "): "
                    ++ string_of_list_byte responseBody)%string)
      | Some apiResp =>
          if negb (StatusCode resp =? StatusOK) || negb (Code apiResp =? 0)
          then Err (ErrorString
                      (failedMsg "supported" (StatusCode resp) (Code apiResp)
                         (Msg apiResp)))
          else Ok (Data apiResp)
      end
  end.

(** The JSON value a verify or settle call is to send, when version
    detection and both generic parses succeed. *)
Definition spec_actionBody (action : string)
    (payloadBytes requirementsBytes : bytes) : option value :=
  match DetectVersion env payloadBytes, UnmarshalMap env payloadBytes,
        UnmarshalMap env requirementsBytes with
  | Ok version, Ok payload, Ok requirements =>
      Some (spec_requestBody action version payload requirements)
  | _, _, _ => None
  end.

Variable c : HTTPFacilitatorClient W.

(** The headers the auth provider contributed in a run. *)
Definition providerHeaders (pick : AuthHeaders -> list (string * string))
    (tr : list HttpEvent) (hs : list (string * string)) : Prop :=
  (authProvider c = None /\ hs = [])
  \/ (exists ah, In (EvGetAuthHeaders (Ok ah)) tr /\ hs = pick ah).

(** One operation, one POST: never more than one request; a request that
    is sent is a POST to the configured URL whose body is the serialized
    value [bodyValue]; and one is sent whenever that value exists and
    serializes, the URL is accepted and the auth provider did not fail. *)
Definition singlePost (bodyValue : option value) (tr : list HttpEvent) : Prop :=
  (posts tr <= 1)%nat
  /\ (forall q rr, In (EvDo q rr) tr ->
        Method q = "POST" /\ URL q = url c
        /\ exists v, bodyValue = Some v /\ Marshal env v = Ok (Body q))
  /\ (forall v body,
        bodyValue = Some v -> Marshal env v = Ok body ->
        checkURL env (url c) = None ->
        (forall e, ~ In (EvGetAuthHeaders (Err e)) tr) ->
        posts tr = 1%nat).

(** Every request sent in the run is signed with [creds]. *)
Definition signedPosts (pick : AuthHeaders -> list (string * string))
    (creds : gateWeb3Credentials) (tr : list HttpEvent) : Prop :=
  forall q rr, In (EvDo q rr) tr ->
    exists ts id hs,
      In (EvNow ts) tr /\ In (EvNewUUID id) tr
      /\ providerHeaders pick tr hs
      /\ gateWeb3Signed env creds ts id hs q.

(** Every request sent in the run carries Content-Type and the provider's
    headers, and nothing else; the clock and the UUID source were not
    consulted. *)
Definition unsignedPosts (pick : AuthHeaders -> list (string * string))
    (tr : list HttpEvent) : Prop :=
  (forall ts, ~ In (EvNow ts) tr)
  /\ (forall id, ~ In (EvNewUUID id) tr)
  /\ forall q rr, In (EvDo q rr) tr ->
       exists hs, providerHeaders pick tr hs
                  /\ q = setAll (baseRequest c (Body q)) hs.

(** The outcome of the operation is the one the response [resp]
    determines, for every response received in the run. *)
Definition answered {A} (outcome : result (Response * bytes) -> result A)
    (tr : list HttpEvent) (r : result A) : Prop :=
  forall q resp responseBody,
    In (EvDo q (Ok resp)) tr -> ReadAll resp = Ok responseBody ->
    r = outcome (Ok (resp, responseBody)).

End HttpOutcomes.

(** The headers of the signing scheme. *)
Definition gateWeb3Headers : list string :=
  [ "X-Api-Key"; "X-Timestamp"; "X-Signature"; "X-Request-Id"; "X-Passphrase";
    "X-Forwarded-For"; "x-target-uri" ].

Section OperationRuns.
Context {W SR A : Type}.
Variable env : HttpEnv W SR.
Variable c : HTTPFacilitatorClient W.
Variable outcome : result (Response * bytes) -> result A.
Variable bodyValue : option value.
Variable targetURI : string.
Variable pick : AuthHeaders -> list (string * string).
Variables createMsg sendMsg readMsg : string.

(** A run of one operation from world [w]: it stops before any call when
    the request body cannot be built, and is a round trip otherwise. *)
Definition opRun (w : W) (tr : list HttpEvent) (r : result A) : Prop :=
  (tr = [] /\ (exists e, r = Err e)
   /\ forall v body, bodyValue = Some v -> Marshal env v = Ok body -> False)
  \/ (exists v body rt,
        bodyValue = Some v /\ Marshal env v = Ok body
        /\ rtTrace env c body targetURI pick createMsg sendMsg readMsg w tr rt
        /\ r = outcome rt
        /\ (forall e, rt = Err e -> outcome rt = Err e)).

End OperationRuns.

(** The position of a character in the base64 alphabet, [-1] outside it. *)
Fixpoint alphabetIndex (ch : ascii) (s : string) (i : Z) : Z :=
  match s with
  | EmptyString => -1
  | String c r => if Ascii.eqb ch c then i else alphabetIndex ch r (i + 1)
  end.

Definition base64Index (ch : ascii) : Z := alphabetIndex ch Base64.encodeStd 0.

(** Exactly one of timestamp, signing path and body differs. *)
Definition oneChanged (ts : Z) (path : string) (body : bytes)
    (ts' : Z) (path' : string) (body' : bytes) : Prop :=
  (ts <> ts' /\ path = path' /\ body = body')
  \/ (ts = ts' /\ path <> path' /\ body = body')
  \/ (ts = ts' /\ path = path' /\ body <> body').

(** HMAC-SHA256 under [secret] does not map the two messages to one tag. *)
Definition noCollision {W SR} (env : HttpEnv W SR) (secret : string)
    (m m' : string) : Prop :=
  HMAC_SHA256 env (bytes_of_string secret) (bytes_of_string m)
  = HMAC_SHA256 env (bytes_of_string secret) (bytes_of_string m') ->
  m = m'.

(* ================================================================== *)
(** * A concrete environment for the exact-scheme client *)

(** The world of the concrete runs: whether the signer accepts to sign a raw
    digest, whether it accepts typed data, the clock, and what the token
    contract answers to DOMAIN_SEPARATOR(). *)
Record SchemeWorld : Type := mkSchemeWorld {
  digestSigning : bool;
  typedSigning : bool;
  unixNow : Z;
  chainAnswer : result bytes
}.

(** A signer that stands for a wallet: its signatures are 65 bytes derived
    from the request, and it refuses what the world tells it to refuse. *)
Definition demoSigner : ClientEvmSigner SchemeWorld :=
  mkSigner SchemeWorld
    (fun w => ("0x857b06519E91e3A54538791bDbb0E22373e36b66", w))
    (fun digest w =>
       (if digestSigning w then Ok (digest ++ digest ++ [x1b])
        else Err (ErrorString "signer: digest signing refused"), w))
    (fun _ _ _ _ w =>
       (if typedSigning w then Ok (repeat x2a 64 ++ [x1c])
        else Err (ErrorString "signer: typed-data signing refused"), w)).

Definition demoRPC : EthClient SchemeWorld :=
  mkEthClient SchemeWorld (fun _ w => (chainAnswer w, w)).

(** Modelled from the spec: [evm.GetEvmChainId], whose source is not part of
    this development; a network of the table has its chain id, any other is
    an unsupported network. *)
Definition demoGetEvmChainId (network : string) : result Z :=
  match lookup network NetworkConfigs with
  | Some cfg => Ok (ChainID cfg)
  | None => Err (ErrorString ("unsupported network: " ++ network)%string)
  end.

(** Modelled from the spec: [evm.GetAssetInfo], whose source is not part of
    this development; an explicit asset address is kept, an empty one
    resolves to the default asset of the network. *)
Definition demoGetAssetInfo (network asset : string) : result AssetInfo :=
  match lookup network NetworkConfigs with
  | Some cfg =>
      if String.eqb asset "" then Ok (DefaultAsset cfg)
      else Ok (mkAssetInfo asset (Name (DefaultAsset cfg))
                 (Version (DefaultAsset cfg)) (Decimals (DefaultAsset cfg)))
  | None => Err (ErrorString ("unsupported network: " ++ network)%string)
  end.

(** Modelled from the spec: [evm.HexToBytes] and [evm.BytesToHex], whose
    source is not part of this development; hexadecimal text with a 0x
    prefix. *)
Definition demoHexToBytes (s : string) : bytes * option error :=
  let r := Hex.DecodeString (TrimPrefix s "0x") in
  (fst r, if snd r then None else Some (ErrorString "encoding/hex: invalid text")).

Definition demoBytesToHex (b : bytes) : string := ("0x" ++ hexOf b)%string.

(** Modelled from the spec: the rest of package [evm] and the two error
    codes of package [client], whose source is not part of this
    development: a fixed nonce, the validity window [now, now + window),
    the payload kept as the typed structure, and error codes named as the
    description names the errors. *)
Definition demoEvm : EvmPkg SchemeWorld ExactEIP3009Payload :=
  mkEvmPkg SchemeWorld ExactEIP3009Payload
    demoGetEvmChainId
    demoGetAssetInfo
    (fun w =>
       (Ok "0x00112233445566778899aabbccddeeff00112233445566778899aabbccddeeff", w))
    (fun d w => ((unixNow w, unixNow w + d / 1000000000), w))
    demoHexToBytes
    demoBytesToHex
    (fun p => p)
    "InvalidAmount"
    "FailedToSignAuthorization".

Definition demoScheme : ExactEvmScheme SchemeWorld :=
  NewExactEvmScheme demoSigner.

(** The same scheme after [SetRPCURL]. *)
Definition demoSchemeRPC : ExactEvmScheme SchemeWorld :=
  fst (SetRPCURL (fun _ => Ok demoRPC) demoScheme "https://rpc.example").

Definition demoRequirements (network amount : string) : PaymentRequirements :=
  mkRequirements "exact" network "" amount
    "0x209693Bc6afc0C5328bA36FaF03C514EF312287C" 60 None.

(** A wallet that signs everything, at a fixed time, with no chain behind. *)
Definition calmWorld : SchemeWorld :=
  mkSchemeWorld true true 1700000000 (Err (ErrorString "no chain")).

(** A wallet that cannot sign raw digests, in front of a chain that answers. *)
Definition typedOnlyWorld : SchemeWorld :=
  mkSchemeWorld false true 1700000000 (Ok (repeat x07 32)).

(** A wallet that refuses every request. *)
Definition refusingWorld : SchemeWorld :=
  mkSchemeWorld false false 1700000000 (Ok (repeat x07 32)).

Definition demoAuthorization : ExactEIP3009Authorization :=
  mkAuthorization "0x857b06519E91e3A54538791bDbb0E22373e36b66"
    "0x209693Bc6afc0C5328bA36FaF03C514EF312287C" "1000" "1700000000"
    "1700003600"
    "0x00112233445566778899aabbccddeeff00112233445566778899aabbccddeeff".

(* ================================================================== *)
(** * A concrete environment for the facilitator client *)

(** The double quote, which a string literal cannot hold. *)
Definition dq : string := String (ascii_of_N 34) "".

Fixpoint insertEntry (kv : string * string) (l : list (string * string))
  : list (string * string) :=
  match l with
  | [] => [kv]
  | kv' :: r =>
      if String.leb (fst kv) (fst kv') then kv :: l else kv' :: insertEntry kv r
  end.

Definition sortEntries (l : list (string * string)) : list (string * string) :=
  fold_right insertEntry [] l.

Definition two : float64 := 0x4000000000000000.

(** The text of the numbers of the concrete runs. *)
Definition floatText (f : float64) : string :=
  if f =? two then "2" else if f =? 0x3FF0000000000000 then "1" else "0".

(** JSON text as [json.Marshal] writes it for the values of the concrete
    runs: object keys in sorted order, strings that need no escape. *)
Fixpoint jsonText (v : value) : string :=
  match v with
  | VNil => "null"
  | VBool b => if b then "true" else "false"
  | VFloat64 f => floatText f
  | VInt n => Big.String_ n
  | VString s => dq ++ s ++ dq
  | VSlice l =>
      "[" ++ String.concat ","
               ((fix items (l : list value) : list string :=
                   match l with
                   | [] => []
                   | x :: r => jsonText x :: items r
                   end) l) ++ "]"
  | VMap m =>
      "{" ++ String.concat ","
               (map (fun kv => dq ++ fst kv ++ dq ++ ":" ++ snd kv)
                  (sortEntries
                     ((fix entries (m : list (string * value))
                         : list (string * string) :=
                         match m with
                         | [] => []
                         | (k, x) :: r => (k, jsonText x) :: entries r
                         end) m))) ++ "}"
  end%string.

Definition jsonBytes (v : value) : bytes := bytes_of_string (jsonText v).

Definition sameBytes (a b : bytes) : bool :=
  String.eqb (string_of_list_byte a) (string_of_list_byte b).

(** A V2 payment payload and its requirements as generic maps, each with a
    field the typed structures do not know. *)
Definition demoPayloadMap : gomap :=
  [ ("x402Version", VFloat64 two);
    ("payload",
     VMap [ ("signature", VString "0x2a2a1c");
            ("authorization",
             VMap [ ("from", VString "0x857b06519E91e3A54538791bDbb0E22373e36b66");
                    ("to", VString "0x209693Bc6afc0C5328bA36FaF03C514EF312287C");
                    ("value", VString "1000") ]) ]);
    ("extensions", VMap [ ("bazaar", VString "kept") ]) ].

Definition demoRequirementsMap : gomap :=
  [ ("scheme", VString "exact");
    ("network", VString "gatelayer_testnet");
    ("amount", VString "1000");
    ("payTo", VString "0x209693Bc6afc0C5328bA36FaF03C514EF312287C");
    ("futureField", VSlice [VString "kept"; VBool true]) ].

Definition demoPayloadBytes : bytes := jsonBytes (VMap demoPayloadMap).
Definition demoRequirementsBytes : bytes := jsonBytes (VMap demoRequirementsMap).

(** Three facilitator answers: a rejection without a reason, a rejection
    with one, and an acceptance. *)
Definition rejectionPlain : facilitatorAPIResponse VerifyResponse :=
  mkAPIResponse 1 "internal error" (mkVerifyResponse false "" "").

Definition rejectionReasoned : facilitatorAPIResponse VerifyResponse :=
  mkAPIResponse 1 "rejected"
    (mkVerifyResponse false "insufficient_funds"
       "0x857b06519E91e3A54538791bDbb0E22373e36b66").

Definition acceptance : facilitatorAPIResponse VerifyResponse :=
  mkAPIResponse 0 "" (mkVerifyResponse true ""
                        "0x857b06519E91e3A54538791bDbb0E22373e36b66").

Definition envelopeValue (r : facilitatorAPIResponse VerifyResponse) : value :=
  VMap [ ("code", VInt (Code r)); ("msg", VString (Msg r));
         ("data", VMap [ ("isValid", VBool (IsValid (Data r)));
                         ("invalidReason", VString (InvalidReason (Data r)));
                         ("payer", VString (vPayer (Data r))) ]) ].

Definition envelopeBytes (r : facilitatorAPIResponse VerifyResponse) : bytes :=
  jsonBytes (envelopeValue r).

Record HttpWorld : Type := mkHttpWorld {
  environ : list (string * string);
  millis : Z;
  reply : result Response;
  providerAnswer : result AuthHeaders
}.

(** The JSON decoders of the concrete runs read the documents above and
    refuse any other text. *)
Definition demoUnmarshalMap (b : bytes) : result (option gomap) :=
  if sameBytes b demoPayloadBytes then Ok (Some demoPayloadMap)
  else if sameBytes b demoRequirementsBytes then Ok (Some demoRequirementsMap)
  else if sameBytes b (bytes_of_string "null") then Ok None
  else Err (ErrorString "invalid character").

Definition demoUnmarshalVerify (b : bytes)
  : option (facilitatorAPIResponse VerifyResponse) :=
  if sameBytes b (envelopeBytes rejectionPlain) then Some rejectionPlain
  else if sameBytes b (envelopeBytes rejectionReasoned) then Some rejectionReasoned
  else if sameBytes b (envelopeBytes acceptance) then Some acceptance
  else None.

(** Modelled from the spec: [types.DetectVersion], whose source is not part
    of this development; the version is read off the payload. *)
Definition demoDetectVersion (b : bytes) : result Z :=
  if sameBytes b demoPayloadBytes then Ok 2
  else Err (ErrorString "unsupported x402 version").

(** [unicode.IsSpace] of Go's library on UTF-8 text: the encodings of the
    white-space characters (tab to carriage return, space, U+0085, U+00A0,
    U+1680, U+2000 to U+200A, U+2028, U+2029, U+202F, U+205F, U+3000). *)
Definition utf8 (codes : list N) : string :=
  string_of_list_ascii (map ascii_of_N codes).

Definition unicodeSpaces : list string :=
  map utf8
    ([ [9]; [10]; [11]; [12]; [13]; [32]; [194; 133]; [194; 160];
       [225; 154; 128] ]
     ++ map (fun k => [226; 128; 128 + N.of_nat k]) (seq 0 11)
     ++ [ [226; 128; 168]; [226; 128; 169]; [226; 128; 175];
          [226; 129; 159]; [227; 128; 128] ])%N.

(** Drops the white-space characters among [spaces] that [s] starts with. *)
Fixpoint dropLeading (spaces : list string) (fuel : nat) (s : string) : string :=
  match fuel with
  | O => s
  | S f =>
      match find (fun e => String.prefix e s) spaces with
      | Some e =>
          dropLeading spaces f
            (substring (String.length e) (String.length s - String.length e) s)
      | None => s
      end
  end.

(** [strings.TrimRightFunc(s, unicode.IsSpace)] and
    [strings.TrimFunc(s, unicode.IsSpace)]. *)
Definition demoTrimRight (s : string) : string :=
  Strings.rev_string
    (dropLeading (map Strings.rev_string unicodeSpaces) (String.length s)
       (Strings.rev_string s)).

Definition demoTrim (s : string) : string :=
  demoTrimRight (dropLeading unicodeSpaces (String.length s) s).

Definition demoHttpEnv : HttpEnv HttpWorld (list string) :=
  mkHttpEnv HttpWorld (list string)
    (fun w k => match lookup k (environ w) with Some v => v | None => "" end)
    (fun w => (millis w, w))
    (fun w => ("7c9e6679-7425-40de-944b-e07fc1f90ae7", w))
    (fun v => Ok (jsonBytes v))
    demoUnmarshalMap
    demoUnmarshalVerify
    (fun _ => None)
    (fun _ => None)
    demoDetectVersion
    (fun u => if String.prefix "http" u then None
              else Some (ErrorString "unsupported protocol scheme"))
    Sha256.HMAC
    demoTrim
    demoTrimRight.

Definition demoHttpClient : HttpClient HttpWorld :=
  mkHttpClient HttpWorld (fun _ w => (reply w, w)).

Definition demoProvider : AuthProvider HttpWorld :=
  mkAuthProvider HttpWorld (fun w => (providerAnswer w, w)).

Definition demoClient : HTTPFacilitatorClient HttpWorld :=
  NewHTTPFacilitatorClient (fun _ => demoHttpClient)
    (Some (mkFacilitatorConfig HttpWorld "" (Some demoHttpClient) None 0 "")).

Definition demoClientWithProvider : HTTPFacilitatorClient HttpWorld :=
  NewHTTPFacilitatorClient (fun _ => demoHttpClient)
    (Some (mkFacilitatorConfig HttpWorld "" (Some demoHttpClient)
             (Some demoProvider) 0 "")).

Definition answerWith (r : facilitatorAPIResponse VerifyResponse)
  : result Response :=
  Ok (mkResponse 200 (Ok (envelopeBytes r))).

Definition demoAuthHeaders : AuthHeaders :=
  mkAuthHeaders [("Authorization", "Bearer verify-token")]
    [("Authorization", "Bearer settle-token")] [].

(** Credentials configured (the key with blanks around it). *)
Definition signedWorld (r : facilitatorAPIResponse VerifyResponse) : HttpWorld :=
  mkHttpWorld
    [ ("GATE_WEB3_API_KEY", " ak-demo ");
      ("GATE_WEB3_API_SECRET", "sk-demo");
      ("GATE_WEB3_PASSPHRASE", "open sesame") ]
    1700000000000 (answerWith r) (Ok demoAuthHeaders).

(** The secret is set to blanks only. *)
Definition unsignedWorld : HttpWorld :=
  mkHttpWorld
    [ ("GATE_WEB3_API_KEY", "ak-demo"); ("GATE_WEB3_API_SECRET", "   ") ]
    1700000000000 (answerWith acceptance) (Ok demoAuthHeaders).

(** No credentials, and an auth provider that fails. *)
Definition providerDownWorld : HttpWorld :=
  mkHttpWorld [] 1700000000000 (answerWith acceptance)
    (Err (ErrorString "token service unavailable")).

(** The key holds a no-break space and an em space (U+00A0, U+2003). *)
Definition unicodeBlankWorld : HttpWorld :=
  mkHttpWorld
    [ ("GATE_WEB3_API_KEY", utf8 [194; 160; 226; 128; 131]%N);
      ("GATE_WEB3_API_SECRET", "sk-demo") ]
    1700000000000 (answerWith acceptance) (Ok demoAuthHeaders).

Definition demoCreds : gateWeb3Credentials :=
  mkCredentials "ak-demo" "sk-demo" "open sesame" "127.0.0.1".

(* ================================================================== *)
(** * Proof tools *)

(** Splits an equation between two texts into equations between their
    characters. *)
Ltac split_text :=
  repeat match goal with
  | H : String _ _ = String _ _ |- _ => injection H; clear H; intros
  end.

(** Turns equations between base64 characters into equations between
    sextets, given that [Base64.enc] is injective on sextets ([inj]) and
    never yields the padding character ([notpad]). *)
Ltac sextets_by inj notpad :=
  repeat match goal with
  | H : Base64.enc ?x = Base64.enc ?y |- _ =>
      apply inj in H; [| apply Z.mod_pos_bound; lia ..]
  | H : Base64.enc ?x = "="%char |- _ =>
      exfalso; revert H; apply notpad; apply Z.mod_pos_bound; lia
  | H : "="%char = Base64.enc ?x |- _ =>
      exfalso; symmetry in H; revert H; apply notpad;
      apply Z.mod_pos_bound; lia
  end.

(** Records the range of every byte in the context, given the lemma
    [range] that bounds [Z_of_byte]. *)
Ltac byte_ranges_by range :=
  repeat match goal with
  | b : byte |- _ =>
      lazymatch goal with
      | _ : 0 <= Z_of_byte b < 256 |- _ => fail
      | _ => pose proof (range b)
      end
  end.


(* ================================================================== *)
(** * Further notions: the exact-scheme client *)

(** The bytes hashed into the struct hash: the type hash, five padded
    words and the nonce. *)
Definition structEncoding {W PM} (hash : bytes -> bytes) (evm : EvmPkg W PM)
    (a : ExactEIP3009Authorization) (v va vb : Z) : bytes :=
  spec_typeHash hash
  ++ spec_leftPad32 (Common.HexToAddress (From a))
  ++ spec_leftPad32 (Common.HexToAddress (To a))
  ++ spec_leftPad32 (Big.Bytes v)
  ++ spec_leftPad32 (Big.Bytes va)
  ++ spec_leftPad32 (Big.Bytes vb)
  ++ fst (HexToBytes evm (Nonce a)).

Definition isNonceDraw (ev : Event) : bool :=
  match ev with EvCreateNonce _ => true | _ => false end.

Definition isWindowDraw (ev : Event) : bool :=
  match ev with EvCreateValidityWindow _ _ => true | _ => false end.

Definition isAddressRead (ev : Event) : bool :=
  match ev with EvAddress _ => true | _ => false end.

Definition isSigning (ev : Event) : bool :=
  match signingAnswer ev with Some _ => true | None => false end.

(** How many events of a kind a trace holds. *)
Definition countEv (f : Event -> bool) (tr : list Event) : nat :=
  List.length (filter f tr).

(** The requirements [req] with another Extra map. *)
Definition withExtra (req : PaymentRequirements) (extra : option gomap)
  : PaymentRequirements :=
  mkRequirements (reqScheme req) (Network req) (Asset req) (Amount req)
    (PayTo req) (MaxTimeoutSeconds req) extra.

(** The trace holds a typed-data signing request. *)
Definition signsTypedData (tr : list Event) : Prop :=
  exists dom ty pt msg rs, In (EvSignTypedData dom ty pt msg rs) tr.

(** Two computations agree from [s] unless the first signs typed data. *)
Definition agreeUnlessTyped {W A} (m m' : M W Event A) (s : St W Event)
  : Prop :=
  m s = m' s \/ signsTypedData (trace (snd (m s))).

(* ================================================================== *)
(** * Further notions: the facilitator client *)

(** Whether [k] names, up to canonical form, one of the headers [hs]. *)
Definition amongHeaders (hs : list string) (k : string) : bool :=
  existsb (fun h => String.eqb (CanonicalMIMEHeaderKey k)
                      (CanonicalMIMEHeaderKey h)) hs.

(** The provider's map [hs] gives the header [k] the value [v], whatever
    the order in which its entries are visited: some key of [hs] has the
    canonical form of [k], and every such key has the value [v]. *)
Definition provides (hs : list (string * string)) (k v : string) : Prop :=
  touches hs k = true
  /\ forall k1 v1, In (k1, v1) hs ->
       CanonicalMIMEHeaderKey k1 = CanonicalMIMEHeaderKey k -> v1 = v.

Section OutcomeShapes.
Context {A : Type}.

(** A result is returned only for a run that ends with a request answered
    with status 200 whose body was read and decoded to an envelope with
    code 0; the result is the data of that envelope, as it is. *)
Definition okOnlyOnCodeZero
    (decode : bytes -> option (facilitatorAPIResponse A))
    (tr : list HttpEvent) (rv : result A) : Prop :=
  forall d, rv = Ok d ->
    exists pre q resp rb apiResp,
      tr = pre ++ [EvDo q (Ok resp)]
      /\ posts tr = 1%nat
      /\ StatusCode resp = StatusOK
      /\ ReadAll resp = Ok rb
      /\ decode rb = Some apiResp
      /\ Code apiResp = 0
      /\ d = Data apiResp.

(** Failures of the transport are returned wrapped under the operation's
    own messages. *)
Definition transportWrapped (sendMsg readMsg : string)
    (tr : list HttpEvent) (rv : result A) : Prop :=
  (forall q e, In (EvDo q (Err e)) tr -> rv = Err (Errorf_w sendMsg e))
  /\ (forall q resp e, In (EvDo q (Ok resp)) tr -> ReadAll resp = Err e ->
        rv = Err (Errorf_w readMsg e)).

(** A failure of the auth provider ends the run: nothing is sent and the
    provider's error is returned wrapped. *)
Definition providerFailureStops (tr : list HttpEvent) (rv : result A) : Prop :=
  forall e, In (EvGetAuthHeaders (Err e)) tr ->
    posts tr = 0%nat
    /\ (exists pre, tr = pre ++ [EvGetAuthHeaders (Err e)])
    /\ rv = Err (Errorf_w "failed to get auth headers: " e).

(** The provider is asked at most once, and before the request is sent;
    what it provides is on every request sent. *)
Definition providerWins (pick : AuthHeaders -> list (string * string))
    (tr : list HttpEvent) : Prop :=
  forall q rr, In (EvDo q rr) tr ->
    forall ah, In (EvGetAuthHeaders (Ok ah)) tr ->
      forall k v, provides (pick ah) k v -> Get (Hdr q) k = Some v.

End OutcomeShapes.

Section TargetShapes.
Context {W SR : Type}.
Variable env : HttpEnv W SR.

(** Every request sent carries the JSON content type, and with
    credentials configured the target URI [uri] without its leading
    slash, unless the provider's headers wrote the same header. *)
Definition declaresTarget (c : HTTPFacilitatorClient W)
    (pick : AuthHeaders -> list (string * string)) (uri : string)
    (w : W) (tr : list HttpEvent) : Prop :=
  forall q rr, In (EvDo q rr) tr ->
    exists hs,
      providerHeaders c pick tr hs
      /\ attached hs q "Content-Type" "application/json"
      /\ (forall creds, loadGateWeb3Credentials env w = Some creds ->
            attached hs q "x-target-uri" (TrimPrefix uri "/")).

End TargetShapes.

(** A text of base64 characters and padding only. *)
Definition base64Text (s : string) : bool :=
  forallb (fun ch => (0 <=? base64Index ch) || Ascii.eqb ch "=")
    (list_ascii_of_string s).

(** Splits a run of [CreatePaymentPayload] into its shapes, the standard
    signing path included. *)
Ltac cpp_cases H :=
  inversion H; subst;
  try match goal with
      | Hs : stdTrace _ _ _ _ _ _ _ _ _ _ _ _ _ |- _ => inversion Hs; subst
      end.

(** Lifts a fact of [opRun] to the three operations, given their run
    lemmas [vr], [sr] and [gr] at the call in question. *)
Ltac each_operation_by vr sr gr tac :=
  let Hrun := fresh "Hrun" in
  let Hop := fresh "Hop" in
  split; [|split];
  [ destruct vr as (? & ? & ? & Hrun & Hop)
  | destruct sr as (? & ? & ? & Hrun & Hop)
  | destruct gr as (? & ? & ? & Hrun & Hop) ];
  eexists _, _, _; (split; [exact Hrun|]); tac Hop.

(* ================================================================== *)
(** * Properties of the library layer *)

Module BigFacts.
Import Big.

Lemma digitVal_digitChar d : 0 <= d <= 9 -> digitVal (digitChar d) = Some d.
Proof.
  intros H.
  assert (d = 0 \/ d = 1 \/ d = 2 \/ d = 3 \/ d = 4 \/ d = 5 \/ d = 6
          \/ d = 7 \/ d = 8 \/ d = 9) as Hd by lia.
  repeat (destruct Hd as [-> | Hd]; [reflexivity|]). subst. reflexivity.
Qed.

Lemma digitChar_not_sign d :
  0 <= d <= 9 ->
  Ascii.eqb (digitChar d) "-" = false /\ Ascii.eqb (digitChar d) "+" = false.
Proof.
  intros H.
  assert (d = 0 \/ d = 1 \/ d = 2 \/ d = 3 \/ d = 4 \/ d = 5 \/ d = 6
          \/ d = 7 \/ d = 8 \/ d = 9) as Hd by lia.
  repeat (destruct Hd as [-> | Hd]; [split; reflexivity|]).
  subst. split; reflexivity.
Qed.

(** Reading back the digits [natString] put in front of [acc]. *)
Lemma scanDigits_natString fuel : forall n acc,
  0 <= n < 2 ^ Z.of_nat fuel ->
  scanDigits (natString fuel n acc) 0 = scanDigits acc n.
Proof.
  induction fuel as [|f IH]; intros n acc Hn.
  - simpl in *. assert (n = 0) by lia. subst. reflexivity.
  - cbn [natString]. destruct (Z.eqb_spec n 0) as [->|Hnz]; [reflexivity|].
    rewrite IH.
    + cbn [scanDigits]. rewrite digitVal_digitChar.
      * f_equal. pose proof (Z.div_mod n 10). lia.
      * pose proof (Z.mod_pos_bound n 10). lia.
    + rewrite Nat2Z.inj_succ, Z.pow_succ_r in Hn by lia.
      split; [apply Z.div_pos; lia|].
      apply Z.div_lt_upper_bound; lia.
Qed.

(** The text [natString] produces is empty or starts with a digit,
    provided [acc] does. *)
Lemma natString_digitHead fuel : forall n acc,
  0 <= n -> digitHead acc -> digitHead (natString fuel n acc).
Proof.
  induction fuel as [|f IH]; intros n acc Hn Hacc; [exact Hacc|].
  cbn [natString]. destruct (Z.eqb_spec n 0); [exact Hacc|].
  apply IH.
  - apply Z.div_pos; lia.
  - exists (n mod 10). split; [|reflexivity].
    pose proof (Z.mod_pos_bound n 10). lia.
Qed.

Lemma natString_length fuel : forall n acc,
  (String.length acc <= String.length (natString fuel n acc))%nat.
Proof.
  induction fuel as [|f IH]; intros n acc; [apply Nat.le_refl|].
  cbn [natString]. destruct (n =? 0); [apply Nat.le_refl|].
  etransitivity; [|apply IH]. simpl. lia.
Qed.

Lemma natString_nonempty n :
  0 < n -> natString (S (Z.to_nat (Z.log2 n))) n "" <> "".
Proof.
  intros Hn. cbn [natString]. destruct (Z.eqb_spec n 0); [lia|].
  intros H.
  pose proof (natString_length (Z.to_nat (Z.log2 n)) (n / 10)
                (String (digitChar (n mod 10)) "")) as L.
  rewrite H in L. simpl in L. lia.
Qed.

Lemma scanMantissa_natString n :
  0 < n ->
  let m := natString (S (Z.to_nat (Z.log2 n))) n "" in
  scanMantissa m = Some n /\ scanSign m = Some (false, m).
Proof.
  intros Hn m.
  assert (Hfuel : 0 <= n < 2 ^ Z.of_nat (S (Z.to_nat (Z.log2 n)))).
  { split; [lia|]. rewrite Nat2Z.inj_succ, Z2Nat.id by apply Z.log2_nonneg.
    apply Z.log2_spec. lia. }
  pose proof (scanDigits_natString _ n "" Hfuel) as Hs. fold m in Hs.
  pose proof (natString_nonempty n Hn) as Hne. fold m in Hne.
  pose proof (natString_digitHead (S (Z.to_nat (Z.log2 n))) n "" ltac:(lia) I)
    as Hh. fold m in Hh.
  destruct m as [|c r]; [congruence|].
  split.
  - unfold scanMantissa. rewrite Hs. reflexivity.
  - destruct Hh as (d & Hd & ->).
    destruct (digitChar_not_sign d Hd) as [E1 E2].
    unfold scanSign. rewrite E1, E2. reflexivity.
Qed.

(** [SetString] reads back what [String] printed: the decimal text of a
    big integer is lossless. *)
Lemma SetString_String x : SetString (String_ x) = Some x.
Proof.
  unfold String_. destruct (Z.eqb_spec x 0) as [->|Hx]; [reflexivity|].
  destruct (Z.ltb_spec x 0) as [Hneg|Hpos].
  - destruct (scanMantissa_natString (Z.abs x) ltac:(lia)) as [Hm _].
    unfold SetString. cbn [scanSign]. replace (Ascii.eqb "-" "-") with true by reflexivity.
    rewrite Hm. f_equal. lia.
  - destruct (scanMantissa_natString (Z.abs x) ltac:(lia)) as [Hm Hs].
    unfold SetString. rewrite Hs, Hm. f_equal. lia.
Qed.

Lemma String_inj x y : String_ x = String_ y -> x = y.
Proof.
  intros H. pose proof (SetString_String x) as Hx.
  rewrite H, SetString_String in Hx. congruence.
Qed.

End BigFacts.

Module CommonFacts.
Import Common.

Lemma LeftPadBytes_spec b : LeftPadBytes b 32 = spec_leftPad32 b.
Proof.
  unfold LeftPadBytes, spec_leftPad32.
  destruct (Nat.leb_spec 32 (List.length b)) as [H|H]; [|reflexivity].
  replace (32 - List.length b)%nat with 0%nat by lia. reflexivity.
Qed.

Lemma BytesToAddress_length b : List.length (BytesToAddress b) = 20%nat.
Proof.
  unfold BytesToAddress, AddressLength.
  destruct (Nat.ltb_spec 20 (List.length b)) as [H|H];
    rewrite length_app, repeat_length, ?length_skipn; lia.
Qed.

(** An address is always 20 bytes, whatever text it was read from. *)
Lemma HexToAddress_length s : List.length (HexToAddress s) = 20%nat.
Proof. apply BytesToAddress_length. Qed.

Lemma leftPad32_length b :
  (List.length b <= 32)%nat -> List.length (spec_leftPad32 b) = 32%nat.
Proof.
  intros H. unfold spec_leftPad32. rewrite length_app, repeat_length. lia.
Qed.

Lemma leftPad32_address s :
  spec_leftPad32 (HexToAddress s) = repeat x00 12 ++ HexToAddress s.
Proof. unfold spec_leftPad32. rewrite HexToAddress_length. reflexivity. Qed.

End CommonFacts.

Module BytesFacts.
Import Big.

Lemma Z_of_byte_of_Z z : Z_of_byte (byte_of_Z z) = z mod 256.
Proof.
  unfold Z_of_byte, byte_of_Z.
  pose proof (Z.mod_pos_bound z 256 ltac:(lia)) as Hb.
  destruct (Byte.of_N (Z.to_N (z mod 256))) as [b|] eqn:E.
  - apply Byte.to_of_N in E. rewrite E. apply Z2N.id. lia.
  - apply Byte.of_N_None_iff in E. lia.
Qed.

Lemma beAcc_natBytes fuel : forall n acc,
  0 <= n < 2 ^ Z.of_nat fuel ->
  beAcc 0 (natBytes fuel n acc) = beAcc n acc.
Proof.
  induction fuel as [|f IH]; intros n acc Hn.
  - simpl in *. assert (n = 0) by lia. subst. reflexivity.
  - cbn [natBytes]. destruct (Z.eqb_spec n 0) as [->|Hnz]; [reflexivity|].
    rewrite IH.
    + unfold beAcc. cbn [fold_left].
      rewrite Z_of_byte_of_Z, Z.mod_mod by lia.
      replace (n / 256 * 256 + n mod 256) with n
        by (pose proof (Z.div_mod n 256); lia).
      reflexivity.
    + rewrite Nat2Z.inj_succ, Z.pow_succ_r in Hn by lia.
      split; [apply Z.div_pos; lia|].
      apply Z.div_lt_upper_bound; lia.
Qed.

(** [Bytes] is the big-endian text of the magnitude. *)
Lemma beValue_Bytes x : beValue (Bytes x) = Z.abs x.
Proof.
  unfold Bytes. change (beValue ?b) with (beAcc 0 b).
  rewrite beAcc_natBytes; [reflexivity|].
  destruct (Z.eqb_spec x 0) as [->|Hx]; [simpl; lia|].
  split; [lia|]. rewrite Nat2Z.inj_succ, Z2Nat.id by apply Z.log2_nonneg.
  apply Z.log2_spec. lia.
Qed.

Lemma natBytes_length fuel : forall n acc k,
  0 <= n < 256 ^ Z.of_nat k ->
  (List.length (natBytes fuel n acc) <= k + List.length acc)%nat.
Proof.
  induction fuel as [|f IH]; intros n acc k Hn; [simpl; lia|].
  cbn [natBytes]. destruct (Z.eqb_spec n 0) as [->|Hnz]; [lia|].
  destruct k as [|k]; [simpl in Hn; lia|].
  rewrite Nat2Z.inj_succ, Z.pow_succ_r in Hn by lia.
  specialize (IH (n / 256) (byte_of_Z (n mod 256) :: acc) k).
  cbn [List.length] in IH. etransitivity; [apply IH|lia].
  split; [apply Z.div_pos; lia|]. apply Z.div_lt_upper_bound; lia.
Qed.

Lemma beAcc_zeros m : forall b, beAcc 0 (repeat x00 m ++ b) = beAcc 0 b.
Proof. induction m as [|m IH]; intros b; [reflexivity|]. simpl. apply IH. Qed.

(** A magnitude below [2^256] is laid out as one 32-byte big-endian word. *)
Lemma uint256_word x :
  Z.abs x < 2 ^ 256 ->
  List.length (spec_leftPad32 (Bytes x)) = 32%nat
  /\ beValue (spec_leftPad32 (Bytes x)) = Z.abs x.
Proof.
  intros Hx. split.
  - apply CommonFacts.leftPad32_length.
    pose proof (natBytes_length (S (Z.to_nat (Z.log2 (Z.abs x)))) (Z.abs x) [] 32)
      as L.
    simpl List.length in L. rewrite Nat.add_0_r in L. apply L.
    change (256 ^ Z.of_nat 32) with (2 ^ 256). lia.
  - unfold spec_leftPad32. change (beValue ?b) with (beAcc 0 b).
    rewrite beAcc_zeros. apply beValue_Bytes.
Qed.

End BytesFacts.

(* ================================================================== *)
(** * The exact-scheme client *)

Section SchemeFacts.
Context {W PM : Type}.
Variable Keccak256 : bytes -> bytes.
Variable evm : EvmPkg W PM.

(** Running [signDigest] is one logged call of the signer. *)
Lemma signDigest_run (c : ExactEvmScheme W) digest s :
  signDigest c digest s =
  (Some (fst (SignDigest (signer c) digest (world s))),
   mkSt (snd (SignDigest (signer c) digest (world s)))
        (trace s ++ [EvSignDigest digest
                       (fst (SignDigest (signer c) digest (world s)))])).
Proof.
  unfold signDigest, call.
  destruct (SignDigest (signer c) digest (world s)); reflexivity.
Qed.

(** With readable amounts, [signWithDomainSeparator] hands the signer the
    digest of the description. *)
Lemma signWithDomainSeparator_run (c : ExactEvmScheme W) a ds v va vb s :
  Big.SetString (Value a) = Some v ->
  Big.SetString (ValidAfter a) = Some va ->
  Big.SetString (ValidBefore a) = Some vb ->
  signWithDomainSeparator Keccak256 evm c a ds s =
  signDigest c (spec_signingDigest Keccak256 evm a v va vb ds) s.
Proof.
  intros Hv Hva Hvb.
  unfold signWithDomainSeparator. rewrite Hv, Hva, Hvb.
  unfold deref, bind, ret.
  unfold spec_signingDigest, spec_digest, spec_structHash, spec_typeHash.
  rewrite !CommonFacts.LeftPadBytes_spec.
  rewrite <- !app_assoc. reflexivity.
Qed.

(** An amount that is not a decimal integer makes [signWithDomainSeparator]
    stop in a nil dereference before the signer is asked anything. *)
Lemma signWithDomainSeparator_panics (c : ExactEvmScheme W) a ds s :
  Big.SetString (Value a) = None ->
  signWithDomainSeparator Keccak256 evm c a ds s = (None, s).
Proof.
  intros Hv. unfold signWithDomainSeparator. rewrite Hv. reflexivity.
Qed.

(** C1. For every authorization whose value, validAfter and validBefore
    are decimal integers, and every domain separator, the digest
    [signWithDomainSeparator] gives the signer is
    keccak256(0x19 ‖ 0x01 ‖ domainSeparator ‖ structHash), with
    structHash = keccak256(typeHash ‖ leftPad32(from) ‖ leftPad32(to) ‖
    leftPad32(value) ‖ leftPad32(validAfter) ‖ leftPad32(validBefore) ‖ nonce)
    and typeHash the hash of the TransferWithAuthorization type string;
    the call returns what the signer answers for that digest, and any
    other run on the same authorization and separator, with any signer in
    any state, signs the very same bytes. *)
Theorem signing_digest_formula (c : ExactEvmScheme W) a ds v va vb s :
  Big.SetString (Value a) = Some v ->
  Big.SetString (ValidAfter a) = Some va ->
  Big.SetString (ValidBefore a) = Some vb ->
  let typeHash := Keccak256 (bytes_of_string TransferWithAuthorizationType) in
  let structHash :=
    Keccak256 (typeHash
               ++ spec_leftPad32 (Common.HexToAddress (From a))
               ++ spec_leftPad32 (Common.HexToAddress (To a))
               ++ spec_leftPad32 (Big.Bytes v)
               ++ spec_leftPad32 (Big.Bytes va)
               ++ spec_leftPad32 (Big.Bytes vb)
               ++ fst (HexToBytes evm (Nonce a))) in
  let digest := Keccak256 ([x19; x01] ++ ds ++ structHash) in
  let answer := SignDigest (signer c) digest (world s) in
  signWithDomainSeparator Keccak256 evm c a ds s
    = (Some (fst answer),
       mkSt (snd answer) (trace s ++ [EvSignDigest digest (fst answer)]))
  /\ forall (c' : ExactEvmScheme W) (s' : St W Event),
       exists r, trace (snd (signWithDomainSeparator Keccak256 evm c' a ds s'))
                 = trace s' ++ [EvSignDigest digest r].
Proof.
  intros Hv Hva Hvb typeHash structHash digest answer.
  assert (Hd : spec_signingDigest Keccak256 evm a v va vb ds = digest)
    by reflexivity.
  split.
  - rewrite (signWithDomainSeparator_run c a ds v va vb s Hv Hva Hvb).
    rewrite Hd. apply signDigest_run.
  - intros c' s'.
    rewrite (signWithDomainSeparator_run c' a ds v va vb s' Hv Hva Hvb).
    rewrite Hd, signDigest_run. cbn [snd trace]. eauto.
Qed.

Lemma pinnedDomainSeparator_length :
  List.length pinnedDomainSeparator = 32%nat.
Proof. reflexivity. Qed.

(** The standard signing path never panics on authorizations with readable
    amounts, and its trace has one of the three standard shapes. *)
Lemma signAuthorization_run (c : ExactEvmScheme W) a v va vb chainID
    contract name version s :
  Big.SetString (Value a) = Some v ->
  Big.SetString (ValidAfter a) = Some va ->
  Big.SetString (ValidBefore a) = Some vb ->
  exists tl rs w',
    signAuthorization Keccak256 evm c a chainID contract name version s
      = (Some rs, mkSt w' (trace s ++ tl))
    /\ stdTrace Keccak256 evm c a v va vb chainID contract name version tl rs.
Proof.
  intros Hv Hva Hvb. unfold signAuthorization.
  destruct (ethClient c) as [client|] eqn:Hc.
  - unfold bind at 1. unfold bind at 1. unfold queryDomainSeparator.
    unfold bind at 1. unfold call at 1.
    fold (queryMsg Keccak256 contract).
    destruct (CallContract client (queryMsg Keccak256 contract) (world s))
      as [rq w1] eqn:Hq.
    destruct rq as [res|e].
    + destruct (Nat.ltb_spec (List.length res) 32) as [Hlt|Hge].
      * cbn [ret]. unfold call.
        cbn [world trace].
        match goal with
        | |- context [SignTypedData ?sg ?d ?t ?p ?m w1] =>
            destruct (SignTypedData sg d t p m w1) as [rs w2] eqn:Hs
        end.
        exists [EvCallContract (queryMsg Keccak256 contract) (Ok res);
                EvSignTypedData (mkDomain name version chainID contract)
                  eip712Types "TransferWithAuthorization"
                  (typedMessage evm a) rs], rs, w2.
        split; [rewrite <- app_assoc; reflexivity|].
        eapply std_query_failed; eauto.
      * cbn [ret].
        rewrite (signWithDomainSeparator_run c a _ v va vb _ Hv Hva Hvb).
        rewrite signDigest_run. cbn [world trace].
        eexists _, _, _. split; [rewrite <- app_assoc; reflexivity|].
        eapply std_query_ok; eauto.
    + cbn [ret]. unfold call. cbn [world trace].
      match goal with
      | |- context [SignTypedData ?sg ?d ?t ?p ?m w1] =>
          destruct (SignTypedData sg d t p m w1) as [rs w2] eqn:Hs
      end.
      exists [EvCallContract (queryMsg Keccak256 contract) (Err e);
              EvSignTypedData (mkDomain name version chainID contract)
                eip712Types "TransferWithAuthorization"
                (typedMessage evm a) rs], rs, w2.
      split; [rewrite <- app_assoc; reflexivity|].
      eapply std_query_failed; eauto. exact I.
  - unfold bind, ret, call.
    match goal with
    | |- context [SignTypedData ?sg ?d ?t ?p ?m (world s)] =>
        destruct (SignTypedData sg d t p m (world s)) as [rs w2] eqn:Hs
    end.
    eexists _, _, _. split; [reflexivity|]. apply std_no_rpc; assumption.
Qed.

(** Every run of [CreatePaymentPayload] past the resolution of network,
    asset and amount returns, and its trace is one of the four shapes of
    [cppTrace]. *)
Lemma CreatePaymentPayload_run (c : ExactEvmScheme W) req chainID assetInfo
    value s :
  GetEvmChainId evm (Network req) = Ok chainID ->
  GetAssetInfo evm (Network req) (Asset req) = Ok assetInfo ->
  Big.SetString (Amount req) = Some value ->
  exists tr r w',
    CreatePaymentPayload Keccak256 evm c req s
      = (Some r, mkSt w' (trace s ++ tr))
    /\ cppTrace Keccak256 evm c req chainID assetInfo value tr r.
Proof.
  intros Hc Ha Hv. unfold CreatePaymentPayload. rewrite Hc, Ha, Hv.
  unfold bind at 1. unfold call at 1.
  destruct (CreateNonce evm (world s)) as [rn w1].
  destruct rn as [nonce|e].
  2:{ exists [EvCreateNonce (Err e)], (Err e), w1.
      split; [reflexivity|constructor]. }
  unfold bind at 1. unfold call at 1. cbn [world trace].
  destruct (CreateValidityWindow evm Hour w1) as [[va vb] w2].
  unfold bind at 1. unfold call at 1. cbn [world trace].
  destruct (signerAddress (signer c) w2) as [from w3].
  fold (tokenNameOf req assetInfo). fold (tokenVersionOf req assetInfo).
  fold (authorizationOf req value from nonce va vb).
  set (a := authorizationOf req value from nonce va vb).
  set (s3 := mkSt w3 _).
  assert (Htr : trace s3 = trace s ++ prelude from nonce va vb).
  { unfold s3, prelude. cbn [trace]. rewrite <- !app_assoc. reflexivity. }
  assert (Pv : Big.SetString (Value a) = Some value)
    by apply BigFacts.SetString_String.
  assert (Pva : Big.SetString (ValidAfter a) = Some va)
    by apply BigFacts.SetString_String.
  assert (Pvb : Big.SetString (ValidBefore a) = Some vb)
    by apply BigFacts.SetString_String.
  (* the standard path, from any state *)
  assert (Hstd : forall s4 pre,
    trace s4 = trace s ++ prelude from nonce va vb ++ pre ->
    exists tl rs w',
      bind (signAuthorization Keccak256 evm c a chainID (Address assetInfo)
              (tokenNameOf req assetInfo) (tokenVersionOf req assetInfo))
           (fun rs =>
              match rs with
              | Err e =>
                  ret (Err (WrapError
                    (ErrFailedToSignAuthorization evm ++ ": " ++ Error_ e)%string e))
              | Ok signature =>
                  ret (Ok (mkPaymentPayload 2
                    (ToMap evm (mkEvmPayload (BytesToHex evm signature) a))))
              end) s4
      = (Some (signedResult evm a rs),
         mkSt w' (trace s ++ prelude from nonce va vb ++ pre ++ tl))
      /\ stdTrace Keccak256 evm c a value va vb chainID (Address assetInfo)
           (tokenNameOf req assetInfo) (tokenVersionOf req assetInfo) tl rs).
  { intros s4 pre H4.
    destruct (signAuthorization_run c a value va vb chainID (Address assetInfo)
                (tokenNameOf req assetInfo) (tokenVersionOf req assetInfo) s4
                Pv Pva Pvb) as (tl & rs & w' & Hrun & Hshape).
    exists tl, rs, w'. split; [|exact Hshape].
    unfold bind. rewrite Hrun, H4. rewrite <- !app_assoc.
    destruct rs; reflexivity. }
  change (String.eqb (Network req) "gatelayer_testnet"
          && String.eqb (Address assetInfo)
               "0x9be8Df37C788B244cFc28E46654aD5Ec28a880AF")
    with (pinnedGuard (Network req) (Address assetInfo)).
  destruct (pinnedGuard (Network req) (Address assetInfo)) eqn:Hg.
  - fold pinnedDomainSeparator.
    rewrite pinnedDomainSeparator_length. cbn [Nat.eqb].
    unfold bind at 1.
    rewrite (signWithDomainSeparator_run c a _ value va vb _ Pv Pva Pvb).
    rewrite signDigest_run.
    destruct (SignDigest (signer c)
                (spec_signingDigest Keccak256 evm a value va vb
                   pinnedDomainSeparator) (world s3)) as [rs w4].
    cbn [fst snd]. destruct rs as [signature|e].
    + eexists _, _, _. split.
      * unfold ret. rewrite Htr, <- app_assoc. reflexivity.
      * apply cpp_pinned_signed. exact Hg.
    + destruct (Hstd (mkSt w4 (trace s3 ++
                  [EvSignDigest (spec_signingDigest Keccak256 evm a value va vb
                     pinnedDomainSeparator) (Err e)]))
                  [EvSignDigest (spec_signingDigest Keccak256 evm a value va vb
                     pinnedDomainSeparator) (Err e)])
        as (tl & rs & w' & Hrun & Hshape).
      { cbn [trace]. rewrite Htr, <- app_assoc. reflexivity. }
      eexists _, _, _. split; [exact Hrun|].
      cbn [app]. apply cpp_pinned_fallback; assumption.
  - destruct (Hstd s3 []) as (tl & rs & w' & Hrun & Hshape).
    { rewrite Htr, app_nil_r. reflexivity. }
    eexists _, _, _. split; [exact Hrun|].
    cbn [app]. apply cpp_standard; assumption.
Qed.

(** ** Amounts *)

Lemma digitVal_isDigit ch :
  Big.digitVal ch = None <-> Http.isDigit ch = false.
Proof.
  unfold Big.digitVal, Http.isDigit.
  destruct ((48 <=? code ch) && (code ch <=? 57)); split; congruence.
Qed.

Lemma scanDigits_None s : forall acc,
  Big.scanDigits s acc = None <-> allDigits s = false.
Proof.
  unfold allDigits.
  induction s as [|ch r IH]; intros acc; cbn [Big.scanDigits list_ascii_of_string forallb].
  - split; discriminate.
  - destruct (Big.digitVal ch) as [d|] eqn:E.
    + assert (Http.isDigit ch = true) as ->.
      { destruct (Http.isDigit ch) eqn:E'; [reflexivity|].
        apply digitVal_isDigit in E'. congruence. }
      apply IH.
    + apply digitVal_isDigit in E. rewrite E. split; reflexivity.
Qed.

(** [SetString] fails exactly outside integer lexical form. *)
Lemma SetString_None_iff s :
  Big.SetString s = None <-> integerLexical s = false.
Proof.
  unfold Big.SetString, integerLexical, Big.scanSign.
  destruct s as [|ch r]; [split; reflexivity|].
  assert (Hm : forall t, Big.scanMantissa t = None
                         <-> negb (String.eqb t "") && allDigits t = false).
  { intros [|c0 t]; [split; reflexivity|].
    unfold Big.scanMantissa. rewrite scanDigits_None. reflexivity. }
  destruct (Ascii.eqb ch "-") eqn:E1; cbn [orb].
  - rewrite <- Hm. destruct (Big.scanMantissa r); split; congruence.
  - destruct (Ascii.eqb ch "+") eqn:E2.
    + rewrite <- Hm. destruct (Big.scanMantissa r); split; congruence.
    + specialize (Hm (String ch r)). cbn [String.eqb negb andb] in Hm.
      rewrite <- Hm. destruct (Big.scanMantissa (String ch r)); split; congruence.
Qed.

Lemma cppTrace_Ok (c : ExactEvmScheme W) req chainID assetInfo value tr p :
  cppTrace Keccak256 evm c req chainID assetInfo value tr (Ok p) ->
  exists signature a,
    p = payloadOf evm signature a /\ Big.SetString (Value a) = Some value.
Proof.
  intros H. inversion H; subst.
  - eexists _, _. split; [reflexivity|]. apply BigFacts.SetString_String.
  - destruct rs as [signature|e0]; [|discriminate].
    cbn [signedResult] in *. exists signature, a.
    split; [congruence|]. apply BigFacts.SetString_String.
  - destruct rs as [signature|e0]; [|discriminate].
    cbn [signedResult] in *. exists signature, a.
    split; [congruence|]. apply BigFacts.SetString_String.
Qed.

(** C2 (amended). An amount outside integer lexical form (an optional sign
    followed by decimal digits) never yields a payload: the call returns
    an error without touching the environment, and once network and asset
    resolve that error is the InvalidAmount error naming the amount.  A
    payload, when one is returned, carries the decimal text of exactly the
    integer the amount denotes. *)
Theorem malformed_amount_rejected (c : ExactEvmScheme W) req s :
  (integerLexical (Amount req) = false ->
     (exists e, CreatePaymentPayload Keccak256 evm c req s = (Some (Err e), s))
     /\ (forall chainID assetInfo,
           GetEvmChainId evm (Network req) = Ok chainID ->
           GetAssetInfo evm (Network req) (Asset req) = Ok assetInfo ->
           CreatePaymentPayload Keccak256 evm c req s
           = (Some (Err (ErrorString
                (ErrInvalidAmount evm ++ ": " ++ Amount req)%string)), s)))
  /\ (forall p s',
        CreatePaymentPayload Keccak256 evm c req s = (Some (Ok p), s') ->
        exists value signature a,
          Big.SetString (Amount req) = Some value
          /\ p = payloadOf evm signature a
          /\ Big.SetString (Value a) = Some value).
Proof.
  split.
  - intros Hlex. apply SetString_None_iff in Hlex.
    split.
    + unfold CreatePaymentPayload.
      destruct (GetEvmChainId evm (Network req)); [|eexists; reflexivity].
      destruct (GetAssetInfo evm (Network req) (Asset req)); [|eexists; reflexivity].
      rewrite Hlex. eexists; reflexivity.
    + intros chainID assetInfo Hc Ha.
      unfold CreatePaymentPayload. rewrite Hc, Ha, Hlex. reflexivity.
  - intros p s' Hrun.
    destruct (GetEvmChainId evm (Network req)) as [chainID|e] eqn:Hc.
    2:{ unfold CreatePaymentPayload in Hrun. rewrite Hc in Hrun. discriminate. }
    destruct (GetAssetInfo evm (Network req) (Asset req)) as [assetInfo|e] eqn:Ha.
    2:{ unfold CreatePaymentPayload in Hrun. rewrite Hc, Ha in Hrun. discriminate. }
    destruct (Big.SetString (Amount req)) as [value|] eqn:Hv.
    2:{ unfold CreatePaymentPayload in Hrun. rewrite Hc, Ha, Hv in Hrun.
        discriminate. }
    destruct (CreatePaymentPayload_run c req chainID assetInfo value s Hc Ha Hv)
      as (tr & r & w' & Hrun' & Hshape).
    rewrite Hrun in Hrun'. injection Hrun' as <- _.
    destruct (cppTrace_Ok _ _ _ _ _ _ _ Hshape) as (signature & a & -> & Ha').
    exists value, signature, a. auto.
Qed.

(** ** The shapes of a run *)

(** [CreatePaymentPayload] always returns: either it stops before any call
    to the environment, or its trace is a [cppTrace]. *)
Lemma CreatePaymentPayload_total (c : ExactEvmScheme W) req s :
  exists r w' tr,
    CreatePaymentPayload Keccak256 evm c req s
      = (Some r, mkSt w' (trace s ++ tr))
    /\ ((tr = [] /\ exists e, r = Err e)
        \/ exists chainID assetInfo value,
             GetEvmChainId evm (Network req) = Ok chainID
             /\ GetAssetInfo evm (Network req) (Asset req) = Ok assetInfo
             /\ Big.SetString (Amount req) = Some value
             /\ cppTrace Keccak256 evm c req chainID assetInfo value tr r).
Proof.
  destruct s as [w tr0].
  destruct (GetEvmChainId evm (Network req)) as [chainID|e] eqn:Hc.
  2:{ exists (Err e), w, []. unfold CreatePaymentPayload. rewrite Hc.
      cbn [trace]. rewrite app_nil_r. split; [reflexivity|]. left; eauto. }
  destruct (GetAssetInfo evm (Network req) (Asset req)) as [assetInfo|e] eqn:Ha.
  2:{ exists (Err e), w, []. unfold CreatePaymentPayload. rewrite Hc, Ha.
      cbn [trace]. rewrite app_nil_r. split; [reflexivity|]. left; eauto. }
  destruct (Big.SetString (Amount req)) as [value|] eqn:Hv.
  2:{ eexists _, w, []. unfold CreatePaymentPayload. rewrite Hc, Ha, Hv.
      cbn [trace]. rewrite app_nil_r. split; [reflexivity|]. left; eauto. }
  destruct (CreatePaymentPayload_run c req chainID assetInfo value
              (mkSt w tr0) Hc Ha Hv) as (tr & r & w' & Hrun & Hshape).
  exists r, w', tr. split; [exact Hrun|]. right.
  exists chainID, assetInfo, value. auto.
Qed.

Lemma firstSignOrQuery_prelude from nonce va vb tl :
  firstSignOrQuery (prelude from nonce va vb ++ tl) = firstSignOrQuery tl.
Proof. reflexivity. Qed.

Lemma chainQueries_prelude from nonce va vb tl :
  chainQueries (prelude from nonce va vb ++ tl) = chainQueries tl.
Proof. reflexivity. Qed.

(** The standard path starts by asking the chain or by typed-data
    signing, and ends with the call whose answer it returns. *)
Lemma stdTrace_first (c : ExactEvmScheme W) a v va vb chainID contract name
    version tl rs :
  stdTrace Keccak256 evm c a v va vb chainID contract name version tl rs ->
  exists ev, firstSignOrQuery tl = Some ev
             /\ match ev with EvSignDigest _ _ => False | _ => True end.
Proof.
  intros H; inversion H; subst;
    (eexists; split; [reflexivity|exact I]).
Qed.

Lemma stdTrace_last (c : ExactEvmScheme W) a v va vb chainID contract name
    version tl rs :
  stdTrace Keccak256 evm c a v va vb chainID contract name version tl rs ->
  exists pre ev, tl = pre ++ [ev] /\ signingAnswer ev = Some rs.
Proof.
  intros H; inversion H; subst.
  - exists [], (EvSignTypedData (mkDomain name version chainID contract)
                  eip712Types "TransferWithAuthorization" (typedMessage evm a) rs).
    split; reflexivity.
  - exists [EvCallContract (queryMsg Keccak256 contract) rq],
           (EvSignTypedData (mkDomain name version chainID contract)
                  eip712Types "TransferWithAuthorization" (typedMessage evm a) rs).
    split; reflexivity.
  - exists [EvCallContract (queryMsg Keccak256 contract) (Ok res)],
           (EvSignDigest (spec_signingDigest Keccak256 evm a v va vb
                            (firstn 32 res)) rs).
    split; reflexivity.
Qed.

(** On the standard path a digest is signed only under a separator the
    chain has just returned. *)
Lemma stdTrace_digest_from_chain (c : ExactEvmScheme W) a v va vb chainID
    contract name version tl rs d r :
  stdTrace Keccak256 evm c a v va vb chainID contract name version tl rs ->
  In (EvSignDigest d r) tl ->
  exists res, In (EvCallContract (queryMsg Keccak256 contract) (Ok res)) tl
              /\ d = spec_signingDigest Keccak256 evm a v va vb (firstn 32 res).
Proof.
  intros H Hin; inversion H; subst; cbn [In] in Hin.
  - destruct Hin as [Hin|[]]; discriminate.
  - destruct Hin as [Hin|[Hin|[]]]; discriminate.
  - destruct Hin as [Hin|[Hin|[]]]; [discriminate|].
    injection Hin as <- <-. exists res. split; [left; reflexivity|reflexivity].
Qed.

Lemma pinnedGuard_true network asset :
  pinnedGuard network asset = true <->
  network = "gatelayer_testnet"
  /\ asset = "0x9be8Df37C788B244cFc28E46654aD5Ec28a880AF".
Proof.
  unfold pinnedGuard. rewrite andb_true_iff, !String.eqb_eq. reflexivity.
Qed.

Lemma cppTrace_pinnedSigning (c : ExactEvmScheme W) req chainID assetInfo
    value tr r :
  pinnedGuard (Network req) (Address assetInfo) = true ->
  cppTrace Keccak256 evm c req chainID assetInfo value tr r ->
  pinnedSigning Keccak256 evm req value tr.
Proof.
  intros Hg H ev Hev. inversion H; subst.
  - discriminate.
  - rewrite firstSignOrQuery_prelude in Hev. cbn in Hev. injection Hev as <-.
    eexists _, _, _, _, _. split; [reflexivity|]. intros _ _. reflexivity.
  - rewrite firstSignOrQuery_prelude in Hev. cbn in Hev. injection Hev as <-.
    eexists _, _, _, _, _. split; [reflexivity|]. intros sg Hsg. discriminate.
  - congruence.
Qed.

Lemma stdTrace_queries (c : ExactEvmScheme W) a v va vb chainID contract
    name version tl rs :
  stdTrace Keccak256 evm c a v va vb chainID contract name version tl rs ->
  chainQueries tl = queriesOf c.
Proof.
  intros H. unfold queriesOf. inversion H; subst;
    match goal with Hc : ethClient c = _ |- _ => rewrite Hc end; reflexivity.
Qed.

Lemma stdTrace_standardRun (c : ExactEvmScheme W) req chainID assetInfo value
    from nonce va vb tl rs :
  stdTrace Keccak256 evm c (authorizationOf req value from nonce va vb)
    value va vb chainID (Address assetInfo)
    (tokenNameOf req assetInfo) (tokenVersionOf req assetInfo) tl rs ->
  standardRun Keccak256 evm c req chainID assetInfo value from nonce va vb tl
    (signedResult evm (authorizationOf req value from nonce va vb) rs).
Proof.
  intros H. exists rs. split; [exact H|].
  split; [eapply stdTrace_queries; exact H|reflexivity].
Qed.

Lemma cppTrace_pinnedRun (c : ExactEvmScheme W) req chainID assetInfo value
    tr r :
  pinnedGuard (Network req) (Address assetInfo) = true ->
  cppTrace Keccak256 evm c req chainID assetInfo value tr r ->
  pinnedRun Keccak256 evm c req chainID assetInfo value tr r.
Proof.
  intros Hg H. inversion H; subst.
  - left. eauto.
  - right. exists from, nonce, va, vb, (Ok signature), [].
    split; [reflexivity|]. split; reflexivity.
  - right. exists from, nonce, va, vb, (Err e), tl.
    split; [reflexivity|]. apply stdTrace_standardRun. assumption.
  - congruence.
Qed.

Lemma cppTrace_unpinnedRun (c : ExactEvmScheme W) req chainID assetInfo value
    tr r :
  pinnedGuard (Network req) (Address assetInfo) = false ->
  cppTrace Keccak256 evm c req chainID assetInfo value tr r ->
  unpinnedRun Keccak256 evm c req chainID assetInfo value tr r.
Proof.
  intros Hg H. inversion H; subst; try congruence.
  - left. eauto.
  - right. exists from, nonce, va, vb, tl.
    split; [reflexivity|]. apply stdTrace_standardRun. assumption.
Qed.

Lemma prelude_inj from nonce va vb from' nonce' va' vb' (x y : list Event) :
  prelude from nonce va vb ++ x = prelude from' nonce' va' vb' ++ y ->
  from = from' /\ nonce = nonce' /\ va = va' /\ vb = vb' /\ x = y.
Proof.
  unfold prelude. cbn [app]. intros H.
  injection H as -> -> -> -> ->. auto.
Qed.

(** A call has one result and one trace. *)
Lemma run_unique (c : ExactEvmScheme W) req s r w' tr r2 w2 tr2 :
  CreatePaymentPayload Keccak256 evm c req s
    = (Some r, mkSt w' (trace s ++ tr)) ->
  CreatePaymentPayload Keccak256 evm c req s
    = (Some r2, mkSt w2 (trace s ++ tr2)) ->
  r2 = r /\ tr2 = tr.
Proof.
  intros H1 H2. rewrite H1 in H2. injection H2 as <- _ E.
  apply app_inv_head in E. auto.
Qed.

(** C3 (amended). For every two calls whose network is "gatelayer_testnet"
    and whose resolved asset address is the pinned one, both calls return,
    and in each, unless the nonce source fails, the first call after
    nonce, window and address is a digest signing under the same pinned
    32-byte separator, with no chain query before it.  When the signer
    answers that request with a signature, it is the last call of the run,
    no chain query is made at all and the payload carries that signature.
    When the signer refuses it, the standard path is run next: it queries
    DOMAIN_SEPARATOR exactly when an RPC client is configured, asks the
    signer once more and decides the result. *)
Theorem pinned_separator_two_calls (c : ExactEvmScheme W) req1 req2
    chain1 chain2 asset1 asset2 v1 v2 s :
  Network req1 = "gatelayer_testnet" ->
  Network req2 = "gatelayer_testnet" ->
  GetEvmChainId evm (Network req1) = Ok chain1 ->
  GetEvmChainId evm (Network req2) = Ok chain2 ->
  GetAssetInfo evm (Network req1) (Asset req1) = Ok asset1 ->
  GetAssetInfo evm (Network req2) (Asset req2) = Ok asset2 ->
  Address asset1 = "0x9be8Df37C788B244cFc28E46654aD5Ec28a880AF" ->
  Address asset2 = "0x9be8Df37C788B244cFc28E46654aD5Ec28a880AF" ->
  Big.SetString (Amount req1) = Some v1 ->
  Big.SetString (Amount req2) = Some v2 ->
  List.length pinnedDomainSeparator = 32%nat
  /\ exists r1 w1 tr1 r2 w2 tr2,
       CreatePaymentPayload Keccak256 evm c req1 s
         = (Some r1, mkSt w1 (trace s ++ tr1))
       /\ CreatePaymentPayload Keccak256 evm c req2 (mkSt w1 (trace s ++ tr1))
         = (Some r2, mkSt w2 ((trace s ++ tr1) ++ tr2))
       /\ pinnedSigning Keccak256 evm req1 v1 tr1
       /\ pinnedSigning Keccak256 evm req2 v2 tr2
       /\ pinnedRun Keccak256 evm c req1 chain1 asset1 v1 tr1 r1
       /\ pinnedRun Keccak256 evm c req2 chain2 asset2 v2 tr2 r2.
Proof.
  intros N1 N2 C1 C2 A1 A2 P1 P2 V1 V2.
  split; [reflexivity|].
  destruct (CreatePaymentPayload_run c req1 chain1 asset1 v1 s C1 A1 V1)
    as (tr1 & r1 & w1 & Hrun1 & Hs1).
  destruct (CreatePaymentPayload_run c req2 chain2 asset2 v2
              (mkSt w1 (trace s ++ tr1)) C2 A2 V2)
    as (tr2 & r2 & w2 & Hrun2 & Hs2).
  assert (G1 : pinnedGuard (Network req1) (Address asset1) = true)
    by (apply pinnedGuard_true; auto).
  assert (G2 : pinnedGuard (Network req2) (Address asset2) = true)
    by (apply pinnedGuard_true; auto).
  exists r1, w1, tr1, r2, w2, tr2.
  split; [exact Hrun1|]. split; [exact Hrun2|].
  split; [eapply cppTrace_pinnedSigning; eauto|].
  split; [eapply cppTrace_pinnedSigning; eauto|].
  split; apply cppTrace_pinnedRun; assumption.
Qed.

(** C7 (amended). [CreatePaymentPayload] always returns.  Once network,
    asset and amount resolve and the nonce source answers, the signer is
    asked, and the answer of the last signing request of the run decides:
    a signature gives the payload carrying exactly that signature, a
    failure [e] gives the FailedToSignAuthorization error wrapping [e];
    no payload is returned otherwise.  A digest signing refused right
    after nonce, window and address happens on the pinned pair only, under
    the pinned separator, and is not returned by itself: the standard
    signing path is run next, and only its failure is reported. *)
Theorem signer_failure_surfaces (c : ExactEvmScheme W) req s :
  exists r w' tr,
    CreatePaymentPayload Keccak256 evm c req s
      = (Some r, mkSt w' (trace s ++ tr))
    /\ (forall pre ev e,
          tr = pre ++ [ev] -> signingAnswer ev = Some (Err e) ->
          r = Err (WrapError
                (ErrFailedToSignAuthorization evm ++ ": " ++ Error_ e)%string e))
    /\ (forall p,
          r = Ok p ->
          exists pre ev signature a,
            tr = pre ++ [ev]
            /\ signingAnswer ev = Some (Ok signature)
            /\ p = payloadOf evm signature a)
    /\ (forall chainID assetInfo value,
          GetEvmChainId evm (Network req) = Ok chainID ->
          GetAssetInfo evm (Network req) (Asset req) = Ok assetInfo ->
          Big.SetString (Amount req) = Some value ->
          (exists e, tr = [EvCreateNonce (Err e)] /\ r = Err e)
          \/ exists from nonce va vb pre ev rs,
               tr = prelude from nonce va vb ++ pre ++ [ev]
               /\ signingAnswer ev = Some rs
               /\ r = signedResult evm
                        (authorizationOf req value from nonce va vb) rs)
    /\ (forall chainID assetInfo value,
          GetEvmChainId evm (Network req) = Ok chainID ->
          GetAssetInfo evm (Network req) (Asset req) = Ok assetInfo ->
          Big.SetString (Amount req) = Some value ->
          forall from nonce va vb d e tl,
            tr = prelude from nonce va vb ++ EvSignDigest d (Err e) :: tl ->
            Network req = "gatelayer_testnet"
            /\ Address assetInfo = "0x9be8Df37C788B244cFc28E46654aD5Ec28a880AF"
            /\ d = spec_signingDigest Keccak256 evm
                     (authorizationOf req value from nonce va vb)
                     value va vb pinnedDomainSeparator
            /\ standardRun Keccak256 evm c req chainID assetInfo value
                 from nonce va vb tl r).
Proof.
  destruct (CreatePaymentPayload_total c req s) as (r & w' & tr & Hrun & Hcase).
  exists r, w', tr. split; [exact Hrun|].
  assert (Hres : forall chainID assetInfo value,
    GetEvmChainId evm (Network req) = Ok chainID ->
    GetAssetInfo evm (Network req) (Asset req) = Ok assetInfo ->
    Big.SetString (Amount req) = Some value ->
    cppTrace Keccak256 evm c req chainID assetInfo value tr r).
  { intros chainID assetInfo value Hc Ha Hv.
    destruct (CreatePaymentPayload_run c req chainID assetInfo value s Hc Ha Hv)
      as (tr2 & r2 & w2 & Hrun2 & H2).
    destruct (run_unique c req s r w' tr r2 w2 tr2 Hrun Hrun2) as [-> ->].
    exact H2. }
  assert (Hold :
    (forall pre ev e,
       tr = pre ++ [ev] -> signingAnswer ev = Some (Err e) ->
       r = Err (WrapError
             (ErrFailedToSignAuthorization evm ++ ": " ++ Error_ e)%string e))
    /\ (forall p,
          r = Ok p ->
          exists pre ev signature a,
            tr = pre ++ [ev]
            /\ signingAnswer ev = Some (Ok signature)
            /\ p = payloadOf evm signature a)).
  {
    destruct Hcase as [[-> [e ->]] | (chainID & assetInfo & value & _ & _ & _ & H)].
    - split.
      + intros pre ev e' Htr. destruct pre; discriminate.
      + intros p Hp. discriminate.
    - inversion H; subst.
      + split.
        * intros pre ev e' Htr Hans.
          change [EvCreateNonce (Err e)] with ([] ++ [EvCreateNonce (Err e)]) in Htr.
          apply app_inj_tail in Htr. destruct Htr as [_ <-]. discriminate.
        * intros p Hp. discriminate.
      + split.
        * intros pre ev e' Htr Hans.
          apply app_inj_tail in Htr. destruct Htr as [_ <-].
          cbn in Hans. discriminate.
        * intros p Hp. injection Hp as <-.
          eexists _, _, signature, a. split; [reflexivity|]. split; reflexivity.
      + destruct (stdTrace_last _ _ _ _ _ _ _ _ _ _ _ H1)
          as (pre0 & ev0 & -> & Hans0).
        split.
        * intros pre ev e' Htr Hans.
          rewrite app_comm_cons, app_assoc in Htr.
          apply app_inj_tail in Htr. destruct Htr as [_ <-].
          rewrite Hans0 in Hans. injection Hans as ->. reflexivity.
        * intros p Hp. destruct rs as [signature|e']; [|discriminate].
          cbn [signedResult] in Hp. injection Hp as <-.
          exists (prelude from nonce va vb
                  ++ EvSignDigest (spec_signingDigest Keccak256 evm a value va vb
                                     pinnedDomainSeparator) (Err e) :: pre0),
                 ev0, signature, a.
          split; [rewrite app_comm_cons, app_assoc; reflexivity|]. auto.
      + destruct (stdTrace_last _ _ _ _ _ _ _ _ _ _ _ H1)
          as (pre0 & ev0 & -> & Hans0).
        split.
        * intros pre ev e' Htr Hans.
          rewrite app_assoc in Htr.
          apply app_inj_tail in Htr. destruct Htr as [_ <-].
          rewrite Hans0 in Hans. injection Hans as ->. reflexivity.
        * intros p Hp. destruct rs as [signature|e']; [|discriminate].
          cbn [signedResult] in Hp. injection Hp as <-.
          exists (prelude from nonce va vb ++ pre0), ev0, signature, a.
          split; [rewrite app_assoc; reflexivity|]. auto.
  }
  destruct Hold as [Hold1 Hold2].
  split; [exact Hold1|]. split; [exact Hold2|]. split.
  - intros chainID assetInfo value Hc Ha Hv.
    pose proof (Hres chainID assetInfo value Hc Ha Hv) as H.
    inversion H; subst.
    + left. eauto.
    + right. exists from, nonce, va, vb, [].
      eexists _, (Ok signature). split; [reflexivity|]. split; reflexivity.
    + right.
      match goal with Hs : stdTrace _ _ _ _ _ _ _ _ _ _ _ _ _ |- _ =>
        destruct (stdTrace_last _ _ _ _ _ _ _ _ _ _ _ Hs)
          as (pre0 & ev0 & -> & Hans0) end.
      exists from, nonce, va, vb.
      eexists (_ :: pre0), ev0, rs. split; [reflexivity|].
      split; [exact Hans0|reflexivity].
    + right.
      match goal with Hs : stdTrace _ _ _ _ _ _ _ _ _ _ _ _ _ |- _ =>
        destruct (stdTrace_last _ _ _ _ _ _ _ _ _ _ _ Hs)
          as (pre0 & ev0 & -> & Hans0) end.
      exists from, nonce, va, vb, pre0, ev0, rs. split; [reflexivity|].
      split; [exact Hans0|reflexivity].
  - intros chainID assetInfo value Hc Ha Hv from0 nonce0 va0 vb0 d e0 tl0 Htr.
    pose proof (Hres chainID assetInfo value Hc Ha Hv) as H.
    inversion H; subst.
    + discriminate.
    + match goal with Hp : _ ++ _ = _ ++ _ |- _ =>
        apply prelude_inj in Hp; destruct Hp as (_ & _ & _ & _ & Hq) end.
      discriminate.
    + match goal with Hp : _ ++ _ = _ ++ _ |- _ =>
        apply prelude_inj in Hp;
        destruct Hp as (<- & <- & <- & <- & Hq) end.
      injection Hq as <- _ <-.
      match goal with Hg : pinnedGuard _ _ = true |- _ =>
        apply pinnedGuard_true in Hg; destruct Hg as [Hn Haddr] end.
      split; [exact Hn|]. split; [exact Haddr|]. split; [reflexivity|].
      apply stdTrace_standardRun. assumption.
    + match goal with Hp : _ ++ _ = _ ++ _ |- _ =>
        apply prelude_inj in Hp;
        destruct Hp as (<- & <- & <- & <- & Hq) end.
      subst tl.
      match goal with Hs : stdTrace _ _ _ _ _ _ _ _ _ _ _ _ _ |- _ =>
        inversion Hs end.
Qed.

Lemma cppTrace_unpinned (c : ExactEvmScheme W) req chainID assetInfo value
    tr r :
  pinnedGuard (Network req) (Address assetInfo) = false ->
  cppTrace Keccak256 evm c req chainID assetInfo value tr r ->
  pinnedPathTaken tr = false
  /\ forall d rs, In (EvSignDigest d rs) tr ->
       exists res,
         In (EvCallContract (queryMsg Keccak256 (Address assetInfo)) (Ok res)) tr.
Proof.
  intros Hg H. inversion H; subst; try congruence.
  - split; [reflexivity|]. intros d rs [Hin|[]]. discriminate.
  - split.
    + unfold pinnedPathTaken. rewrite firstSignOrQuery_prelude.
      destruct (stdTrace_first _ _ _ _ _ _ _ _ _ _ _ H1) as (ev & -> & Hev).
      destruct ev; try reflexivity. contradiction.
    + intros d rs0 Hin. apply in_app_or in Hin.
      destruct Hin as [Hin|Hin].
      * cbn in Hin. destruct Hin as [Hin|[Hin|[Hin|[]]]]; discriminate.
      * destruct (stdTrace_digest_from_chain _ _ _ _ _ _ _ _ _ _ _ _ _ H1 Hin)
          as (res & Hres & _).
        exists res. apply in_or_app. right. exact Hres.
Qed.

(** C9. The pinned shortcut is taken only when the network string is
    exactly "gatelayer_testnet" and the resolved asset address is exactly
    "0x9be8Df37C788B244cFc28E46654aD5Ec28a880AF", compared as byte
    strings, and then it is taken.  On any other pair, and so for the
    CAIP-2 identifier "eip155:10087", which the network table configures
    with the same chain id and the same default asset, the standard path
    follows nonce, window and address at once: the chain is asked for
    DOMAIN_SEPARATOR when an RPC client is configured, a digest is signed
    only under the first 32 bytes the chain returned in the same run, and
    typed data is signed otherwise. *)
Theorem pinned_shortcut_exact_match (c : ExactEvmScheme W) req s :
  lookup "eip155:10087" NetworkConfigs = lookup "gatelayer_testnet" NetworkConfigs
  /\ exists r w' tr,
    CreatePaymentPayload Keccak256 evm c req s
      = (Some r, mkSt w' (trace s ++ tr))
    /\ (pinnedPathTaken tr = true ->
          Network req = "gatelayer_testnet"
          /\ exists assetInfo,
               GetAssetInfo evm (Network req) (Asset req) = Ok assetInfo
               /\ Address assetInfo = "0x9be8Df37C788B244cFc28E46654aD5Ec28a880AF")
    /\ (Network req = "eip155:10087" ->
          pinnedPathTaken tr = false
          /\ forall d rs, In (EvSignDigest d rs) tr ->
               exists msg res, In (EvCallContract msg (Ok res)) tr)
    /\ (forall chainID assetInfo value,
          GetEvmChainId evm (Network req) = Ok chainID ->
          GetAssetInfo evm (Network req) (Asset req) = Ok assetInfo ->
          Big.SetString (Amount req) = Some value ->
          (Network req = "eip155:10087"
           \/ Network req <> "gatelayer_testnet"
           \/ Address assetInfo <> "0x9be8Df37C788B244cFc28E46654aD5Ec28a880AF" ->
           unpinnedRun Keccak256 evm c req chainID assetInfo value tr r)
          /\ (Network req = "gatelayer_testnet" ->
              Address assetInfo = "0x9be8Df37C788B244cFc28E46654aD5Ec28a880AF" ->
              pinnedRun Keccak256 evm c req chainID assetInfo value tr r)).
Proof.
  split; [reflexivity|].
  destruct (CreatePaymentPayload_total c req s) as (r & w' & tr & Hrun & Hcase).
  exists r, w', tr. split; [exact Hrun|].
  assert (Hres : forall chainID assetInfo value,
    GetEvmChainId evm (Network req) = Ok chainID ->
    GetAssetInfo evm (Network req) (Asset req) = Ok assetInfo ->
    Big.SetString (Amount req) = Some value ->
    cppTrace Keccak256 evm c req chainID assetInfo value tr r).
  { intros chainID assetInfo value Hc Ha Hv.
    destruct (CreatePaymentPayload_run c req chainID assetInfo value s Hc Ha Hv)
      as (tr2 & r2 & w2 & Hrun2 & H2).
    destruct (run_unique c req s r w' tr r2 w2 tr2 Hrun Hrun2) as [-> ->].
    exact H2. }
  assert (Hold :
    (pinnedPathTaken tr = true ->
       Network req = "gatelayer_testnet"
       /\ exists assetInfo,
            GetAssetInfo evm (Network req) (Asset req) = Ok assetInfo
            /\ Address assetInfo = "0x9be8Df37C788B244cFc28E46654aD5Ec28a880AF")
    /\ (Network req = "eip155:10087" ->
          pinnedPathTaken tr = false
          /\ forall d rs, In (EvSignDigest d rs) tr ->
               exists msg res, In (EvCallContract msg (Ok res)) tr)).
  { destruct Hcase as [[-> _] | (chainID & assetInfo & value & Hc & Ha & Hv & H)].
    - split; [discriminate|]. intros _. split; [reflexivity|]. intros d rs [].
    - destruct (pinnedGuard (Network req) (Address assetInfo)) eqn:Hg.
      + apply pinnedGuard_true in Hg. destruct Hg as [Hn Haddr]. split.
        * intros _. split; [exact Hn|]. exists assetInfo. auto.
        * intros Hn'. rewrite Hn in Hn'. discriminate.
      + destruct (cppTrace_unpinned _ _ _ _ _ _ _ Hg H) as [Hp Hd]. split.
        * rewrite Hp. discriminate.
        * intros _. split; [exact Hp|]. intros d rs Hin.
          destruct (Hd d rs Hin) as (res & Hres'). eauto. }
  destruct Hold as [Hold1 Hold2].
  split; [exact Hold1|]. split; [exact Hold2|].
  intros chainID assetInfo value Hc Ha Hv.
  pose proof (Hres chainID assetInfo value Hc Ha Hv) as H.
  split.
  - intros Hoff. apply cppTrace_unpinnedRun; [|exact H].
    destruct (pinnedGuard (Network req) (Address assetInfo)) eqn:Hg;
      [|reflexivity].
    apply pinnedGuard_true in Hg. destruct Hg as [Hn Haddr].
    destruct Hoff as [Hoff|[Hoff|Hoff]].
    + rewrite Hn in Hoff. discriminate.
    + contradiction.
    + contradiction.
  - intros Hn Haddr. apply cppTrace_pinnedRun; [|exact H].
    apply pinnedGuard_true. auto.
Qed.

End SchemeFacts.

(* ================================================================== *)
(** * The facilitator client *)

Module HeaderFacts.
Import Http.

Lemma lookup_put k k' v (h : Header) :
  lookup k' (put k v h) = if String.eqb k' k then Some v else lookup k' h.
Proof.
  induction h as [|[k0 v0] r IH]; cbn [put lookup].
  - reflexivity.
  - destruct (String.eqb_spec k k0) as [->|Hk]; cbn [lookup].
    + destruct (String.eqb k' k0); reflexivity.
    + rewrite IH. destruct (String.eqb_spec k' k0) as [->|Hk'].
      * destruct (String.eqb_spec k0 k) as [->|]; [contradiction|reflexivity].
      * reflexivity.
Qed.

Lemma Get_setHeader r k v k' :
  Get (Hdr (setHeader r k v)) k' =
  if String.eqb (CanonicalMIMEHeaderKey k') (CanonicalMIMEHeaderKey k)
  then Some v else Get (Hdr r) k'.
Proof. unfold Get, setHeader, Set_. cbn [Hdr]. apply lookup_put. Qed.

Lemma setHeader_frame r k v :
  Method (setHeader r k v) = Method r
  /\ URL (setHeader r k v) = URL r
  /\ Body (setHeader r k v) = Body r.
Proof. repeat split. Qed.

Lemma setAll_frame hs : forall r,
  Method (setAll r hs) = Method r
  /\ URL (setAll r hs) = URL r
  /\ Body (setAll r hs) = Body r.
Proof.
  induction hs as [|[k v] hs IH]; intros r; [repeat split|].
  cbn [setAll fold_left]. destruct (IH (setHeader r k v)) as (A & B & C).
  repeat split; assumption.
Qed.

(** Headers the provider does not write keep their value. *)
Lemma Get_setAll hs k : forall r,
  touches hs k = false -> Get (Hdr (setAll r hs)) k = Get (Hdr r) k.
Proof.
  induction hs as [|[k0 v0] hs IH]; intros r Ht; [reflexivity|].
  cbn [touches existsb fst] in Ht. apply orb_false_iff in Ht.
  destruct Ht as [Hk Hrest].
  cbn [setAll fold_left fst snd].
  change (fold_left _ hs ?x) with (setAll x hs).
  rewrite IH by exact Hrest. rewrite Get_setHeader.
  rewrite String.eqb_sym, Hk. reflexivity.
Qed.

End HeaderFacts.

Section FacilitatorFacts.
Context {W SR : Type}.
Variable env : HttpEnv W SR.
Import Http.

Lemma bytes_of_string_app a b :
  bytes_of_string (a ++ b)%string = bytes_of_string a ++ bytes_of_string b.
Proof.
  unfold bytes_of_string, list_byte_of_string.
  induction a as [|ch a IH]; [reflexivity|].
  simpl. f_equal. exact IH.
Qed.

(** The prehash of the code is the concatenation the description names. *)
Lemma signatureOf_spec secret ts path body :
  signatureOf env secret (prehashOf ts path body)
  = spec_signature env secret ts path body.
Proof.
  unfold signatureOf, prehashOf, spec_signature.
  rewrite !bytes_of_string_app.
  unfold bytes_of_string at 4.
  rewrite list_byte_of_string_of_list_byte. reflexivity.
Qed.

Lemma applyGateWeb3Signature_off req body uri s :
  loadGateWeb3Credentials env (world s) = None ->
  applyGateWeb3Signature env req body uri s = (Some req, s).
Proof. intros H. unfold applyGateWeb3Signature. rewrite H. reflexivity. Qed.

Lemma applyGateWeb3Signature_on req body uri s creds :
  loadGateWeb3Credentials env (world s) = Some creds ->
  applyGateWeb3Signature env req body uri s =
  (Some (signedRequest env creds (fst (NowUnixMilli env (world s)))
           (fst (NewUUID env (snd (NowUnixMilli env (world s))))) req body uri),
   mkSt (snd (NewUUID env (snd (NowUnixMilli env (world s)))))
        (trace s ++ [EvNow (fst (NowUnixMilli env (world s)));
                     EvNewUUID (fst (NewUUID env (snd (NowUnixMilli env (world s)))))])).
Proof.
  intros H. unfold applyGateWeb3Signature. rewrite H.
  unfold bind, call, ret.
  destruct (NowUnixMilli env (world s)) as [ts w1]. cbn [world trace fst snd].
  destruct (NewUUID env w1) as [id w2]. cbn [fst snd].
  rewrite <- app_assoc. reflexivity.
Qed.

(** The signed request carries the six headers of the scheme. *)
Lemma signedRequest_signed creds ts id req body uri :
  Body req = body ->
  gateWeb3Signed env creds ts id []
    (signedRequest env creds ts id req body uri).
Proof.
  intros Hb. unfold gateWeb3Signed, attached, signedRequest.
  assert (HB : forall r k v, Body (setHeader r k v) = Body r) by reflexivity.
  destruct (String.eqb_spec (Passphrase creds) "") as [Hp|Hp];
    destruct (String.eqb_spec (RealIP creds) "") as [Hr|Hr];
    cbn [negb]; rewrite ?HB, Hb, signatureOf_spec;
    repeat split; intros; try contradiction;
    repeat (rewrite HeaderFacts.Get_setHeader;
            match goal with
            | |- context [String.eqb ?a ?b] =>
                let t := eval vm_compute in (String.eqb a b) in
                change (String.eqb a b) with t; cbv iota
            end); reflexivity.
Qed.

Lemma signedRequest_frame creds ts id req body uri :
  Method (signedRequest env creds ts id req body uri) = Method req
  /\ URL (signedRequest env creds ts id req body uri) = URL req
  /\ Body (signedRequest env creds ts id req body uri) = Body req.
Proof.
  unfold signedRequest.
  destruct (negb (String.eqb (Passphrase creds) ""));
    destruct (negb (String.eqb (RealIP creds) "")); repeat split.
Qed.

(** Every round trip returns, and its trace is an [rtTrace]. *)
Lemma roundTrip_run (c : HTTPFacilitatorClient W) body uri pick
    createMsg sendMsg readMsg s :
  exists tr r w',
    roundTrip env c body uri pick createMsg sendMsg readMsg s
      = (Some r, mkSt w' (trace s ++ tr))
    /\ rtTrace env c body uri pick createMsg sendMsg readMsg (world s) tr r.
Proof.
  destruct s as [w tr0]. unfold roundTrip, NewRequestWithContext.
  destruct (checkURL env (url c)) as [e|] eqn:Hu.
  { exists [], (Err (Errorf_w createMsg e)), w. cbn [trace].
    rewrite app_nil_r. split; [reflexivity|]. apply rt_bad_url; assumption. }
  fold (baseRequest c body).
  assert (Hsig : exists tsig req1 w1,
    applyGateWeb3Signature env (baseRequest c body) body uri (mkSt w tr0)
      = (Some req1, mkSt w1 (tr0 ++ tsig))
    /\ sigTrace env c body uri w tsig req1).
  { destruct (loadGateWeb3Credentials env w) as [creds|] eqn:Hl.
    - rewrite (applyGateWeb3Signature_on _ _ _ _ creds) by exact Hl.
      cbn [world trace]. eexists _, _, _. split; [reflexivity|].
      apply sig_on; assumption.
    - rewrite applyGateWeb3Signature_off by exact Hl.
      exists [], (baseRequest c body), w. rewrite app_nil_r.
      split; [reflexivity|]. apply sig_off; assumption. }
  destruct Hsig as (tsig & req1 & w1 & Hrun & Hs).
  unfold bind at 1. rewrite Hrun.
  destruct (authProvider c) as [ap|] eqn:Hap.
  - unfold bind at 1. unfold bind at 1. unfold call at 1. cbn [world trace].
    destruct (GetAuthHeaders ap w1) as [ra w2]. destruct ra as [ah|e].
    + cbn [ret]. unfold bind, call, ret. cbn [world trace].
      destruct (Do (httpClient c) (setAll req1 (pick ah)) w2) as [rr w3].
      exists (tsig ++ [EvGetAuthHeaders (Ok ah)]
                   ++ [EvDo (setAll req1 (pick ah)) rr]),
             (respResult sendMsg readMsg rr), w3.
      split.
      * rewrite <- !app_assoc. destruct rr as [resp|e]; [|reflexivity].
        cbn [respResult]. destruct (ReadAll resp); reflexivity.
      * apply rt_sent; [assumption|assumption|].
        eapply auth_some; eassumption.
    + cbn [ret]. eexists _, _, w2. split; [rewrite <- app_assoc; reflexivity|].
      eapply rt_auth_failed; eassumption.
  - unfold bind, call, ret. cbn [world trace].
    destruct (Do (httpClient c) req1 w1) as [rr w3].
    exists (tsig ++ [] ++ [EvDo (setAll req1 []) rr]),
           (respResult sendMsg readMsg rr), w3.
    split.
    + cbn [app setAll fold_left]. rewrite <- !app_assoc.
      destruct rr as [resp|e]; [|reflexivity].
      cbn [respResult]. destruct (ReadAll resp); reflexivity.
    + apply rt_sent; [assumption|assumption|]. apply auth_none; assumption.
Qed.

(** ** The three operations as runs *)

Lemma buildBody_spec action version p r marshalMsg :
  DetectVersion env p = Ok version ->
  match buildBody env action version p r marshalMsg with
  | Ok body =>
      exists v, spec_actionBody env action p r = Some v
                /\ Marshal env v = Ok body
  | Err _ =>
      forall v body, spec_actionBody env action p r = Some v ->
                     Marshal env v = Ok body -> False
  end.
Proof.
  intros Hd. unfold buildBody, spec_actionBody. rewrite Hd.
  destruct (UnmarshalMap env p) as [pm|e]; [|intros; discriminate].
  destruct (UnmarshalMap env r) as [rm|e]; [|intros; discriminate].
  fold (spec_requestBody action version pm rm).
  destruct (Marshal env (spec_requestBody action version pm rm)) as [body|e] eqn:Hm.
  - eexists. split; [reflexivity|exact Hm].
  - intros v body [= <-] Hb. congruence.
Qed.

Lemma Verify_run (c : HTTPFacilitatorClient W) p r s :
  exists rv w' tr,
    Verify env c p r s = (Some rv, mkSt w' (trace s ++ tr))
    /\ opRun env c (verifyOutcome env) (spec_actionBody env "x402.verify" p r)
         gateWeb3TargetURIVerify ahVerify
         "failed to create verify request: " "verify request failed: "
         "failed to read response body: " (world s) tr rv.
Proof.
  unfold Verify.
  destruct (DetectVersion env p) as [version|e] eqn:Hd.
  2:{ eexists _, (world s), []. destruct s as [w t]; cbn [world trace].
      rewrite app_nil_r. split; [reflexivity|]. left.
      split; [reflexivity|]. split; [eauto|].
      unfold spec_actionBody. rewrite Hd. discriminate. }
  unfold verifyHTTP.
  pose proof (buildBody_spec "x402.verify" version p r
                "failed to marshal verify request: " Hd) as Hb.
  destruct (buildBody env "x402.verify" version p r
              "failed to marshal verify request: ") as [body|e].
  - destruct Hb as (v & Hv & Hm).
    destruct (roundTrip_run c body gateWeb3TargetURIVerify ahVerify
                "failed to create verify request: " "verify request failed: "
                "failed to read response body: " s)
      as (tr & rt & w' & Hrun & Hshape).
    exists (verifyOutcome env rt), w', tr. split.
    + unfold bind. rewrite Hrun. unfold verifyOutcome.
      destruct rt as [[resp rb]|e]; [|reflexivity].
      destruct (UnmarshalVerify env rb) as [apiResp|]; [|reflexivity].
      destruct (negb (StatusCode resp =? StatusOK) || negb (Code apiResp =? 0));
        [|reflexivity].
      destruct (negb (String.eqb (InvalidReason (Data apiResp)) ""));
        reflexivity.
    + right. exists v, body, rt. repeat split; auto.
      intros e ->. reflexivity.
  - eexists _, (world s), []. destruct s as [w t]; cbn [world trace].
    rewrite app_nil_r. split; [reflexivity|]. left.
    split; [reflexivity|]. split; [eauto|exact Hb].
Qed.

Lemma Settle_run (c : HTTPFacilitatorClient W) p r s :
  exists rv w' tr,
    Settle env c p r s = (Some rv, mkSt w' (trace s ++ tr))
    /\ opRun env c (settleOutcome env) (spec_actionBody env "x402.settle" p r)
         gateWeb3TargetURISettle ahSettle
         "failed to create settle request: " "settle request failed: "
         "failed to read response body: " (world s) tr rv.
Proof.
  unfold Settle.
  destruct (DetectVersion env p) as [version|e] eqn:Hd.
  2:{ eexists _, (world s), []. destruct s as [w t]; cbn [world trace].
      rewrite app_nil_r. split; [reflexivity|]. left.
      split; [reflexivity|]. split; [eauto|].
      unfold spec_actionBody. rewrite Hd. discriminate. }
  unfold settleHTTP.
  pose proof (buildBody_spec "x402.settle" version p r
                "failed to marshal settle request: " Hd) as Hb.
  destruct (buildBody env "x402.settle" version p r
              "failed to marshal settle request: ") as [body|e].
  - destruct Hb as (v & Hv & Hm).
    destruct (roundTrip_run c body gateWeb3TargetURISettle ahSettle
                "failed to create settle request: " "settle request failed: "
                "failed to read response body: " s)
      as (tr & rt & w' & Hrun & Hshape).
    exists (settleOutcome env rt), w', tr. split.
    + unfold bind. rewrite Hrun. unfold settleOutcome.
      destruct rt as [[resp rb]|e]; [|reflexivity].
      destruct (UnmarshalSettle env rb) as [apiResp|]; [|reflexivity].
      destruct (negb (StatusCode resp =? StatusOK) || negb (Code apiResp =? 0));
        [|reflexivity].
      destruct (negb (String.eqb (ErrorReason (Data apiResp)) ""));
        reflexivity.
    + right. exists v, body, rt. repeat split; auto.
      intros e ->. reflexivity.
  - eexists _, (world s), []. destruct s as [w t]; cbn [world trace].
    rewrite app_nil_r. split; [reflexivity|]. left.
    split; [reflexivity|]. split; [eauto|exact Hb].
Qed.

Lemma GetSupported_run (c : HTTPFacilitatorClient W) s :
  exists rv w' tr,
    GetSupported env c s = (Some rv, mkSt w' (trace s ++ tr))
    /\ opRun env c (supportedOutcome env) (Some spec_supportedBody)
         gateWeb3TargetURISupported ahSupported
         "failed to create supported request: " "supported request failed: "
         "failed to read supported response body: " (world s) tr rv.
Proof.
  unfold GetSupported. fold spec_supportedBody.
  destruct (Marshal env spec_supportedBody) as [body|e] eqn:Hm.
  - destruct (roundTrip_run c body gateWeb3TargetURISupported ahSupported
                "failed to create supported request: "
                "supported request failed: "
                "failed to read supported response body: " s)
      as (tr & rt & w' & Hrun & Hshape).
    exists (supportedOutcome env rt), w', tr. split.
    + unfold bind. rewrite Hrun. unfold supportedOutcome.
      destruct rt as [[resp rb]|e]; [|reflexivity].
      destruct (UnmarshalSupported env rb) as [apiResp|]; [|reflexivity].
      destruct (negb (StatusCode resp =? StatusOK) || negb (Code apiResp =? 0));
        reflexivity.
    + right. exists spec_supportedBody, body, rt. repeat split; auto.
      intros e ->. reflexivity.
  - eexists _, (world s), []. destruct s as [w t]; cbn [world trace].
    rewrite app_nil_r. split; [reflexivity|]. left.
    split; [reflexivity|]. split; [eauto|].
    intros v body [= <-] Hb. congruence.
Qed.

(** ** What a round trip sends *)

Lemma posts_app a b : posts (a ++ b) = (posts a + posts b)%nat.
Proof. unfold posts. rewrite filter_app, length_app. reflexivity. Qed.

Lemma sigTrace_facts (c : HTTPFacilitatorClient W) body uri w tsig req1 :
  sigTrace env c body uri w tsig req1 ->
  posts tsig = 0%nat
  /\ (forall q rr, ~ In (EvDo q rr) tsig)
  /\ (forall r, ~ In (EvGetAuthHeaders r) tsig)
  /\ Method req1 = "POST" /\ URL req1 = url c /\ Body req1 = body.
Proof.
  intros H. inversion H; subst.
  - repeat split; intros; intros [].
  - destruct (signedRequest_frame creds ts id (baseRequest c body) body uri)
      as (Hm & Hu & Hb).
    repeat split; try assumption;
      intros; intros [E|[E|[]]]; discriminate.
Qed.

Lemma authTrace_facts (c : HTTPFacilitatorClient W) pick tauth hs :
  authTrace c pick tauth hs ->
  posts tauth = 0%nat
  /\ (forall q rr, ~ In (EvDo q rr) tauth)
  /\ (forall e, ~ In (EvGetAuthHeaders (Err e)) tauth)
  /\ (forall t, ~ In (EvNow t) tauth)
  /\ (forall i, ~ In (EvNewUUID i) tauth).
Proof.
  intros H. inversion H; subst.
  - repeat split; intros; intros [].
  - repeat split; intros; intros [E|[]]; discriminate.
Qed.

(** A request found in the trace of a round trip is the one sent at its
    end. *)
Lemma rtTrace_sent (c : HTTPFacilitatorClient W) body uri pick cm sm rm w
    tr rt q rr :
  rtTrace env c body uri pick cm sm rm w tr rt ->
  In (EvDo q rr) tr ->
  exists tsig req1 tauth hs,
    tr = tsig ++ tauth ++ [EvDo q rr]
    /\ q = setAll req1 hs
    /\ sigTrace env c body uri w tsig req1
    /\ authTrace c pick tauth hs
    /\ rt = respResult sm rm rr.
Proof.
  intros H Hin. inversion H; subst.
  - destruct Hin.
  - apply in_app_or in Hin. destruct Hin as [Hin|[Hin|[]]]; [|discriminate].
    destruct (sigTrace_facts _ _ _ _ _ _ H1) as (_ & Hno & _).
    destruct (Hno _ _ Hin).
  - apply in_app_or in Hin. destruct Hin as [Hin|Hin].
    { destruct (sigTrace_facts _ _ _ _ _ _ H1) as (_ & Hno & _).
      destruct (Hno _ _ Hin). }
    apply in_app_or in Hin. destruct Hin as [Hin|Hin].
    { destruct (authTrace_facts _ _ _ _ H2) as (_ & Hno & _).
      destruct (Hno _ _ Hin). }
    destruct Hin as [Hin|[]]. injection Hin as <- <-.
    exists tsig, req1, tauth, hs. auto.
Qed.

Section Generic.
Context {A : Type}.
Variable c : HTTPFacilitatorClient W.
Variable outcome : result (Response * bytes) -> result A.
Variable bodyValue : option value.
Variable uri : string.
Variable pick : AuthHeaders -> list (string * string).
Variables cm sm rm : string.

Lemma opRun_singlePost w tr r :
  opRun env c outcome bodyValue uri pick cm sm rm w tr r ->
  singlePost env c bodyValue tr.
Proof.
  intros [(-> & _ & Hno) | (v & body & rt & Hv & Hm & Hrt & _)].
  - split; [cbn; lia|]. split; [intros q rr []|].
    intros v body Hv Hm _ _. destruct (Hno v body Hv Hm).
  - inversion Hrt; subst.
    + split; [cbn; lia|]. split; [intros q rr []|].
      intros v' body' _ _ Hu _. congruence.
    + destruct (sigTrace_facts _ _ _ _ _ _ H0) as (Hp & Hno & _).
      split; [rewrite posts_app, Hp; cbn; lia|]. split.
      * intros q rr Hin. apply in_app_or in Hin.
        destruct Hin as [Hin|[Hin|[]]]; [|discriminate].
        destruct (Hno _ _ Hin).
      * intros v' body' _ _ _ Hok. exfalso. apply (Hok e).
        apply in_or_app. right. left. reflexivity.
    + destruct (sigTrace_facts _ _ _ _ _ _ H0)
        as (Hp & Hno & _ & HM & HU & HB).
      destruct (authTrace_facts _ _ _ _ H1) as (Hp' & Hno' & _).
      assert (Hposts : posts (tsig ++ tauth ++ [EvDo (setAll req1 hs) rr])
                       = 1%nat).
      { rewrite !posts_app, Hp, Hp'. reflexivity. }
      split; [rewrite Hposts; lia|]. split.
      * intros q rr' Hin.
        destruct (rtTrace_sent _ _ _ _ _ _ _ _ _ _ _ _ Hrt Hin)
          as (tsig' & req1' & tauth' & hs' & _ & -> & Hs' & _ & _).
        destruct (sigTrace_facts _ _ _ _ _ _ Hs') as (_ & _ & _ & M & U & B).
        destruct (HeaderFacts.setAll_frame hs' req1') as (M' & U' & B').
        rewrite M', U', B', M, U, B.
        split; [reflexivity|]. split; [reflexivity|]. exists v. auto.
      * intros; exact Hposts.
Qed.

Lemma opRun_noPost w tr r :
  opRun env c outcome bodyValue uri pick cm sm rm w tr r ->
  posts tr = 0%nat -> exists e, r = Err e.
Proof.
  intros [(_ & He & _) | (v & body & rt & _ & _ & Hrt & -> & Herr)] Hp;
    [exact He|].
  inversion Hrt; subst.
  - eexists. apply Herr. reflexivity.
  - eexists. apply Herr. reflexivity.
  - exfalso. rewrite !posts_app in Hp. cbn in Hp. lia.
Qed.

Lemma opRun_answered w tr r :
  opRun env c outcome bodyValue uri pick cm sm rm w tr r ->
  forall q resp responseBody,
    In (EvDo q (Ok resp)) tr -> ReadAll resp = Ok responseBody ->
    r = outcome (Ok (resp, responseBody)).
Proof.
  intros [(-> & _ & _) | (v & body & rt & _ & _ & Hrt & -> & _)]
    q resp rb Hin Hread.
  - destruct Hin.
  - destruct (rtTrace_sent _ _ _ _ _ _ _ _ _ _ _ _ Hrt Hin)
      as (_ & _ & _ & _ & _ & _ & _ & _ & ->).
    cbn [respResult]. rewrite Hread. reflexivity.
Qed.

Lemma authTrace_provider tsig tauth hs (ev : HttpEvent) :
  authTrace c pick tauth hs ->
  providerHeaders c pick (tsig ++ tauth ++ [ev]) hs.
Proof.
  intros H. inversion H; subst.
  - left. auto.
  - right. exists ah. split; [|reflexivity].
    apply in_or_app. right. left. reflexivity.
Qed.

Lemma gateWeb3Signed_setAll creds ts id hs req1 :
  gateWeb3Signed env creds ts id [] req1 ->
  gateWeb3Signed env creds ts id hs (setAll req1 hs).
Proof.
  unfold gateWeb3Signed, attached.
  destruct (HeaderFacts.setAll_frame hs req1) as (_ & _ & ->).
  intros (H1 & H2 & H3 & H4 & H5 & H6).
  repeat split; intros;
    rewrite HeaderFacts.Get_setAll by assumption; auto.
Qed.

Lemma opRun_signedPosts w tr r creds :
  loadGateWeb3Credentials env w = Some creds ->
  opRun env c outcome bodyValue uri pick cm sm rm w tr r ->
  signedPosts env c pick creds tr.
Proof.
  intros Hl [(-> & _ & _) | (v & body & rt & _ & _ & Hrt & _ & _)] q rr Hin.
  - destruct Hin.
  - destruct (rtTrace_sent _ _ _ _ _ _ _ _ _ _ _ _ Hrt Hin)
      as (tsig & req1 & tauth & hs & -> & -> & Hs & Ha & _).
    inversion Hs; subst; [congruence|].
    assert (creds0 = creds) as -> by congruence.
    exists ts, id, hs.
    split; [left; reflexivity|].
    split; [right; left; reflexivity|].
    split; [apply (authTrace_provider [EvNow ts; EvNewUUID id]); exact Ha|].
    apply gateWeb3Signed_setAll. apply signedRequest_signed. reflexivity.
Qed.

Lemma opRun_unsignedPosts w tr r :
  loadGateWeb3Credentials env w = None ->
  opRun env c outcome bodyValue uri pick cm sm rm w tr r ->
  unsignedPosts c pick tr.
Proof.
  intros Hl [(-> & _ & _) | (v & body & rt & _ & _ & Hrt & _ & _)].
  - split; [intros ts []|]. split; [intros id []|]. intros q rr [].
  - inversion Hrt; subst.
    + split; [intros ts []|]. split; [intros id []|]. intros q rr [].
    + inversion H0; subst; [|congruence].
      split; [intros ts [E|[]]; discriminate|].
      split; [intros id [E|[]]; discriminate|].
      intros q rr [E|[]]. discriminate.
    + inversion H0; subst; [|congruence].
      destruct (authTrace_facts _ _ _ _ H1) as (_ & _ & _ & Hn & Hu).
      cbn [app]. split.
      { intros ts Hin. apply in_app_or in Hin.
        destruct Hin as [Hin|[Hin|[]]]; [exact (Hn _ Hin)|discriminate]. }
      split.
      { intros id Hin. apply in_app_or in Hin.
        destruct Hin as [Hin|[Hin|[]]]; [exact (Hu _ Hin)|discriminate]. }
      intros q rr' Hin.
      destruct (rtTrace_sent _ _ _ _ _ _ _ _ _ _ _ _ Hrt Hin)
        as (tsig & req1 & tauth' & hs' & Htr & -> & Hs & Ha & _).
      inversion Hs; subst; [|congruence].
      exists hs'. split.
      * cbn [app] in Htr. rewrite Htr.
        exact (authTrace_provider [] _ _ _ Ha).
      * destruct (HeaderFacts.setAll_frame hs' (baseRequest c body))
          as (_ & _ & ->).
        reflexivity.
Qed.

End Generic.

(** ** Credentials *)

Lemma asciiSpace_isASCII ch :
  Strings.asciiSpace ch = true -> Strings.isASCII ch = true.
Proof.
  unfold Strings.asciiSpace, Strings.isASCII. intros H.
  apply orb_true_iff in H. apply Z.ltb_lt.
  destruct H as [H|H].
  - apply andb_true_iff in H. destruct H as [_ H]. apply Z.leb_le in H. lia.
  - apply Z.eqb_eq in H. lia.
Qed.

(** Text made of ASCII white space only trims to the empty text. *)
Lemma TrimSpace_blank s : blank s = true -> TrimSpace env s = "".
Proof.
  unfold TrimSpace, blank.
  induction s as [|ch r IH]; [reflexivity|].
  cbn [list_ascii_of_string forallb Strings.TrimSpace].
  intros H. apply andb_true_iff in H. destruct H as [Hc Hr].
  rewrite (asciiSpace_isASCII ch Hc), Hc. cbn [negb]. apply IH. exact Hr.
Qed.

Lemma loadGateWeb3Credentials_blank w :
  blank (Getenv env w envGateWeb3APIKey) = true
  \/ blank (Getenv env w envGateWeb3APISecret) = true ->
  loadGateWeb3Credentials env w = None.
Proof.
  intros H. unfold loadGateWeb3Credentials.
  destruct H as [H|H]; rewrite (TrimSpace_blank _ H).
  - reflexivity.
  - rewrite orb_true_r. reflexivity.
Qed.

Lemma loadGateWeb3Credentials_Some w creds :
  loadGateWeb3Credentials env w = Some creds ->
  APIKey creds = TrimSpace env (Getenv env w envGateWeb3APIKey)
  /\ APISecret creds = TrimSpace env (Getenv env w envGateWeb3APISecret)
  /\ APIKey creds <> "" /\ APISecret creds <> "" /\ RealIP creds <> "".
Proof.
  unfold loadGateWeb3Credentials.
  destruct (String.eqb_spec (TrimSpace env (Getenv env w envGateWeb3APIKey)) "")
    as [E1|E1]; [discriminate|].
  destruct (String.eqb_spec (TrimSpace env (Getenv env w envGateWeb3APISecret)) "")
    as [E2|E2]; [discriminate|].
  cbn [orb]. intros [= <-]. cbn [APIKey APISecret RealIP].
  repeat split; auto.
  destruct (String.eqb_spec (Getenv env w envGateWeb3RealIP) "") as [E|E];
    [discriminate|exact E].
Qed.

(** ** The claims on the wire client *)


Lemma outcome_verify_business resp rb apiResp :
  StatusCode resp = 200 ->
  UnmarshalVerify env rb = Some apiResp ->
  Code apiResp <> 0 ->
  verifyOutcome env (Ok (resp, rb)) =
  Err (if String.eqb (InvalidReason (Data apiResp)) ""
       then ErrorString (failedMsg "verify" 200 (Code apiResp) (Msg apiResp))
       else VerifyError (InvalidReason (Data apiResp)) (vPayer (Data apiResp)) ""
              (ErrorString (returnedMsg 200 (Code apiResp) (Msg apiResp)))).
Proof.
  intros Hs Hu Hc. unfold verifyOutcome. rewrite Hu, Hs.
  destruct (Z.eqb_spec (Code apiResp) 0) as [E|_]; [contradiction|].
  change (negb (200 =? StatusOK) || negb false) with true. cbv iota.
  destruct (String.eqb (InvalidReason (Data apiResp)) ""); reflexivity.
Qed.

Lemma outcome_settle_business resp rb apiResp :
  StatusCode resp = 200 ->
  UnmarshalSettle env rb = Some apiResp ->
  Code apiResp <> 0 ->
  settleOutcome env (Ok (resp, rb)) =
  Err (if String.eqb (ErrorReason (Data apiResp)) ""
       then ErrorString (failedMsg "settle" 200 (Code apiResp) (Msg apiResp))
       else SettleError (ErrorReason (Data apiResp)) (sPayer (Data apiResp))
              (sNetwork (Data apiResp)) (Transaction (Data apiResp))
              (ErrorString (returnedMsg 200 (Code apiResp) (Msg apiResp)))).
Proof.
  intros Hs Hu Hc. unfold settleOutcome. rewrite Hu, Hs.
  destruct (Z.eqb_spec (Code apiResp) 0) as [E|_]; [contradiction|].
  change (negb (200 =? StatusOK) || negb false) with true. cbv iota.
  destruct (String.eqb (ErrorReason (Data apiResp)) ""); reflexivity.
Qed.

Lemma outcome_supported_business resp rb apiResp :
  StatusCode resp = 200 ->
  UnmarshalSupported env rb = Some apiResp ->
  Code apiResp <> 0 ->
  supportedOutcome env (Ok (resp, rb)) =
  Err (ErrorString (failedMsg "supported" 200 (Code apiResp) (Msg apiResp))).
Proof.
  intros Hs Hu Hc. unfold supportedOutcome. rewrite Hu, Hs.
  destruct (Z.eqb_spec (Code apiResp) 0) as [E|_]; [contradiction|].
  reflexivity.
Qed.

(** C5 (amended). For every facilitator response with HTTP status 200 and
    an envelope whose code is not 0, Verify, Settle and GetSupported
    return an error, never a result.  For Verify the error is the typed
    verify error carrying invalid_reason and payer when invalid_reason is
    not empty; for Settle it is the typed settle error carrying
    error_reason, payer, network and transaction when error_reason is not
    empty.  With an empty reason, and always for GetSupported, the error
    is a plain formatted error naming the HTTP status, the code and the
    message. *)
Theorem business_failure_is_error (c : HTTPFacilitatorClient W) p r s :
  (exists rv w' tr,
     Verify env c p r s = (Some rv, mkSt w' (trace s ++ tr))
     /\ forall q resp rb apiResp,
          In (EvDo q (Ok resp)) tr -> StatusCode resp = 200 ->
          ReadAll resp = Ok rb -> UnmarshalVerify env rb = Some apiResp ->
          Code apiResp <> 0 ->
          rv = Err
            (if String.eqb (InvalidReason (Data apiResp)) ""
             then ErrorString
                    (failedMsg "verify" 200 (Code apiResp) (Msg apiResp))
             else VerifyError (InvalidReason (Data apiResp))
                    (vPayer (Data apiResp)) ""
                    (ErrorString
                       (returnedMsg 200 (Code apiResp) (Msg apiResp)))))
  /\ (exists rv w' tr,
     Settle env c p r s = (Some rv, mkSt w' (trace s ++ tr))
     /\ forall q resp rb apiResp,
          In (EvDo q (Ok resp)) tr -> StatusCode resp = 200 ->
          ReadAll resp = Ok rb -> UnmarshalSettle env rb = Some apiResp ->
          Code apiResp <> 0 ->
          rv = Err
            (if String.eqb (ErrorReason (Data apiResp)) ""
             then ErrorString
                    (failedMsg "settle" 200 (Code apiResp) (Msg apiResp))
             else SettleError (ErrorReason (Data apiResp))
                    (sPayer (Data apiResp)) (sNetwork (Data apiResp))
                    (Transaction (Data apiResp))
                    (ErrorString
                       (returnedMsg 200 (Code apiResp) (Msg apiResp)))))
  /\ (exists rv w' tr,
     GetSupported env c s = (Some rv, mkSt w' (trace s ++ tr))
     /\ forall q resp rb apiResp,
          In (EvDo q (Ok resp)) tr -> StatusCode resp = 200 ->
          ReadAll resp = Ok rb -> UnmarshalSupported env rb = Some apiResp ->
          Code apiResp <> 0 ->
          rv = Err (ErrorString
                 (failedMsg "supported" 200 (Code apiResp) (Msg apiResp)))).
Proof.
  split; [|split].
  - destruct (Verify_run c p r s) as (rv & w' & tr & Hrun & Hop).
    exists rv, w', tr. split; [exact Hrun|].
    intros q resp rb apiResp Hin Hs Hr Hu Hc.
    rewrite (opRun_answered _ _ _ _ _ _ _ _ _ _ _ Hop q resp rb Hin Hr).
    apply outcome_verify_business; assumption.
  - destruct (Settle_run c p r s) as (rv & w' & tr & Hrun & Hop).
    exists rv, w', tr. split; [exact Hrun|].
    intros q resp rb apiResp Hin Hs Hr Hu Hc.
    rewrite (opRun_answered _ _ _ _ _ _ _ _ _ _ _ Hop q resp rb Hin Hr).
    apply outcome_settle_business; assumption.
  - destruct (GetSupported_run c s) as (rv & w' & tr & Hrun & Hop).
    exists rv, w', tr. split; [exact Hrun|].
    intros q resp rb apiResp Hin Hs Hr Hu Hc.
    rewrite (opRun_answered _ _ _ _ _ _ _ _ _ _ _ Hop q resp rb Hin Hr).
    apply outcome_supported_business; assumption.
Qed.

(** C6 (amended). Each of verify, settle and supported sends at most one
    HTTP request, and exactly one once its body is built, the URL is
    accepted and the auth provider has not failed; when it sends none it
    returns an error.  The request is a POST to the configured
    facilitator URL; its body is the serialization of {action, params}
    with action "x402.verify", "x402.settle" or "x402.supported"; for
    verify and settle, params holds the version detected from the payload
    bytes and the payload and the requirements as the generic maps the
    JSON decoder made of them, which the client passes on as they are. *)
Theorem one_post_per_operation (c : HTTPFacilitatorClient W) p r s :
  (exists rv w' tr,
     Verify env c p r s = (Some rv, mkSt w' (trace s ++ tr))
     /\ singlePost env c (spec_actionBody env "x402.verify" p r) tr
     /\ (posts tr = 0%nat -> exists e, rv = Err e))
  /\ (exists rv w' tr,
     Settle env c p r s = (Some rv, mkSt w' (trace s ++ tr))
     /\ singlePost env c (spec_actionBody env "x402.settle" p r) tr
     /\ (posts tr = 0%nat -> exists e, rv = Err e))
  /\ (exists rv w' tr,
     GetSupported env c s = (Some rv, mkSt w' (trace s ++ tr))
     /\ singlePost env c (Some spec_supportedBody) tr
     /\ (posts tr = 0%nat -> exists e, rv = Err e)).
Proof.
  split; [|split].
  - destruct (Verify_run c p r s) as (rv & w' & tr & Hrun & Hop).
    exists rv, w', tr. split; [exact Hrun|].
    split; [eapply opRun_singlePost; eassumption|].
    eapply opRun_noPost; eassumption.
  - destruct (Settle_run c p r s) as (rv & w' & tr & Hrun & Hop).
    exists rv, w', tr. split; [exact Hrun|].
    split; [eapply opRun_singlePost; eassumption|].
    eapply opRun_noPost; eassumption.
  - destruct (GetSupported_run c s) as (rv & w' & tr & Hrun & Hop).
    exists rv, w', tr. split; [exact Hrun|].
    split; [eapply opRun_singlePost; eassumption|].
    eapply opRun_noPost; eassumption.
Qed.

Lemma loadGateWeb3Credentials_trimmed w :
  TrimSpace env (Getenv env w envGateWeb3APIKey) = ""
  \/ TrimSpace env (Getenv env w envGateWeb3APISecret) = "" ->
  loadGateWeb3Credentials env w = None.
Proof.
  intros H. unfold loadGateWeb3Credentials.
  destruct H as [H|H]; rewrite H.
  - reflexivity.
  - rewrite orb_true_r. reflexivity.
Qed.

(** C10. If the API-key or the API-secret variable is empty after
    [strings.TrimSpace], which is the case when it is unset or holds white
    space only, [applyGateWeb3Signature] returns the request as it got it,
    without consulting the clock or the UUID source and without error;
    none of X-Api-Key, X-Timestamp, X-Signature, X-Request-Id,
    X-Passphrase, X-Forwarded-For and x-target-uri is set, and verify,
    settle and supported go on unauthenticated: they send their one
    request as before, and it carries Content-Type and the custom auth
    provider's headers only. *)
Theorem no_credentials_no_signature (c : HTTPFacilitatorClient W) p r
    req body uri s :
  TrimSpace env (Getenv env (world s) envGateWeb3APIKey) = ""
  \/ TrimSpace env (Getenv env (world s) envGateWeb3APISecret) = "" ->
  applyGateWeb3Signature env req body uri s = (Some req, s)
  /\ (forall k, In k gateWeb3Headers ->
        Get (Hdr (baseRequest c body)) k = None)
  /\ (exists rv w' tr,
        Verify env c p r s = (Some rv, mkSt w' (trace s ++ tr))
        /\ unsignedPosts c ahVerify tr
        /\ singlePost env c (spec_actionBody env "x402.verify" p r) tr)
  /\ (exists rv w' tr,
        Settle env c p r s = (Some rv, mkSt w' (trace s ++ tr))
        /\ unsignedPosts c ahSettle tr
        /\ singlePost env c (spec_actionBody env "x402.settle" p r) tr)
  /\ (exists rv w' tr,
        GetSupported env c s = (Some rv, mkSt w' (trace s ++ tr))
        /\ unsignedPosts c ahSupported tr
        /\ singlePost env c (Some spec_supportedBody) tr)
  /\ TrimSpace env "" = ""
  /\ (forall x, blank x = true -> TrimSpace env x = "").
Proof.
  intros Hb. pose proof (loadGateWeb3Credentials_trimmed _ Hb) as Hl.
  split; [apply applyGateWeb3Signature_off; exact Hl|].
  split.
  { intros k Hk. unfold gateWeb3Headers in Hk. cbn [In] in Hk.
    repeat (destruct Hk as [<-|Hk]; [reflexivity|]). destruct Hk. }
  split; [|split; [|split; [|split]]].
  - destruct (Verify_run c p r s) as (rv & w' & tr & Hrun & Hop).
    exists rv, w', tr. split; [exact Hrun|].
    split; [eapply opRun_unsignedPosts; eassumption|].
    eapply opRun_singlePost; eassumption.
  - destruct (Settle_run c p r s) as (rv & w' & tr & Hrun & Hop).
    exists rv, w', tr. split; [exact Hrun|].
    split; [eapply opRun_unsignedPosts; eassumption|].
    eapply opRun_singlePost; eassumption.
  - destruct (GetSupported_run c s) as (rv & w' & tr & Hrun & Hop).
    exists rv, w', tr. split; [exact Hrun|].
    split; [eapply opRun_unsignedPosts; eassumption|].
    eapply opRun_singlePost; eassumption.
  - reflexivity.
  - apply TrimSpace_blank.
Qed.

End FacilitatorFacts.

Module Base64Facts.
Import Base64.

Lemma sextet_cases i : 0 <= i < 64 -> In i (map Z.of_nat (seq 0 64)).
Proof.
  intros H. apply in_map_iff. exists (Z.to_nat i).
  split; [lia|]. apply in_seq. lia.
Qed.

Lemma base64Index_enc i : 0 <= i < 64 -> base64Index (enc i) = i.
Proof.
  intros H.
  assert (T : forallb (fun i => base64Index (enc i) =? i)
                (map Z.of_nat (seq 0 64)) = true) by (vm_compute; reflexivity).
  rewrite forallb_forall in T. apply Z.eqb_eq, T, sextet_cases, H.
Qed.

Lemma enc_inj i j : 0 <= i < 64 -> 0 <= j < 64 -> enc i = enc j -> i = j.
Proof.
  intros Hi Hj H. rewrite <- (base64Index_enc i Hi), <- (base64Index_enc j Hj).
  rewrite H. reflexivity.
Qed.

Lemma enc_not_pad i : 0 <= i < 64 -> enc i <> "="%char.
Proof.
  intros Hi H. pose proof (base64Index_enc i Hi) as E. rewrite H in E.
  vm_compute in E. lia.
Qed.

Lemma Z_of_byte_range b : 0 <= Z_of_byte b < 256.
Proof.
  unfold Z_of_byte. pose proof (Byte.to_N_bounded b) as H.
  lia.
Qed.

Lemma Z_of_byte_inj a b : Z_of_byte a = Z_of_byte b -> a = b.
Proof.
  unfold Z_of_byte. intros H. apply N2Z.inj in H.
  pose proof (Byte.of_to_N a) as Ha. pose proof (Byte.of_to_N b) as Hb.
  rewrite H in Ha. congruence.
Qed.

Lemma sextet_range v k : 0 <= v / k mod 64 < 64.
Proof. apply Z.mod_pos_bound. lia. Qed.

Lemma group1 a a' :
  (Z_of_byte a * 65536) / 262144 mod 64 = (Z_of_byte a' * 65536) / 262144 mod 64 ->
  (Z_of_byte a * 65536) / 4096 mod 64 = (Z_of_byte a' * 65536) / 4096 mod 64 ->
  a = a'.
Proof.
  byte_ranges_by Z_of_byte_range. intros E1 E2. apply Z_of_byte_inj.
  Z.to_euclidean_division_equations; lia.
Qed.

Lemma group2 a b a' b' :
  let v := Z_of_byte a * 65536 + Z_of_byte b * 256 in
  let v' := Z_of_byte a' * 65536 + Z_of_byte b' * 256 in
  v / 262144 mod 64 = v' / 262144 mod 64 ->
  v / 4096 mod 64 = v' / 4096 mod 64 ->
  v / 64 mod 64 = v' / 64 mod 64 ->
  a = a' /\ b = b'.
Proof.
  byte_ranges_by Z_of_byte_range. intros v v' E1 E2 E3. subst v v'.
  assert (Z_of_byte a = Z_of_byte a' /\ Z_of_byte b = Z_of_byte b') as [Ea Eb]
    by (Z.to_euclidean_division_equations; lia).
  split; apply Z_of_byte_inj; assumption.
Qed.

Lemma group3 a b c a' b' c' :
  let v := Z_of_byte a * 65536 + Z_of_byte b * 256 + Z_of_byte c in
  let v' := Z_of_byte a' * 65536 + Z_of_byte b' * 256 + Z_of_byte c' in
  v / 262144 mod 64 = v' / 262144 mod 64 ->
  v / 4096 mod 64 = v' / 4096 mod 64 ->
  v / 64 mod 64 = v' / 64 mod 64 ->
  v mod 64 = v' mod 64 ->
  a = a' /\ b = b' /\ c = c'.
Proof.
  byte_ranges_by Z_of_byte_range. intros v v' E1 E2 E3 E4. subst v v'.
  assert (Z_of_byte a = Z_of_byte a' /\ Z_of_byte b = Z_of_byte b'
          /\ Z_of_byte c = Z_of_byte c') as (Ea & Eb & Ec)
    by (Z.to_euclidean_division_equations; lia).
  repeat split; apply Z_of_byte_inj; assumption.
Qed.

(** Base64 text determines the bytes it encodes. *)
Lemma EncodeToString_inj_le : forall n l1 l2,
  (List.length l1 <= n)%nat ->
  EncodeToString l1 = EncodeToString l2 -> l1 = l2.
Proof.
  induction n as [|n IH]; intros l1 l2 Hn H.
  - destruct l1; [|simpl in Hn; lia].
    destruct l2 as [|a' [|b' [|c' r']]]; [reflexivity|discriminate ..].
  - destruct l1 as [|a [|b [|c r]]];
      destruct l2 as [|a' [|b' [|c' r']]];
      try reflexivity; try discriminate;
      cbn [EncodeToString] in H; split_text; try (sextets_by enc_inj enc_not_pad; fail).
    + sextets_by enc_inj enc_not_pad. f_equal. apply group1; assumption.
    + sextets_by enc_inj enc_not_pad.
      destruct (group2 a b a' b') as [-> ->]; try assumption. reflexivity.
    + sextets_by enc_inj enc_not_pad.
      destruct (group3 a b c a' b' c') as (-> & -> & ->); try assumption.
      f_equal. f_equal. f_equal. apply (IH r r'); [simpl in Hn; lia|assumption].
Qed.

Lemma EncodeToString_inj l1 l2 :
  EncodeToString l1 = EncodeToString l2 -> l1 = l2.
Proof. apply (EncodeToString_inj_le (List.length l1)). apply Nat.le_refl. Qed.

End Base64Facts.

Module StringFacts.

Lemma list_ascii_app a b :
  list_ascii_of_string (a ++ b)%string
  = list_ascii_of_string a ++ list_ascii_of_string b.
Proof. induction a as [|ch a IH]; [reflexivity|]. simpl. f_equal. exact IH. Qed.

Lemma list_ascii_inj a b :
  list_ascii_of_string a = list_ascii_of_string b -> a = b.
Proof.
  intros H. rewrite <- (string_of_list_ascii_of_string a),
                    <- (string_of_list_ascii_of_string b), H.
  reflexivity.
Qed.

Lemma append_inv_head a b c : (a ++ b = a ++ c)%string -> b = c.
Proof. induction a as [|ch a IH]; simpl; intros H; [exact H|]. injection H. exact IH. Qed.

Lemma append_inv_tail a b c : (a ++ c = b ++ c)%string -> a = b.
Proof.
  intros H. apply list_ascii_inj.
  apply (f_equal list_ascii_of_string) in H. rewrite !list_ascii_app in H.
  eapply app_inv_tail. exact H.
Qed.

Lemma bytes_of_string_inj a b : bytes_of_string a = bytes_of_string b -> a = b.
Proof.
  unfold bytes_of_string. intros H.
  rewrite <- (string_of_list_byte_of_string a),
          <- (string_of_list_byte_of_string b), H.
  reflexivity.
Qed.

Lemma string_of_list_byte_inj a b :
  string_of_list_byte a = string_of_list_byte b -> a = b.
Proof.
  intros H. rewrite <- (list_byte_of_string_of_list_byte a),
                    <- (list_byte_of_string_of_list_byte b), H.
  reflexivity.
Qed.

End StringFacts.

Section SignatureFacts.
Context {W SR : Type}.
Variable env : HttpEnv W SR.
Import Http.

(** The prehash changes whenever exactly one of its three parts does. *)
Lemma prehashOf_sensitive ts path body ts' path' body' :
  oneChanged ts path body ts' path' body' ->
  prehashOf ts path body <> prehashOf ts' path' body'.
Proof.
  unfold prehashOf, fmt_d.
  intros [(Ht & <- & <-) | [(<- & Hp & <-) | (<- & <- & Hb)]] H.
  - apply StringFacts.append_inv_tail in H.
    apply BigFacts.String_inj in H. contradiction.
  - apply StringFacts.append_inv_head in H.
    apply StringFacts.append_inv_tail in H. contradiction.
  - apply StringFacts.append_inv_head in H.
    apply StringFacts.append_inv_head in H.
    apply StringFacts.string_of_list_byte_inj in H. contradiction.
Qed.


End SignatureFacts.

(* ================================================================== *)
(** * Concrete runs *)

(** ** The hash functions against published values *)

Example sha256_abc :
  hexOf (Sha256.Sum256 (bytes_of_string "abc"))
  = "ba7816bf8f01cfea414140de5dae2223b00361a396177a9cb410ff61f20015ad".
Proof. vm_compute. reflexivity. Qed.

(** RFC 4231, test case 2. *)
Example hmac_sha256_rfc4231 :
  hexOf (Sha256.HMAC (bytes_of_string "Jefe")
           (bytes_of_string "what do ya want for nothing?"))
  = "5bdcc146bf60754e6a042426089575c75a003f089d2739839dec58b964ec3843".
Proof. vm_compute. reflexivity. Qed.

Example keccak256_empty :
  hexOf (Keccak.Keccak256 [])
  = "c5d2460186f7233c927e7db2dcc703c0e500b653ca82273b7bfad8045d85a470".
Proof. vm_compute. reflexivity. Qed.

(** The EIP-3009 type hash, as token contracts publish it. *)
Example transfer_with_authorization_typehash :
  hexOf (spec_typeHash Keccak.Keccak256)
  = "7c7c6cdb67a18743f49ec6fa9b35f50d52ed05cbed4cc592e13b44501c1a2267".
Proof. vm_compute. reflexivity. Qed.

Example domain_separator_selector :
  hexOf (domainSeparatorSelector Keccak.Keccak256) = "3644e515".
Proof. vm_compute. reflexivity. Qed.

Example canonical_header_keys :
  map Http.CanonicalMIMEHeaderKey gateWeb3Headers
  = [ "X-Api-Key"; "X-Timestamp"; "X-Signature"; "X-Request-Id";
      "X-Passphrase"; "X-Forwarded-For"; "X-Target-Uri" ].
Proof. reflexivity. Qed.

(** ** The exact-scheme client *)

(** C1, at one authorization: a transfer of 1000 units valid for one hour,
    signed under the pinned separator; the signer is handed the 32 bytes
    below and its answer is returned. *)
Lemma signing_digest_formula_witness :
  let digest :=
    spec_signingDigest Keccak.Keccak256 demoEvm demoAuthorization
      1000 1700000000 1700003600 pinnedDomainSeparator in
  hexOf digest
  = "024ceeae125e115be17b88ea4caba6777e29d7bd94c92a97007fcf99678d2978"
  /\ signWithDomainSeparator Keccak.Keccak256 demoEvm demoScheme
       demoAuthorization pinnedDomainSeparator (start calmWorld)
     = (Some (Ok (digest ++ digest ++ [x1b])),
        mkSt calmWorld [EvSignDigest digest (Ok (digest ++ digest ++ [x1b]))]).
Proof.
  split; [vm_compute; reflexivity|].
  exact (proj1 (signing_digest_formula Keccak.Keccak256 demoEvm demoScheme
                  demoAuthorization pinnedDomainSeparator
                  1000 1700000000 1700003600 (start calmWorld)
                  eq_refl eq_refl eq_refl)).
Defined.

(** C2, the text of the claim refuted: the amount "-1" is accepted, and the
    payload carries it. *)
Lemma negative_amount_accepted :
  exists p,
    fst (CreatePaymentPayload Keccak.Keccak256 demoEvm demoScheme
           (demoRequirements "gatelayer_testnet" "-1") (start calmWorld))
    = Some (Ok p)
    /\ Value (Authorization (Payload p)) = "-1".
Proof. eexists. split; vm_compute; reflexivity. Qed.

(** C2 (amended), at the amount "12.5". *)
Lemma malformed_amount_rejected_witness :
  integerLexical "12.5" = false
  /\ CreatePaymentPayload Keccak.Keccak256 demoEvm demoScheme
       (demoRequirements "gatelayer_testnet" "12.5") (start calmWorld)
     = (Some (Err (ErrorString "InvalidAmount: 12.5")), start calmWorld).
Proof.
  split; [reflexivity|].
  exact (proj2 (proj1 (malformed_amount_rejected Keccak.Keccak256 demoEvm
                         demoScheme (demoRequirements "gatelayer_testnet" "12.5")
                         (start calmWorld)) eq_refl)
           10087 _ eq_refl eq_refl).
Defined.

(** C3, the text of the claim refuted: on the pinned network and asset, with
    an RPC client configured and a signer that refuses raw digests, the call
    does query the chain. *)
Lemma pinned_call_queries_chain :
  Network (demoRequirements "gatelayer_testnet" "1000") = "gatelayer_testnet"
  /\ demoGetAssetInfo "gatelayer_testnet" ""
     = Ok (mkAssetInfo "0x9be8Df37C788B244cFc28E46654aD5Ec28a880AF" "USDC" "2" 6)
  /\ chainQueries
       (trace (snd (CreatePaymentPayload Keccak.Keccak256 demoEvm demoSchemeRPC
                      (demoRequirements "gatelayer_testnet" "1000")
                      (start refusingWorld))))
     = 1%nat.
Proof. repeat split; vm_compute; reflexivity. Qed.

(** C3 (amended), at two calls for 1000 and 250 units with a signer that
    signs digests. *)
Lemma pinned_separator_two_calls_witness :
  exists r1 w1 tr1 r2 w2 tr2,
    CreatePaymentPayload Keccak.Keccak256 demoEvm demoScheme
      (demoRequirements "gatelayer_testnet" "1000") (start calmWorld)
    = (Some r1, mkSt w1 (trace (start calmWorld) ++ tr1))
    /\ CreatePaymentPayload Keccak.Keccak256 demoEvm demoScheme
         (demoRequirements "gatelayer_testnet" "250")
         (mkSt w1 (trace (start calmWorld) ++ tr1))
       = (Some r2, mkSt w2 ((trace (start calmWorld) ++ tr1) ++ tr2))
    /\ pinnedSigning Keccak.Keccak256 demoEvm
         (demoRequirements "gatelayer_testnet" "1000") 1000 tr1
    /\ pinnedSigning Keccak.Keccak256 demoEvm
         (demoRequirements "gatelayer_testnet" "250") 250 tr2
    /\ pinnedRun Keccak.Keccak256 demoEvm demoScheme
         (demoRequirements "gatelayer_testnet" "1000") 10087
         (mkAssetInfo "0x9be8Df37C788B244cFc28E46654aD5Ec28a880AF" "USDC" "2" 6)
         1000 tr1 r1
    /\ pinnedRun Keccak.Keccak256 demoEvm demoScheme
         (demoRequirements "gatelayer_testnet" "250") 10087
         (mkAssetInfo "0x9be8Df37C788B244cFc28E46654aD5Ec28a880AF" "USDC" "2" 6)
         250 tr2 r2.
Proof.
  exact (proj2 (pinned_separator_two_calls Keccak.Keccak256 demoEvm demoScheme
                  (demoRequirements "gatelayer_testnet" "1000")
                  (demoRequirements "gatelayer_testnet" "250")
                  10087 10087
                  (mkAssetInfo "0x9be8Df37C788B244cFc28E46654aD5Ec28a880AF"
                     "USDC" "2" 6)
                  (mkAssetInfo "0x9be8Df37C788B244cFc28E46654aD5Ec28a880AF"
                     "USDC" "2" 6)
                  1000 250 (start calmWorld)
                  eq_refl eq_refl eq_refl eq_refl eq_refl eq_refl eq_refl eq_refl
                  eq_refl eq_refl)).
Defined.

(** C7, the text of the claim refuted: the signer fails to sign the pinned
    digest, the failure is not reported, and the caller gets a payload signed
    through the typed-data path. *)
Lemma digest_refusal_is_swallowed :
  exists digest p,
    In (EvSignDigest digest (Err (ErrorString "signer: digest signing refused")))
       (trace (snd (CreatePaymentPayload Keccak.Keccak256 demoEvm demoScheme
                      (demoRequirements "gatelayer_testnet" "1000")
                      (start typedOnlyWorld))))
    /\ fst (CreatePaymentPayload Keccak.Keccak256 demoEvm demoScheme
              (demoRequirements "gatelayer_testnet" "1000")
              (start typedOnlyWorld))
       = Some (Ok p).
Proof.
  eexists _, _. split.
  - vm_compute. right. right. right. left. reflexivity.
  - vm_compute. reflexivity.
Qed.

(** With a signer that refuses everything the caller gets the
    FailedToSignAuthorization error wrapping the last refusal. *)
Example refusing_signer_reported :
  fst (CreatePaymentPayload Keccak.Keccak256 demoEvm demoScheme
         (demoRequirements "gatelayer_testnet" "1000") (start refusingWorld))
  = Some (Err (WrapError
                 "FailedToSignAuthorization: signer: typed-data signing refused"
                 (ErrorString "signer: typed-data signing refused"))).
Proof. vm_compute. reflexivity. Qed.

(** The CAIP-2 name of the same chain does not take the shortcut, and an
    asset address in another letter case does not either. *)
Example caip2_network_standard_path :
  pinnedPathTaken
    (trace (snd (CreatePaymentPayload Keccak.Keccak256 demoEvm demoSchemeRPC
                   (demoRequirements "eip155:10087" "1000") (start calmWorld))))
  = false
  /\ pinnedGuard "gatelayer_testnet" "0x9be8df37c788b244cfc28e46654ad5ec28a880af"
     = false
  /\ pinnedPathTaken
       (trace (snd (CreatePaymentPayload Keccak.Keccak256 demoEvm demoSchemeRPC
                      (demoRequirements "gatelayer_testnet" "1000")
                      (start calmWorld))))
     = true.
Proof. repeat split; vm_compute; reflexivity. Qed.

(** ** The facilitator client *)


(** The headers of that call, computed. *)
Example signed_request_headers :
  map (Http.Get (Http.Hdr
         (signedRequest demoHttpEnv demoCreds 1700000000000 "id"
            (baseRequest demoClient demoPayloadBytes) demoPayloadBytes
            gateWeb3TargetURIVerify)))
      gateWeb3Headers
  = [ Some "ak-demo"; Some "1700000000000";
      Some "hdBI9j92GtHmj+PM8A8Rn5GV/fg4ROAHz2472tT47aU=";
      Some "id"; Some "open sesame"; Some "127.0.0.1"; Some "v1/x402/verify" ].
Proof. vm_compute. reflexivity. Qed.

(** C5, the text of the claim refuted: HTTP 200 with code 1 and no
    invalid_reason gives a plain formatted error, not the typed one. *)
Lemma rejection_without_reason_is_untyped :
  UnmarshalVerify demoHttpEnv (envelopeBytes rejectionPlain) = Some rejectionPlain
  /\ fst (Verify demoHttpEnv demoClient demoPayloadBytes demoRequirementsBytes
            (start (signedWorld rejectionPlain)))
     = Some (Err (ErrorString
          "facilitator verify failed (http=200, code=1, msg=internal error)")).
Proof. split; vm_compute; reflexivity. Qed.

(** With a reason the error is the typed one. *)
Example rejection_with_reason_is_typed :
  fst (Verify demoHttpEnv demoClient demoPayloadBytes demoRequirementsBytes
         (start (signedWorld rejectionReasoned)))
  = Some (Err (VerifyError "insufficient_funds"
                 "0x857b06519E91e3A54538791bDbb0E22373e36b66" ""
                 (ErrorString "facilitator returned http=200 code=1 msg=rejected"))).
Proof. vm_compute. reflexivity. Qed.

(** C6, the text of the claim refuted: a verify call on a well-formed
    payload sends no request at all when the auth provider fails, and
    returns the provider's error. *)
Lemma failing_provider_sends_nothing :
  (exists v body,
     spec_actionBody demoHttpEnv "x402.verify" demoPayloadBytes
       demoRequirementsBytes = Some v
     /\ Marshal demoHttpEnv v = Ok body)
  /\ posts (trace (snd (Verify demoHttpEnv demoClientWithProvider
                          demoPayloadBytes demoRequirementsBytes
                          (start providerDownWorld))))
     = 0%nat
  /\ fst (Verify demoHttpEnv demoClientWithProvider demoPayloadBytes
            demoRequirementsBytes (start providerDownWorld))
     = Some (Err (WrapError
                    "failed to get auth headers: token service unavailable"
                    (ErrorString "token service unavailable"))).
Proof.
  split; [eexists _, _; split; vm_compute; reflexivity|].
  split; vm_compute; reflexivity.
Qed.

(** The fields the typed structures do not know reach the request body. *)
Example extension_fields_in_body :
  exists q rr,
    In (EvDo q rr)
       (trace (snd (Verify demoHttpEnv demoClient demoPayloadBytes
                      demoRequirementsBytes (start (signedWorld acceptance)))))
    /\ Http.Body q
       = jsonBytes (spec_requestBody "x402.verify" 2 (Some demoPayloadMap)
                      (Some demoRequirementsMap)).
Proof.
  eexists _, _. split.
  - vm_compute. right. right. left. reflexivity.
  - vm_compute. reflexivity.
Qed.


(** C10, at a verify call whose key holds a no-break space and an em space
    only: the key is empty after trimming, and the request goes out with
    Content-Type and the provider's header only. *)
Lemma no_credentials_no_signature_witness :
  TrimSpace demoHttpEnv
    (Getenv demoHttpEnv unicodeBlankWorld envGateWeb3APIKey) = ""
  /\ applyGateWeb3Signature demoHttpEnv
       (baseRequest demoClientWithProvider demoPayloadBytes) demoPayloadBytes
       gateWeb3TargetURIVerify (start unicodeBlankWorld)
     = (Some (baseRequest demoClientWithProvider demoPayloadBytes),
        start unicodeBlankWorld)
  /\ exists rv w' tr,
       Verify demoHttpEnv demoClientWithProvider demoPayloadBytes
         demoRequirementsBytes (start unicodeBlankWorld)
       = (Some rv, mkSt w' (trace (start unicodeBlankWorld) ++ tr))
       /\ unsignedPosts demoClientWithProvider ahVerify tr.
Proof.
  assert (Hk : TrimSpace demoHttpEnv
                 (Getenv demoHttpEnv unicodeBlankWorld envGateWeb3APIKey) = "")
    by (vm_compute; reflexivity).
  split; [exact Hk|].
  pose proof (no_credentials_no_signature demoHttpEnv demoClientWithProvider
                demoPayloadBytes demoRequirementsBytes
                (baseRequest demoClientWithProvider demoPayloadBytes)
                demoPayloadBytes gateWeb3TargetURIVerify
                (start unicodeBlankWorld) (or_introl Hk))
    as (H1 & _ & (rv & w' & tr & H3 & H4 & _) & _).
  split; [exact H1|]. exists rv, w', tr. split; [exact H3|exact H4].
Defined.

(** The same with the secret set to blanks. *)
Example blank_secret_is_unsigned :
  loadGateWeb3Credentials demoHttpEnv unsignedWorld = None
  /\ loadGateWeb3Credentials demoHttpEnv unicodeBlankWorld = None
  /\ TrimSpace demoHttpEnv (utf8 [32; 194; 160; 97; 226; 128; 131; 9]%N) = "a".
Proof. repeat split; vm_compute; reflexivity. Qed.

(** The request of the call with a blank secret, computed. *)
Example unsigned_request_headers :
  exists q rr,
    In (EvDo q rr)
       (trace (snd (Verify demoHttpEnv demoClientWithProvider demoPayloadBytes
                      demoRequirementsBytes (start unsignedWorld))))
    /\ Http.Hdr q = [ ("Content-Type", "application/json");
                      ("Authorization", "Bearer verify-token") ].
Proof.
  eexists _, _. split.
  - vm_compute. right. left. reflexivity.
  - reflexivity.
Qed.

(* ================================================================== *)
(** * Further properties of the exact-scheme client *)

Section SchemeMore.
Context {W PM : Type}.
Variable Keccak256 : bytes -> bytes.
Variable evm : EvmPkg W PM.

(** X1. [queryDomainSeparator] makes exactly one contract call, to the
    20-byte address of the token; a separator it returns is always exactly
    32 bytes, the first 32 of the chain's answer; an answer shorter than
    32 bytes is rejected with an error naming its length, and an error of
    the call is returned as it is. *)
Theorem chain_separator_is_32_bytes (client : EthClient W) token s :
  exists rq w' r,
    queryDomainSeparator Keccak256 client token s
      = (Some r, mkSt w' (trace s ++ [EvCallContract (queryMsg Keccak256 token) rq]))
    /\ CallContract client (queryMsg Keccak256 token) (world s) = (rq, w')
    /\ List.length (callTo (queryMsg Keccak256 token)) = 20%nat
    /\ (forall ds, r = Ok ds ->
          List.length ds = 32%nat /\ exists rest, rq = Ok (ds ++ rest))
    /\ (forall res, rq = Ok res -> (List.length res < 32)%nat ->
          r = Err (ErrorString
                ("invalid DOMAIN_SEPARATOR result length: "
                 ++ Big.String_ (Z.of_nat (List.length res)))%string))
    /\ (forall e, rq = Err e -> r = Err e).
Proof.
  unfold queryDomainSeparator, bind, call, ret.
  fold (queryMsg Keccak256 token).
  destruct (CallContract client (queryMsg Keccak256 token) (world s))
    as [rq w'] eqn:Hq.
  destruct rq as [res|e].
  - destruct (Nat.ltb_spec (List.length res) 32) as [Hlt|Hge].
    + eexists _, _, _. split; [reflexivity|]. split; [reflexivity|].
      split; [apply CommonFacts.HexToAddress_length|].
      split; [intros ds [=]|]. split; [|intros e [=]].
      intros res' [= <-] _. reflexivity.
    + eexists _, _, _. split; [reflexivity|]. split; [reflexivity|].
      split; [apply CommonFacts.HexToAddress_length|].
      split; [|split; [|intros e [=]]].
      * intros ds E. assert (E' : ds = firstn 32 res) by congruence.
        subst ds. split.
        -- rewrite length_firstn. lia.
        -- exists (skipn 32 res). rewrite firstn_skipn. reflexivity.
      * intros res' [= <-] Hlt. lia.
  - eexists _, _, _. split; [reflexivity|]. split; [reflexivity|].
    split; [apply CommonFacts.HexToAddress_length|].
    split; [intros ds [=]|]. split; [intros res [=]|].
    intros e' [= <-]. reflexivity.
Qed.

(** X2. With readable amounts, [signAuthorization] asks the signer exactly
    once and returns that answer; it asks the chain at most once, and not
    at all without an RPC client.  It signs a raw digest only under the
    first 32 bytes of an answer of at least 32 bytes the chain gave in the
    same run; otherwise (no client, an error, a short answer) it signs typed
    data with the domain {name, version, chainId, verifyingContract}, the
    EIP-712 types and the primary type TransferWithAuthorization, and the
    failure of the chain query is not reported. *)
Theorem standard_path_signs_once (c : ExactEvmScheme W) a v va vb chainID
    contract name version s :
  Big.SetString (Value a) = Some v ->
  Big.SetString (ValidAfter a) = Some va ->
  Big.SetString (ValidBefore a) = Some vb ->
  exists tl rs w',
    signAuthorization Keccak256 evm c a chainID contract name version s
      = (Some rs, mkSt w' (trace s ++ tl))
    /\ countEv isSigning tl = 1%nat
    /\ (chainQueries tl <= 1)%nat
    /\ (ethClient c = None -> chainQueries tl = 0%nat)
    /\ (forall d r, In (EvSignDigest d r) tl ->
          r = rs
          /\ exists res,
               In (EvCallContract (queryMsg Keccak256 contract) (Ok res)) tl
               /\ (32 <= List.length res)%nat
               /\ d = spec_signingDigest Keccak256 evm a v va vb (firstn 32 res))
    /\ (forall dom ty pt msg r, In (EvSignTypedData dom ty pt msg r) tl ->
          r = rs
          /\ dom = mkDomain name version chainID contract
          /\ ty = eip712Types
          /\ pt = "TransferWithAuthorization"
          /\ msg = [ ("from", MString (From a)); ("to", MString (To a));
                     ("value", MBigInt (Some v));
                     ("validAfter", MBigInt (Some va));
                     ("validBefore", MBigInt (Some vb));
                     ("nonce", MBytes (fst (HexToBytes evm (Nonce a)))) ]
          /\ forall m res, In (EvCallContract m (Ok res)) tl ->
               (List.length res < 32)%nat).
Proof.
  intros Hv Hva Hvb.
  destruct (signAuthorization_run Keccak256 evm c a v va vb chainID contract
              name version s Hv Hva Hvb) as (tl & rs & w' & Hrun & Hshape).
  exists tl, rs, w'. split; [exact Hrun|].
  assert (Hmsg : typedMessage evm a
                 = [ ("from", MString (From a)); ("to", MString (To a));
                     ("value", MBigInt (Some v));
                     ("validAfter", MBigInt (Some va));
                     ("validBefore", MBigInt (Some vb));
                     ("nonce", MBytes (fst (HexToBytes evm (Nonce a)))) ]).
  { unfold typedMessage. rewrite Hv, Hva, Hvb. reflexivity. }
  inversion Hshape; subst.
  - split; [reflexivity|]. split; [cbn; lia|]. split; [reflexivity|].
    split.
    + intros d r [E|[]]. discriminate.
    + intros dom ty pt msg r [E|[]]. injection E as <- <- <- <- <-.
      repeat split; auto. intros m res [E|[]]. discriminate.
  - split; [reflexivity|]. split; [cbn; lia|].
    split; [intros Hn; congruence|]. split.
    + intros d r [E|[E|[]]]; discriminate.
    + intros dom ty pt msg r [E|[E|[]]]; [discriminate|].
      injection E as <- <- <- <- <-.
      repeat split; auto. intros m res [E|[E|[]]]; [|discriminate].
      injection E as _ ->. exact H0.
  - split; [reflexivity|]. split; [cbn; lia|].
    split; [intros Hn; congruence|]. split.
    + intros d r [E|[E|[]]]; [discriminate|]. injection E as <- <-.
      split; [reflexivity|]. exists res.
      split; [left; reflexivity|]. split; [assumption|reflexivity].
    + intros dom ty pt msg r [E|[E|[]]]; discriminate.
Qed.

(** X3. An authorization whose value, validAfter or validBefore is not a
    decimal integer makes [signWithDomainSeparator] stop in a nil
    dereference: the parse failure is ignored, the signer is never asked,
    and no error value is returned. *)
Theorem unreadable_amount_panics (c : ExactEvmScheme W) a ds s :
  Big.SetString (Value a) = None
  \/ Big.SetString (ValidAfter a) = None
  \/ Big.SetString (ValidBefore a) = None ->
  signWithDomainSeparator Keccak256 evm c a ds s = (None, s).
Proof.
  intros H. unfold signWithDomainSeparator, bind, deref, ret, panic.
  destruct (Big.SetString (Value a)); [|reflexivity].
  destruct (Big.SetString (ValidAfter a)); [|reflexivity].
  destruct (Big.SetString (ValidBefore a)); [|reflexivity].
  destruct H as [H|[H|H]]; discriminate.
Qed.

(** X4. Without an RPC client [signAuthorization] never panics, whatever
    the authorization holds: it asks the signer once, for typed data, and
    an amount that is not a decimal integer reaches the signer as a nil
    big integer. *)
Theorem typed_path_tolerates_unreadable (c : ExactEvmScheme W) a chainID
    contract name version s :
  ethClient c = None ->
  exists rs w',
    signAuthorization Keccak256 evm c a chainID contract name version s
      = (Some rs,
         mkSt w' (trace s ++
                  [EvSignTypedData (mkDomain name version chainID contract)
                     eip712Types "TransferWithAuthorization"
                     (typedMessage evm a) rs]))
    /\ lookup "value" (typedMessage evm a)
       = Some (MBigInt (Big.SetString (Value a)))
    /\ (integerLexical (Value a) = false ->
        lookup "value" (typedMessage evm a) = Some (MBigInt None)).
Proof.
  intros Hc. unfold signAuthorization. rewrite Hc.
  unfold bind, ret, call.
  match goal with
  | |- context [SignTypedData ?sg ?d ?t ?p ?m (world s)] =>
      destruct (SignTypedData sg d t p m (world s)) as [rs w2] eqn:Hs
  end.
  exists rs, w2. split; [reflexivity|]. split; [reflexivity|].
  intros Hl. apply SetString_None_iff in Hl.
  unfold typedMessage. cbn [lookup String.eqb Ascii.eqb Bool.eqb].
  rewrite Hl. reflexivity.
Qed.

End SchemeMore.

Section EncodingMore.
Context {W PM : Type}.
Variable Keccak256 : bytes -> bytes.
Variable evm : EvmPkg W PM.

Lemma beAcc_bound b : forall a, 0 <= a ->
  0 <= beAcc a b < (a + 1) * 256 ^ Z.of_nat (List.length b).
Proof.
  induction b as [|x b IH]; intros a Ha.
  - cbn. lia.
  - cbn [beAcc fold_left List.length].
    pose proof (Base64Facts.Z_of_byte_range x) as Hx.
    specialize (IH (a * 256 + Z_of_byte x) ltac:(lia)).
    unfold beAcc in IH.
    rewrite Nat2Z.inj_succ, Z.pow_succ_r by lia.
    split; [lia|]. nia.
Qed.

Lemma Bytes_length_large x :
  2 ^ 256 <= Z.abs x -> (32 < List.length (Big.Bytes x))%nat.
Proof.
  intros Hx.
  destruct (Nat.ltb_spec 32 (List.length (Big.Bytes x))) as [H|H]; [exact H|].
  exfalso.
  pose proof (beAcc_bound (Big.Bytes x) 0 ltac:(lia)) as Hb.
  fold (beValue (Big.Bytes x)) in Hb. rewrite BytesFacts.beValue_Bytes in Hb.
  assert (256 ^ Z.of_nat (List.length (Big.Bytes x)) <= 256 ^ 32)
    by (apply Z.pow_le_mono_r; lia).
  change (256 ^ 32) with (2 ^ 256) in *. lia.
Qed.

(** X5. With a 32-byte type hash, amounts of magnitude below 2^256 and a
    32-byte nonce, the bytes [signWithDomainSeparator] hashes into the
    struct hash are exactly seven words of 32 bytes, 224 bytes in all, and
    the digest handed to the signer is the hash of 0x19 0x01, the
    separator and the hash of those bytes. *)
Theorem struct_encoding_is_seven_words (c : ExactEvmScheme W) a v va vb ds s :
  Big.SetString (Value a) = Some v ->
  Big.SetString (ValidAfter a) = Some va ->
  Big.SetString (ValidBefore a) = Some vb ->
  Z.abs v < 2 ^ 256 -> Z.abs va < 2 ^ 256 -> Z.abs vb < 2 ^ 256 ->
  List.length (Keccak256 (bytes_of_string TransferWithAuthorizationType)) = 32%nat ->
  List.length (fst (HexToBytes evm (Nonce a))) = 32%nat ->
  List.length (structEncoding Keccak256 evm a v va vb) = 224%nat
  /\ signWithDomainSeparator Keccak256 evm c a ds s
     = signDigest c
         (Keccak256 (x19 :: x01 :: ds
                     ++ Keccak256 (structEncoding Keccak256 evm a v va vb))) s.
Proof.
  intros Hv Hva Hvb Bv Bva Bvb Ht Hn. split.
  - unfold structEncoding, spec_typeHash. rewrite !length_app, Ht, Hn.
    rewrite !CommonFacts.leftPad32_address, !length_app, !repeat_length,
      !CommonFacts.HexToAddress_length.
    destruct (BytesFacts.uint256_word v Bv) as [-> _].
    destruct (BytesFacts.uint256_word va Bva) as [-> _].
    destruct (BytesFacts.uint256_word vb Bvb) as [-> _].
    reflexivity.
  - rewrite (signWithDomainSeparator_run Keccak256 evm c a ds v va vb s Hv Hva Hvb).
    reflexivity.
Qed.

Lemma leftPad32_min b : (32 <= List.length (spec_leftPad32 b))%nat.
Proof. unfold spec_leftPad32. rewrite length_app, repeat_length. lia. Qed.

(** X6. [common.LeftPadBytes] pads and never cuts: an amount of magnitude
    2^256 or more is laid out unchanged on more than 32 bytes and still
    denotes its magnitude, so the encoded struct is longer than the type
    hash, five words and the nonce; the amount neither wraps modulo 2^256
    nor is it rejected. *)
Theorem oversized_amount_is_not_truncated (a : ExactEIP3009Authorization)
    v va vb :
  2 ^ 256 <= Z.abs v ->
  Common.LeftPadBytes (Big.Bytes v) 32 = Big.Bytes v
  /\ beValue (Common.LeftPadBytes (Big.Bytes v) 32) = Z.abs v
  /\ (List.length (Keccak256 (bytes_of_string TransferWithAuthorizationType))
      + 160 + List.length (fst (HexToBytes evm (Nonce a)))
      < List.length (structEncoding Keccak256 evm a v va vb))%nat.
Proof.
  intros Hv. pose proof (Bytes_length_large v Hv) as HL.
  assert (E : Common.LeftPadBytes (Big.Bytes v) 32 = Big.Bytes v).
  { unfold Common.LeftPadBytes.
    destruct (Nat.leb_spec 32 (List.length (Big.Bytes v))); [reflexivity|lia]. }
  split; [exact E|]. split.
  - rewrite E. apply BytesFacts.beValue_Bytes.
  - unfold structEncoding, spec_typeHash. rewrite !length_app.
    rewrite <- (CommonFacts.LeftPadBytes_spec (Big.Bytes v)), E.
    pose proof (leftPad32_min (Common.HexToAddress (From a))).
    pose proof (leftPad32_min (Common.HexToAddress (To a))).
    pose proof (leftPad32_min (Big.Bytes va)).
    pose proof (leftPad32_min (Big.Bytes vb)).
    lia.
Qed.

Lemma app_inj_length {A} (a a' b b' : list A) :
  List.length a = List.length a' -> a ++ b = a' ++ b' -> a = a' /\ b = b'.
Proof.
  revert a'. induction a as [|x a IH]; intros [|x' a'] Hl H;
    try (simpl in Hl; discriminate).
  - auto.
  - simpl in H. injection H as -> H. injection Hl as Hl.
    destruct (IH a' Hl H) as [-> ->]. auto.
Qed.

Lemma word_value_inj x y :
  Z.abs x < 2 ^ 256 -> Z.abs y < 2 ^ 256 ->
  spec_leftPad32 (Big.Bytes x) = spec_leftPad32 (Big.Bytes y) ->
  Z.abs x = Z.abs y.
Proof.
  intros Hx Hy H.
  destruct (BytesFacts.uint256_word x Hx) as [_ <-].
  destruct (BytesFacts.uint256_word y Hy) as [_ <-].
  rewrite H. reflexivity.
Qed.

(** X7. The struct encoding is unambiguous on amounts of magnitude below
    2^256: two authorizations with the same encoding have the same payer
    and payee address bytes, the same magnitudes of value, validAfter and
    validBefore, and the same nonce bytes; the encoding forgets nothing
    but the spelling of the addresses and the sign of the amounts. *)
Theorem struct_encoding_binds_fields a v va vb a' v' va' vb' :
  Z.abs v < 2 ^ 256 -> Z.abs va < 2 ^ 256 -> Z.abs vb < 2 ^ 256 ->
  Z.abs v' < 2 ^ 256 -> Z.abs va' < 2 ^ 256 -> Z.abs vb' < 2 ^ 256 ->
  structEncoding Keccak256 evm a v va vb
  = structEncoding Keccak256 evm a' v' va' vb' ->
  Common.HexToAddress (From a) = Common.HexToAddress (From a')
  /\ Common.HexToAddress (To a) = Common.HexToAddress (To a')
  /\ Z.abs v = Z.abs v' /\ Z.abs va = Z.abs va' /\ Z.abs vb = Z.abs vb'
  /\ fst (HexToBytes evm (Nonce a)) = fst (HexToBytes evm (Nonce a')).
Proof.
  intros B1 B2 B3 B1' B2' B3' H. unfold structEncoding in H.
  apply app_inv_head in H.
  assert (L : forall s, List.length (spec_leftPad32 (Common.HexToAddress s)) = 32%nat).
  { intros s. apply CommonFacts.leftPad32_length.
    rewrite CommonFacts.HexToAddress_length. lia. }
  assert (LW : forall x, Z.abs x < 2 ^ 256 ->
               List.length (spec_leftPad32 (Big.Bytes x)) = 32%nat).
  { intros x Hx. apply (BytesFacts.uint256_word x Hx). }
  apply app_inj_length in H; [|rewrite !L; reflexivity].
  destruct H as [Hf H].
  apply app_inj_length in H; [|rewrite !L; reflexivity].
  destruct H as [Ht H].
  apply app_inj_length in H; [|rewrite !LW by assumption; reflexivity].
  destruct H as [Hv H].
  apply app_inj_length in H; [|rewrite !LW by assumption; reflexivity].
  destruct H as [Hva H].
  apply app_inj_length in H; [|rewrite !LW by assumption; reflexivity].
  destruct H as [Hvb Hn].
  rewrite !CommonFacts.leftPad32_address in Hf, Ht.
  apply app_inv_head in Hf. apply app_inv_head in Ht.
  repeat split; auto using word_value_inj.
Qed.

(** X8. The digest is computed from the magnitude of the value: for two
    authorizations that differ only in the sign of their value,
    [signWithDomainSeparator] does the same, digest, call of the signer
    and result. *)
Theorem value_sign_is_not_signed (c : ExactEvmScheme W) a1 a2 v ds s :
  Big.SetString (Value a1) = Some v ->
  Big.SetString (Value a2) = Some (- v) ->
  From a1 = From a2 -> To a1 = To a2 ->
  ValidAfter a1 = ValidAfter a2 -> ValidBefore a1 = ValidBefore a2 ->
  Nonce a1 = Nonce a2 ->
  signWithDomainSeparator Keccak256 evm c a1 ds s
  = signWithDomainSeparator Keccak256 evm c a2 ds s.
Proof.
  intros H1 H2 Hf Ht Ha Hb Hn. unfold signWithDomainSeparator.
  rewrite H1, H2, Hf, Ht, Ha, Hb, Hn.
  unfold bind, deref, ret.
  assert (E : Big.Bytes (- v) = Big.Bytes v).
  { unfold Big.Bytes. rewrite Z.abs_opp. reflexivity. }
  rewrite E. reflexivity.
Qed.

End EncodingMore.

Section CreateMore.
Context {W PM : Type}.
Variable Keccak256 : bytes -> bytes.
Variable evm : EvmPkg W PM.

(** X10. A payload that [CreatePaymentPayload] returns has version 2 and
    holds the authorization built in that very call: from is the address
    the signer reported, to is the PayTo of the requirements, value is the
    canonical decimal text of the integer the amount denotes, nonce and
    validity window are the ones the environment returned in this call
    (the window asked for one hour), and the signature is the text of the
    bytes the signer returned last. *)
Theorem payload_holds_fresh_authorization (c : ExactEvmScheme W) req s :
  exists r w' tr,
    CreatePaymentPayload Keccak256 evm c req s
      = (Some r, mkSt w' (trace s ++ tr))
    /\ forall p, r = Ok p ->
         exists value from nonce va vb signature mid ev,
           Big.SetString (Amount req) = Some value
           /\ tr = [EvCreateNonce (Ok nonce);
                    EvCreateValidityWindow Hour (va, vb);
                    EvAddress from] ++ mid ++ [ev]
           /\ signingAnswer ev = Some (Ok signature)
           /\ p = mkPaymentPayload 2
                    (ToMap evm
                       (mkEvmPayload (BytesToHex evm signature)
                          (mkAuthorization from (PayTo req)
                             (Big.String_ value) (Big.String_ va)
                             (Big.String_ vb) nonce))).
Proof.
  destruct (CreatePaymentPayload_total Keccak256 evm c req s)
    as (r & w' & tr & Hrun & Hcase).
  exists r, w', tr. split; [exact Hrun|]. intros p Hp. subst r.
  destruct Hcase as [[_ [e He]] | (chainID & assetInfo & value & _ & _ & Hv & H)];
    [discriminate|].
  exists value.
  inversion H; subst.
  - exists from, nonce, va, vb, signature, [].
    eexists. split; [exact Hv|]. split; [reflexivity|].
    split; reflexivity.
  - destruct rs as [signature|e0]; [|discriminate].
    match goal with Hs : stdTrace _ _ _ _ _ _ _ _ _ _ _ _ _ |- _ =>
      destruct (stdTrace_last Keccak256 evm _ _ _ _ _ _ _ _ _ _ _ Hs)
        as (pre & ev & -> & Hev) end.
    exists from, nonce, va, vb, signature.
    eexists (_ :: pre), ev. split; [exact Hv|]. split; [reflexivity|].
    split; [exact Hev|]. cbn [signedResult] in *.
    unfold payloadOf, authorizationOf in *.
    repeat match goal with x := _ |- _ => subst x end. congruence.
  - destruct rs as [signature|e0]; [|discriminate].
    match goal with Hs : stdTrace _ _ _ _ _ _ _ _ _ _ _ _ _ |- _ =>
      destruct (stdTrace_last Keccak256 evm _ _ _ _ _ _ _ _ _ _ _ Hs)
        as (pre & ev & -> & Hev) end.
    exists from, nonce, va, vb, signature, pre, ev.
    split; [exact Hv|]. split; [reflexivity|].
    split; [exact Hev|]. cbn [signedResult] in *.
    unfold payloadOf, authorizationOf in *.
    repeat match goal with x := _ |- _ => subst x end. congruence.
Qed.

(** The calls of a run of [CreatePaymentPayload] past validation. *)
Lemma cppTrace_counts (c : ExactEvmScheme W) req chainID assetInfo value tr r :
  cppTrace Keccak256 evm c req chainID assetInfo value tr r ->
  (countEv isNonceDraw tr <= 1)%nat
  /\ (countEv isWindowDraw tr <= 1)%nat
  /\ (countEv isAddressRead tr <= 1)%nat
  /\ (chainQueries tr <= 1)%nat
  /\ (ethClient c = None -> chainQueries tr = 0%nat)
  /\ (countEv isSigning tr <= 2)%nat
  /\ (countEv isSigning tr = 2%nat ->
        Network req = "gatelayer_testnet"
        /\ exists d e, In (EvSignDigest d (Err e)) tr)
  /\ (forall p, r = Ok p -> (1 <= countEv isSigning tr)%nat).
Proof.
  intros H. cpp_cases H; cbn;
    repeat match goal with |- _ /\ _ => split end;
    try lia; try congruence; try (intros; lia).
  all: intros _;
    match goal with
    | Hg : pinnedGuard _ _ = true |- _ =>
        apply pinnedGuard_true in Hg; destruct Hg as [Hn _]
    end;
    (split; [exact Hn|]); eexists _, _; cbn; eauto 10.
Qed.

(** X11. What one call of [CreatePaymentPayload] may cost: at most one
    nonce, one validity window and one read of the signer's address, at
    most one contract call and none without an RPC client, at most two
    signing requests, and two only on the pinned network after the signer
    refused a digest.  No payload is returned without a signing
    request. *)
Theorem calls_per_payload_bounded (c : ExactEvmScheme W) req s :
  exists r w' tr,
    CreatePaymentPayload Keccak256 evm c req s
      = (Some r, mkSt w' (trace s ++ tr))
    /\ (countEv isNonceDraw tr <= 1)%nat
    /\ (countEv isWindowDraw tr <= 1)%nat
    /\ (countEv isAddressRead tr <= 1)%nat
    /\ (chainQueries tr <= 1)%nat
    /\ (ethClient c = None -> chainQueries tr = 0%nat)
    /\ (countEv isSigning tr <= 2)%nat
    /\ (countEv isSigning tr = 2%nat ->
          Network req = "gatelayer_testnet"
          /\ exists d e, In (EvSignDigest d (Err e)) tr)
    /\ (forall p, r = Ok p -> (1 <= countEv isSigning tr)%nat).
Proof.
  destruct (CreatePaymentPayload_total Keccak256 evm c req s)
    as (r & w' & tr & Hrun & Hcase).
  exists r, w', tr. split; [exact Hrun|].
  destruct Hcase as [[-> [e ->]] | (chainID & assetInfo & value & _ & _ & Hv & H)].
  - cbn. repeat split; try lia; try discriminate.
  - eapply cppTrace_counts; exact H.
Qed.

(** X22. The RPC client is optional.  A scheme made by
    [NewExactEvmScheme] has none, and [CreatePaymentPayload] on it never
    calls a contract.  [SetRPCURL] keeps the signer; when dialling fails
    it returns the error wrapped as "failed to connect to RPC" and leaves
    the scheme as it was, RPC client and URL included; when dialling
    succeeds it installs the client and the URL and returns no error. *)
Theorem rpc_client_is_optional (dial : string -> result (EthClient W))
    (sg : ClientEvmSigner W) (c : ExactEvmScheme W) rpc req s :
  (exists r w' tr,
     CreatePaymentPayload Keccak256 evm (NewExactEvmScheme sg) req s
       = (Some r, mkSt w' (trace s ++ tr))
     /\ chainQueries tr = 0%nat)
  /\ signer (fst (SetRPCURL dial c rpc)) = signer c
  /\ (forall e, dial rpc = Err e ->
        SetRPCURL dial c rpc
        = (c, Some (WrapError
                      ("failed to connect to RPC: " ++ Error_ e)%string e)))
  /\ (forall client, dial rpc = Ok client ->
        snd (SetRPCURL dial c rpc) = None
        /\ ethClient (fst (SetRPCURL dial c rpc)) = Some client
        /\ rpcURL (fst (SetRPCURL dial c rpc)) = rpc).
Proof.
  split.
  - destruct (CreatePaymentPayload_total Keccak256 evm (NewExactEvmScheme sg) req s)
      as (r & w' & tr & Hrun & Hcase).
    exists r, w', tr. split; [exact Hrun|].
    destruct Hcase as [[-> _] | (chainID & assetInfo & value & _ & _ & _ & H)];
      [reflexivity|].
    apply cppTrace_counts in H. apply H. reflexivity.
  - unfold SetRPCURL. destruct (dial rpc) as [client|e].
    + split; [reflexivity|]. split; [discriminate|].
      intros cl [= <-]. repeat split.
    + split; [reflexivity|]. split; [|discriminate].
      intros e' [= <-]. reflexivity.
Qed.

(** X12. Every typed-data signing request of [CreatePaymentPayload] names
    the primary type TransferWithAuthorization over the two EIP-712 type
    lists and a domain made of the resolved chain id, the resolved asset
    address and the token name and version: the strings under name and
    version of Extra when present, the asset's own otherwise (a missing
    Extra and a value that is not a string count as absent). *)
Theorem typed_data_domain_from_requirements (c : ExactEvmScheme W) req s :
  exists r w' tr,
    CreatePaymentPayload Keccak256 evm c req s
      = (Some r, mkSt w' (trace s ++ tr))
    /\ forall dom types pt msg rs,
         In (EvSignTypedData dom types pt msg rs) tr ->
         exists chainID assetInfo,
           GetEvmChainId evm (Network req) = Ok chainID
           /\ GetAssetInfo evm (Network req) (Asset req) = Ok assetInfo
           /\ types = eip712Types
           /\ pt = "TransferWithAuthorization"
           /\ domChainID dom = chainID
           /\ domVerifyingContract dom = Address assetInfo
           /\ (forall m n, Extra req = Some m ->
                 lookup "name" m = Some (VString n) -> domName dom = n)
           /\ (forall m n, Extra req = Some m ->
                 lookup "version" m = Some (VString n) -> domVersion dom = n)
           /\ (assertString (Extra req) "name" = None ->
                 domName dom = Name assetInfo)
           /\ (assertString (Extra req) "version" = None ->
                 domVersion dom = Version assetInfo).
Proof.
  destruct (CreatePaymentPayload_total Keccak256 evm c req s)
    as (r & w' & tr & Hrun & Hcase).
  exists r, w', tr. split; [exact Hrun|].
  intros dom types pt msg rs Hin.
  destruct Hcase as [[-> _] | (chainID & assetInfo & value & Hc & Ha & Hv & H)];
    [destruct Hin|].
  exists chainID, assetInfo. split; [exact Hc|]. split; [exact Ha|].
  assert (E : dom = mkDomain (tokenNameOf req assetInfo)
                      (tokenVersionOf req assetInfo) chainID (Address assetInfo)
              /\ types = eip712Types /\ pt = "TransferWithAuthorization").
  { cpp_cases H; cbn [In app prelude] in Hin;
      repeat match goal with
             | Hi : _ \/ _ |- _ => destruct Hi as [Hi|Hi]
             | Hi : False |- _ => destruct Hi
             | Hi : _ = EvSignTypedData _ _ _ _ _ |- _ =>
                 first [discriminate Hi | injection Hi as <- <- <- <- <-]
             end; auto. }
  destruct E as (-> & -> & ->). cbn [domChainID domVerifyingContract domName domVersion].
  repeat split.
  - intros m n Hm Hl. unfold tokenNameOf, assertString. rewrite Hm, Hl. reflexivity.
  - intros m n Hm Hl. unfold tokenVersionOf, assertString. rewrite Hm, Hl. reflexivity.
  - intros Hn. unfold tokenNameOf. rewrite Hn. reflexivity.
  - intros Hn. unfold tokenVersionOf. rewrite Hn. reflexivity.
Qed.

(** X13. The signer, the chain, the clock and the nonce source are reached
    only after the requirements were validated, in the order chain id,
    asset, amount: a failure of any of the three is returned as it is
    (the amount error names the amount), with no call made at all; a
    failure to create the nonce is returned as it is before the window is
    computed and before the signer is asked anything. *)
Theorem validation_precedes_effects (c : ExactEvmScheme W) req s :
  exists r w' tr,
    CreatePaymentPayload Keccak256 evm c req s
      = (Some r, mkSt w' (trace s ++ tr))
    /\ (forall e, GetEvmChainId evm (Network req) = Err e ->
          r = Err e /\ tr = [] /\ w' = world s)
    /\ (forall e chainID, GetEvmChainId evm (Network req) = Ok chainID ->
          GetAssetInfo evm (Network req) (Asset req) = Err e ->
          r = Err e /\ tr = [] /\ w' = world s)
    /\ (forall chainID assetInfo,
          GetEvmChainId evm (Network req) = Ok chainID ->
          GetAssetInfo evm (Network req) (Asset req) = Ok assetInfo ->
          Big.SetString (Amount req) = None ->
          r = Err (ErrorString (ErrInvalidAmount evm ++ ": " ++ Amount req)%string)
          /\ tr = [] /\ w' = world s)
    /\ (forall ev, In ev tr ->
          exists chainID assetInfo value rn rest,
            GetEvmChainId evm (Network req) = Ok chainID
            /\ GetAssetInfo evm (Network req) (Asset req) = Ok assetInfo
            /\ Big.SetString (Amount req) = Some value
            /\ tr = EvCreateNonce rn :: rest
            /\ (forall e, rn = Err e -> r = Err e /\ rest = [])).
Proof.
  destruct (GetEvmChainId evm (Network req)) as [chainID|e] eqn:Hc.
  2:{ exists (Err e), (world s), []. rewrite app_nil_r.
      unfold CreatePaymentPayload. rewrite Hc. destruct s. cbn.
      repeat split; try congruence. intros ev []. }
  destruct (GetAssetInfo evm (Network req) (Asset req)) as [assetInfo|e] eqn:Ha.
  2:{ exists (Err e), (world s), []. rewrite app_nil_r.
      unfold CreatePaymentPayload. rewrite Hc, Ha. destruct s. cbn.
      repeat split; try congruence. intros ev []. }
  destruct (Big.SetString (Amount req)) as [value|] eqn:Hv.
  2:{ eexists _, (world s), []. rewrite app_nil_r.
      unfold CreatePaymentPayload. rewrite Hc, Ha, Hv. destruct s. cbn.
      split; [reflexivity|].
      repeat split; try congruence. intros ev []. }
  destruct (CreatePaymentPayload_run Keccak256 evm c req chainID assetInfo value s
              Hc Ha Hv) as (tr & r & w' & Hrun & H).
  exists r, w', tr. split; [exact Hrun|].
  split; [intros e; discriminate|]. split; [intros e ch _; discriminate|].
  split; [intros ch ai _ _; discriminate|].
  intros ev Hin. exists chainID, assetInfo, value.
  inversion H; subst; cbn [prelude app];
    eexists _, _; (split; [reflexivity|]); (split; [reflexivity|]);
    (split; [reflexivity|]); (split; [reflexivity|]);
    intros e0 E; try discriminate E.
  injection E as <-. split; reflexivity.
Qed.

End CreateMore.

Section FailureMore.
Context {W PM : Type}.
Variable Keccak256 : bytes -> bytes.
Variable evm : EvmPkg W PM.

(** X25. Once [CreatePaymentPayload] has made a call, an error it returns
    is either the error of the nonce source, returned as it is with
    nothing else done, or the FailedToSignAuthorization error wrapping the
    error of the last signing request of the run; no other error leaves
    the function, and an error of the chain query never does. *)
Theorem failure_is_nonce_or_signer (c : ExactEvmScheme W) req s :
  exists r w' tr,
    CreatePaymentPayload Keccak256 evm c req s
      = (Some r, mkSt w' (trace s ++ tr))
    /\ forall e, r = Err e -> tr <> [] ->
         tr = [EvCreateNonce (Err e)]
         \/ exists pre ev e0,
              tr = pre ++ [ev]
              /\ signingAnswer ev = Some (Err e0)
              /\ e = WrapError
                       (ErrFailedToSignAuthorization evm ++ ": " ++ Error_ e0)%string
                       e0.
Proof.
  destruct (CreatePaymentPayload_total Keccak256 evm c req s)
    as (r & w' & tr & Hrun & Hcase).
  exists r, w', tr. split; [exact Hrun|]. intros e He Hne. subst r.
  destruct Hcase as [[-> _] | (chainID & assetInfo & value & _ & _ & _ & H)];
    [contradiction|].
  inversion H; subst.
  - left. reflexivity.
  - right.
    match goal with Hs : stdTrace _ _ _ _ _ _ _ _ _ _ _ _ _ |- _ =>
      destruct (stdTrace_last Keccak256 evm _ _ _ _ _ _ _ _ _ _ _ Hs)
        as (pre & ev & -> & Hev) end.
    destruct rs as [sg|e1]; [discriminate|].
    eexists (_ ++ _ :: pre), ev, e1.
    split; [rewrite <- app_assoc; reflexivity|].
    split; [exact Hev|]. cbn [signedResult] in *. congruence.
  - right.
    match goal with Hs : stdTrace _ _ _ _ _ _ _ _ _ _ _ _ _ |- _ =>
      destruct (stdTrace_last Keccak256 evm _ _ _ _ _ _ _ _ _ _ _ Hs)
        as (pre & ev & -> & Hev) end.
    destruct rs as [sg|e1]; [discriminate|].
    eexists (_ ++ pre), ev, e1.
    split; [rewrite <- app_assoc; reflexivity|].
    split; [exact Hev|]. cbn [signedResult] in *. congruence.
Qed.

(** X9. [common.HexToAddress] reports no error: a payer text that does not
    start with a hexadecimal digit is read as the zero address, and
    [signWithDomainSeparator] then does exactly what it does for the
    authorization that names the zero address as its payer. *)
Theorem non_hex_payer_signs_as_zero_address (c : ExactEvmScheme W) a ch rest
    ds s :
  From a = String ch rest ->
  Hex.fromHexChar ch = None ->
  Common.HexToAddress (From a) = repeat x00 20
  /\ signWithDomainSeparator Keccak256 evm c a ds s
     = signWithDomainSeparator Keccak256 evm c
         (mkAuthorization "0x0000000000000000000000000000000000000000"
            (To a) (Value a) (ValidAfter a) (ValidBefore a) (Nonce a))
         ds s.
Proof.
  intros Hf Hc.
  assert (Hz : Common.HexToAddress (From a) = repeat x00 20).
  { rewrite Hf. unfold Common.HexToAddress, Common.FromHex.
    assert (Hp : Common.has0xPrefix (String ch rest) = false).
    { unfold Common.has0xPrefix. destruct rest; [reflexivity|].
      destruct (Ascii.eqb_spec ch "0") as [->|]; [discriminate Hc|reflexivity]. }
    rewrite Hp.
    assert (Hd : Common.Hex2Bytes
                   (if Nat.odd (String.length (String ch rest))
                    then String "0" (String ch rest) else String ch rest) = []).
    { unfold Common.Hex2Bytes, Hex.DecodeString.
      destruct (Nat.odd (String.length (String ch rest))).
      - cbn [Hex.Decode]. rewrite Hc.
        destruct (Hex.fromHexChar "0"); reflexivity.
      - destruct rest as [|c1 rest']; [reflexivity|].
        cbn [Hex.Decode]. rewrite Hc. reflexivity. }
    rewrite Hd. reflexivity. }
  split; [exact Hz|].
  unfold signWithDomainSeparator.
  cbn [From To Value ValidAfter ValidBefore Nonce]. rewrite Hz.
  replace (Common.HexToAddress "0x0000000000000000000000000000000000000000")
    with (repeat x00 20) by (vm_compute; reflexivity).
  reflexivity.
Qed.

End FailureMore.

Section ExtraMore.
Context {W PM : Type}.
Variable Keccak256 : bytes -> bytes.
Variable evm : EvmPkg W PM.

Lemma agree_bind {A B} (m : M W Event A) (k k' : A -> M W Event B) s :
  (forall a s1, agreeUnlessTyped (k a) (k' a) s1) ->
  agreeUnlessTyped (bind m k) (bind m k') s.
Proof.
  intros H. unfold agreeUnlessTyped, bind.
  destruct (m s) as [[a|] s1]; [apply H|left; reflexivity].
Qed.

Lemma agree_head {A B} (m m' : M W Event A) (k : A -> M W Event B) s :
  agreeUnlessTyped m m' s ->
  (forall a s1, trace (snd (k a s1)) = trace s1) ->
  agreeUnlessTyped (bind m k) (bind m' k) s.
Proof.
  intros [H|H] Hk; unfold agreeUnlessTyped, bind.
  - rewrite H. left. reflexivity.
  - right. destruct (m s) as [[a|] s1]; [|exact H].
    rewrite Hk. exact H.
Qed.

Lemma agree_refl {A} (m : M W Event A) s : agreeUnlessTyped m m s.
Proof. left. reflexivity. Qed.

Lemma signAuthorization_names (c : ExactEvmScheme W) a chainID contract
    n v n' v' s :
  agreeUnlessTyped
    (signAuthorization Keccak256 evm c a chainID contract n v)
    (signAuthorization Keccak256 evm c a chainID contract n' v') s.
Proof.
  unfold signAuthorization. apply agree_bind. intros [ds|] s1.
  - apply agree_refl.
  - right. unfold call.
    destruct (SignTypedData (signer c) (mkDomain n v chainID contract)
                eip712Types "TransferWithAuthorization"
                (typedMessage evm a) (world s1)) as [rs w2].
    cbn [snd trace]. eexists _, _, _, _, _.
    apply in_or_app. right. left. reflexivity.
Qed.

(** X27. The Extra map of the requirements matters to typed-data signing
    only: from any world, replacing it by any other map leaves the whole
    run of [CreatePaymentPayload] as it is, result, state and calls,
    unless the run asks the signer to sign typed data.  In particular the token name
    and version have no effect on a payload signed over the pinned
    separator or over the separator the chain returned. *)
Theorem extra_matters_only_for_typed_data (c : ExactEvmScheme W) req extra'
    (w : W) :
  CreatePaymentPayload Keccak256 evm c req (start w)
  = CreatePaymentPayload Keccak256 evm c (withExtra req extra') (start w)
  \/ signsTypedData
       (trace (snd (CreatePaymentPayload Keccak256 evm c req (start w)))).
Proof.
  change (agreeUnlessTyped (CreatePaymentPayload Keccak256 evm c req)
            (CreatePaymentPayload Keccak256 evm c (withExtra req extra'))
            (start w)).
  generalize (start w : St W Event). intros s.
  unfold CreatePaymentPayload, withExtra.
  cbn [Network Asset Amount PayTo Extra].
  destruct (GetEvmChainId evm (Network req)) as [chainID|e]; [|apply agree_refl].
  destruct (GetAssetInfo evm (Network req) (Asset req)) as [assetInfo|e];
    [|apply agree_refl].
  destruct (Big.SetString (Amount req)) as [value|]; [|apply agree_refl].
  apply agree_bind. intros [nonce|e] s1; [|apply agree_refl].
  apply agree_bind. intros [va vb] s2.
  apply agree_bind. intros from s3.
  assert (Hstd : forall s4,
    agreeUnlessTyped
      (bind (signAuthorization Keccak256 evm c
               (mkAuthorization from (PayTo req) (Big.String_ value)
                  (Big.String_ va) (Big.String_ vb) nonce)
               chainID (Address assetInfo)
               match assertString (Extra req) "name" with
               | Some name => name | None => Name assetInfo end
               match assertString (Extra req) "version" with
               | Some ver => ver | None => Version assetInfo end)
         (fun rs => match rs with
            | Err e =>
                ret (Err (WrapError
                  (ErrFailedToSignAuthorization evm ++ ": " ++ Error_ e)%string e))
            | Ok signature =>
                ret (Ok (mkPaymentPayload 2
                  (ToMap evm (mkEvmPayload (BytesToHex evm signature)
                     (mkAuthorization from (PayTo req) (Big.String_ value)
                        (Big.String_ va) (Big.String_ vb) nonce)))))
            end))
      (bind (signAuthorization Keccak256 evm c
               (mkAuthorization from (PayTo req) (Big.String_ value)
                  (Big.String_ va) (Big.String_ vb) nonce)
               chainID (Address assetInfo)
               match assertString extra' "name" with
               | Some name => name | None => Name assetInfo end
               match assertString extra' "version" with
               | Some ver => ver | None => Version assetInfo end)
         (fun rs => match rs with
            | Err e =>
                ret (Err (WrapError
                  (ErrFailedToSignAuthorization evm ++ ": " ++ Error_ e)%string e))
            | Ok signature =>
                ret (Ok (mkPaymentPayload 2
                  (ToMap evm (mkEvmPayload (BytesToHex evm signature)
                     (mkAuthorization from (PayTo req) (Big.String_ value)
                        (Big.String_ va) (Big.String_ vb) nonce)))))
            end)) s4).
  { intros s4. apply agree_head; [apply signAuthorization_names|].
    intros [sig|e] s5; reflexivity. }
  destruct (String.eqb (Network req) "gatelayer_testnet"
            && String.eqb (Address assetInfo)
                 "0x9be8Df37C788B244cFc28E46654aD5Ec28a880AF");
    [|apply Hstd].
  destruct (List.length (fst (Hex.DecodeString pinnedDomainSeparatorHex)) =? 32)%nat;
    [|apply Hstd].
  apply agree_bind. intros [sig|e] s4; [apply agree_refl|apply Hstd].
Qed.

End ExtraMore.

Section IgnoredMore.
Context {W PM : Type}.
Variable Keccak256 : bytes -> bytes.
Variable evm : EvmPkg W PM.

(** X28. [CreatePaymentPayload] reads the network, the asset, the amount,
    the payee and the Extra map of the requirements and nothing else: the
    scheme name is not checked and MaxTimeoutSeconds is not used, so
    changing them changes nothing in the run, and the validity window is
    always asked for one hour. *)
Theorem timeout_and_scheme_are_ignored (c : ExactEvmScheme W) req sch t s :
  exists r w' tr,
    CreatePaymentPayload Keccak256 evm c req s
      = (Some r, mkSt w' (trace s ++ tr))
    /\ CreatePaymentPayload Keccak256 evm c
         (mkRequirements sch (Network req) (Asset req) (Amount req)
            (PayTo req) t (Extra req)) s
       = (Some r, mkSt w' (trace s ++ tr))
    /\ forall d win, In (EvCreateValidityWindow d win) tr ->
         d = 3600 * 1000000000.
Proof.
  destruct (CreatePaymentPayload_total Keccak256 evm c req s)
    as (r & w' & tr & Hrun & Hcase).
  exists r, w', tr. split; [exact Hrun|]. split; [exact Hrun|].
  intros d win Hin.
  destruct Hcase as [[-> _] | (chainID & assetInfo & value & _ & _ & _ & H)];
    [destruct Hin|].
  cpp_cases H; cbn [In app prelude] in Hin;
    repeat match goal with
           | Hi : _ \/ _ |- _ => destruct Hi as [Hi|Hi]
           | Hi : False |- _ => destruct Hi
           | Hi : _ = EvCreateValidityWindow _ _ |- _ =>
               first [discriminate Hi | injection Hi as <- <-]
           end; reflexivity.
Qed.

End IgnoredMore.

(* ================================================================== *)
(** * Further properties of the facilitator client *)

Module HeaderMore.

Lemma Get_setAll_uniform hs k v : forall r,
  (forall k1 v1, In (k1, v1) hs ->
     CanonicalMIMEHeaderKey k1 = CanonicalMIMEHeaderKey k -> v1 = v) ->
  Get (Hdr (setAll r hs)) k
  = if touches hs k then Some v else Get (Hdr r) k.
Proof.
  induction hs as [|[k0 v0] hs IH]; intros r Hall; [reflexivity|].
  cbn [setAll fold_left fst snd]. fold (setAll (setHeader r k0 v0) hs).
  rewrite IH by (intros k1 v1 H1; apply Hall; right; exact H1).
  cbn [touches existsb fst]. fold (touches hs k).
  destruct (touches hs k); [rewrite orb_true_r; reflexivity|].
  rewrite orb_false_r, HeaderFacts.Get_setHeader.
  destruct (String.eqb_spec (CanonicalMIMEHeaderKey k0) (CanonicalMIMEHeaderKey k))
    as [E|E].
  - rewrite <- E, String.eqb_refl. f_equal. apply (Hall k0 v0); [left; reflexivity|exact E].
  - destruct (String.eqb_spec (CanonicalMIMEHeaderKey k) (CanonicalMIMEHeaderKey k0));
      [congruence|reflexivity].
Qed.

Lemma Get_setAll_provides hs k v r :
  provides hs k v -> Get (Hdr (setAll r hs)) k = Some v.
Proof.
  intros [Ht Hall]. rewrite (Get_setAll_uniform hs k v r Hall), Ht. reflexivity.
Qed.

End HeaderMore.

Section OperationMore.
Context {W SR : Type}.
Variable env : HttpEnv W SR.

Section OneOperation.
Context {A : Type}.
Variable c : HTTPFacilitatorClient W.
Variable decode : bytes -> option (facilitatorAPIResponse A).
Variable outcome : result (Response * bytes) -> result A.
Variable bodyValue : option value.
Variable uri : string.
Variable pick : AuthHeaders -> list (string * string).
Variables cm sm rm : string.

(** What the three outcome functions have in common. *)
Hypothesis outcome_ok : forall resp rb d,
  outcome (Ok (resp, rb)) = Ok d ->
  exists apiResp, decode rb = Some apiResp /\ StatusCode resp = StatusOK
                  /\ Code apiResp = 0 /\ d = Data apiResp.

Lemma opRun_okOnly w tr r :
  opRun env c outcome bodyValue uri pick cm sm rm w tr r ->
  okOnlyOnCodeZero decode tr r.
Proof.
  intros [(_ & [e ->] & _) | (v & body & rt & _ & _ & Hrt & -> & Herr)] d Hd;
    [discriminate|].
  inversion Hrt; subst.
  - rewrite (Herr _ eq_refl) in Hd. discriminate.
  - rewrite (Herr _ eq_refl) in Hd. discriminate.
  - destruct rr as [resp|e]; cbn [respResult] in *;
      [|rewrite (Herr _ eq_refl) in Hd; discriminate].
    destruct (ReadAll resp) as [rb|e] eqn:Hr;
      [|rewrite (Herr _ eq_refl) in Hd; discriminate].
    destruct (outcome_ok _ _ _ Hd) as (apiResp & Hdec & Hst & Hcode & ->).
    exists (tsig ++ tauth), (setAll req1 hs), resp, rb, apiResp.
    split; [rewrite <- app_assoc; reflexivity|].
    split; [|auto].
    rewrite !posts_app.
    match goal with Hs : sigTrace _ _ _ _ _ _ _ |- _ =>
      destruct (sigTrace_facts env _ _ _ _ _ _ Hs) as (-> & _) end.
    match goal with Ha : authTrace _ _ _ _ |- _ =>
      destruct (authTrace_facts _ _ _ _ Ha) as (-> & _) end.
    reflexivity.
Qed.

Lemma opRun_transport w tr r :
  opRun env c outcome bodyValue uri pick cm sm rm w tr r ->
  transportWrapped sm rm tr r.
Proof.
  intros [(-> & _ & _) | (v & body & rt & _ & _ & Hrt & -> & Herr)].
  - split; intros; contradiction.
  - split.
    + intros q e Hin.
      destruct (rtTrace_sent env _ _ _ _ _ _ _ _ _ _ _ _ Hrt Hin)
        as (_ & _ & _ & _ & _ & _ & _ & _ & ->).
      apply Herr. reflexivity.
    + intros q resp e Hin Hr.
      destruct (rtTrace_sent env _ _ _ _ _ _ _ _ _ _ _ _ Hrt Hin)
        as (_ & _ & _ & _ & _ & _ & _ & _ & ->).
      apply Herr. cbn [respResult]. rewrite Hr. reflexivity.
Qed.

Lemma opRun_providerFailure w tr r :
  opRun env c outcome bodyValue uri pick cm sm rm w tr r ->
  providerFailureStops tr r.
Proof.
  intros [(-> & _ & _) | (v & body & rt & _ & _ & Hrt & -> & Herr)] e Hin;
    [destruct Hin|].
  inversion Hrt; subst.
  - destruct Hin.
  - match goal with Hs : sigTrace _ _ _ _ _ _ _ |- _ =>
      destruct (sigTrace_facts env _ _ _ _ _ _ Hs) as (Hp & _ & Hno & _) end.
    apply in_app_or in Hin. destruct Hin as [Hin|[Hin|[]]];
      [destruct (Hno _ Hin)|]. injection Hin as <-.
    split; [rewrite posts_app, Hp; reflexivity|].
    split; [eexists; reflexivity|]. apply Herr. reflexivity.
  - match goal with Hs : sigTrace _ _ _ _ _ _ _ |- _ =>
      destruct (sigTrace_facts env _ _ _ _ _ _ Hs) as (_ & _ & Hno & _) end.
    match goal with Ha : authTrace _ _ _ _ |- _ =>
      destruct (authTrace_facts _ _ _ _ Ha) as (_ & _ & Hno' & _) end.
    apply in_app_or in Hin. destruct Hin as [Hin|Hin];
      [destruct (Hno _ Hin)|].
    apply in_app_or in Hin. destruct Hin as [Hin|[Hin|[]]];
      [destruct (Hno' _ Hin)|discriminate].
Qed.

Lemma opRun_providerWins w tr r :
  opRun env c outcome bodyValue uri pick cm sm rm w tr r ->
  providerWins pick tr.
Proof.
  intros [(-> & _ & _) | (v & body & rt & _ & _ & Hrt & _ & _)] q rr Hin;
    [destruct Hin|].
  intros ah Hah k v0 Hp.
  destruct (rtTrace_sent env _ _ _ _ _ _ _ _ _ _ _ _ Hrt Hin)
    as (tsig & req1 & tauth & hs & -> & -> & Hs & Ha & _).
  destruct (sigTrace_facts env _ _ _ _ _ _ Hs) as (_ & _ & Hno & _).
  assert (E : hs = pick ah).
  { apply in_app_or in Hah. destruct Hah as [Hah|Hah];
      [destruct (Hno _ Hah)|].
    apply in_app_or in Hah. destruct Hah as [Hah|[Hah|[]]];
      [|discriminate].
    inversion Ha; subst; [destruct Hah|].
    destruct Hah as [Hah|[]]. congruence. }
  subst hs. apply HeaderMore.Get_setAll_provides. exact Hp.
Qed.

End OneOperation.

Lemma verifyOutcome_ok resp rb d :
  verifyOutcome env (Ok (resp, rb)) = Ok d ->
  exists apiResp, UnmarshalVerify env rb = Some apiResp
                  /\ StatusCode resp = StatusOK
                  /\ Code apiResp = 0 /\ d = Data apiResp.
Proof.
  unfold verifyOutcome.
  destruct (UnmarshalVerify env rb) as [apiResp|]; [|discriminate].
  destruct (Z.eqb_spec (StatusCode resp) StatusOK) as [Hs|Hs]; cbn [negb orb].
  - destruct (Z.eqb_spec (Code apiResp) 0) as [Hc|Hc]; cbn [negb].
    + intros [= <-]. eauto.
    + destruct (negb (String.eqb (InvalidReason (Data apiResp)) "")); discriminate.
  - destruct (negb (String.eqb (InvalidReason (Data apiResp)) "")); discriminate.
Qed.

Lemma settleOutcome_ok resp rb d :
  settleOutcome env (Ok (resp, rb)) = Ok d ->
  exists apiResp, UnmarshalSettle env rb = Some apiResp
                  /\ StatusCode resp = StatusOK
                  /\ Code apiResp = 0 /\ d = Data apiResp.
Proof.
  unfold settleOutcome.
  destruct (UnmarshalSettle env rb) as [apiResp|]; [|discriminate].
  destruct (Z.eqb_spec (StatusCode resp) StatusOK) as [Hs|Hs]; cbn [negb orb].
  - destruct (Z.eqb_spec (Code apiResp) 0) as [Hc|Hc]; cbn [negb].
    + intros [= <-]. eauto.
    + destruct (negb (String.eqb (ErrorReason (Data apiResp)) "")); discriminate.
  - destruct (negb (String.eqb (ErrorReason (Data apiResp)) "")); discriminate.
Qed.

Lemma supportedOutcome_ok resp rb d :
  supportedOutcome env (Ok (resp, rb)) = Ok d ->
  exists apiResp, UnmarshalSupported env rb = Some apiResp
                  /\ StatusCode resp = StatusOK
                  /\ Code apiResp = 0 /\ d = Data apiResp.
Proof.
  unfold supportedOutcome.
  destruct (UnmarshalSupported env rb) as [apiResp|]; [|discriminate].
  destruct (Z.eqb_spec (StatusCode resp) StatusOK) as [Hs|Hs]; cbn [negb orb].
  - destruct (Z.eqb_spec (Code apiResp) 0) as [Hc|Hc]; cbn [negb].
    + intros [= <-]. eauto.
    + discriminate.
  - discriminate.
Qed.

(** X14. Verify, Settle and GetSupported return a result only when the
    run ended with a request that was answered with HTTP status 200 and a
    body that decodes to an envelope with code 0, and the result is the
    data of that envelope unchanged; in particular the isValid flag of a
    verify response and the success flag of a settle response are not
    inspected. *)
Theorem result_only_on_code_zero (c : HTTPFacilitatorClient W) p r s :
  (exists rv w' tr,
     Verify env c p r s = (Some rv, mkSt w' (trace s ++ tr))
     /\ okOnlyOnCodeZero (UnmarshalVerify env) tr rv)
  /\ (exists rv w' tr,
     Settle env c p r s = (Some rv, mkSt w' (trace s ++ tr))
     /\ okOnlyOnCodeZero (UnmarshalSettle env) tr rv)
  /\ (exists rv w' tr,
     GetSupported env c s = (Some rv, mkSt w' (trace s ++ tr))
     /\ okOnlyOnCodeZero (UnmarshalSupported env) tr rv).
Proof.
  each_operation_by (Verify_run env c p r s) (Settle_run env c p r s)
    (GetSupported_run env c s) ltac:(fun H => eapply opRun_okOnly; [|exact H]).
  - apply verifyOutcome_ok.
  - apply settleOutcome_ok.
  - apply supportedOutcome_ok.
Qed.

(** X15. A request that the HTTP client fails to send, and a response
    whose body cannot be read, make the operation return the transport's
    error wrapped under the operation's own message. *)
Theorem transport_failure_is_wrapped (c : HTTPFacilitatorClient W) p r s :
  (exists rv w' tr,
     Verify env c p r s = (Some rv, mkSt w' (trace s ++ tr))
     /\ transportWrapped "verify request failed: "
          "failed to read response body: " tr rv)
  /\ (exists rv w' tr,
     Settle env c p r s = (Some rv, mkSt w' (trace s ++ tr))
     /\ transportWrapped "settle request failed: "
          "failed to read response body: " tr rv)
  /\ (exists rv w' tr,
     GetSupported env c s = (Some rv, mkSt w' (trace s ++ tr))
     /\ transportWrapped "supported request failed: "
          "failed to read supported response body: " tr rv).
Proof.
  each_operation_by (Verify_run env c p r s) (Settle_run env c p r s)
    (GetSupported_run env c s) ltac:(fun H => eapply opRun_transport; exact H).
Qed.

(** X16. When the auth provider fails, the operation stops there: no
    request is sent, the provider's call is the last event of the run, and
    the caller gets the provider's error wrapped as "failed to get auth
    headers". *)
Theorem provider_failure_sends_nothing (c : HTTPFacilitatorClient W) p r s :
  (exists rv w' tr,
     Verify env c p r s = (Some rv, mkSt w' (trace s ++ tr))
     /\ providerFailureStops tr rv)
  /\ (exists rv w' tr,
     Settle env c p r s = (Some rv, mkSt w' (trace s ++ tr))
     /\ providerFailureStops tr rv)
  /\ (exists rv w' tr,
     GetSupported env c s = (Some rv, mkSt w' (trace s ++ tr))
     /\ providerFailureStops tr rv).
Proof.
  each_operation_by (Verify_run env c p r s) (Settle_run env c p r s)
    (GetSupported_run env c s) ltac:(fun H => eapply opRun_providerFailure; exact H).
Qed.

(** X17. The auth provider's headers are written after the signature
    headers, so they win: on every request sent, a header that the
    provider's map for the operation gives one value (under every key with
    the same canonical form) has that value, whatever was there before,
    the headers of the signing scheme included. *)
Theorem provider_headers_override (c : HTTPFacilitatorClient W) p r s :
  (exists rv w' tr,
     Verify env c p r s = (Some rv, mkSt w' (trace s ++ tr))
     /\ providerWins ahVerify tr)
  /\ (exists rv w' tr,
     Settle env c p r s = (Some rv, mkSt w' (trace s ++ tr))
     /\ providerWins ahSettle tr)
  /\ (exists rv w' tr,
     GetSupported env c s = (Some rv, mkSt w' (trace s ++ tr))
     /\ providerWins ahSupported tr).
Proof.
  each_operation_by (Verify_run env c p r s) (Settle_run env c p r s)
    (GetSupported_run env c s) ltac:(fun H => eapply opRun_providerWins; exact H).
Qed.

End OperationMore.

Section ClientMore.
Context {W SR : Type}.
Variable env : HttpEnv W SR.

(** X18. Input that cannot be turned into a request never reaches the
    network: a payload whose version cannot be detected, a payload or
    requirements that do not parse, a request body that does not
    serialize and a URL that is refused each make the operation return
    the wrapped error of that stage, in this order of checks, leaving the
    state as it was: no clock read, no id drawn, no provider asked,
    nothing sent. *)
Theorem malformed_input_sends_nothing (c : HTTPFacilitatorClient W) p r s :
  (forall e, DetectVersion env p = Err e ->
     Verify env c p r s
     = (Some (Err (Errorf_w "failed to detect version: " e)), s)
     /\ Settle env c p r s
        = (Some (Err (Errorf_w "failed to detect version: " e)), s))
  /\ (forall version e,
        DetectVersion env p = Ok version -> UnmarshalMap env p = Err e ->
        Verify env c p r s
        = (Some (Err (Errorf_w "failed to unmarshal payload: " e)), s)
        /\ Settle env c p r s
           = (Some (Err (Errorf_w "failed to unmarshal payload: " e)), s))
  /\ (forall version pm e,
        DetectVersion env p = Ok version -> UnmarshalMap env p = Ok pm ->
        UnmarshalMap env r = Err e ->
        Verify env c p r s
        = (Some (Err (Errorf_w "failed to unmarshal requirements: " e)), s)
        /\ Settle env c p r s
           = (Some (Err (Errorf_w "failed to unmarshal requirements: " e)), s))
  /\ (forall version pm rm,
        DetectVersion env p = Ok version -> UnmarshalMap env p = Ok pm ->
        UnmarshalMap env r = Ok rm ->
        (forall e,
           Marshal env (spec_requestBody "x402.verify" version pm rm) = Err e ->
           Verify env c p r s
           = (Some (Err (Errorf_w "failed to marshal verify request: " e)), s))
        /\ (forall e,
           Marshal env (spec_requestBody "x402.settle" version pm rm) = Err e ->
           Settle env c p r s
           = (Some (Err (Errorf_w "failed to marshal settle request: " e)), s))
        /\ (forall e body,
           Marshal env (spec_requestBody "x402.verify" version pm rm) = Ok body ->
           checkURL env (url c) = Some e ->
           Verify env c p r s
           = (Some (Err (Errorf_w "failed to create verify request: " e)), s))
        /\ (forall e body,
           Marshal env (spec_requestBody "x402.settle" version pm rm) = Ok body ->
           checkURL env (url c) = Some e ->
           Settle env c p r s
           = (Some (Err (Errorf_w "failed to create settle request: " e)), s)))
  /\ (forall e, Marshal env spec_supportedBody = Err e ->
        GetSupported env c s
        = (Some (Err (Errorf_w "failed to marshal supported request: " e)), s))
  /\ (forall e body, Marshal env spec_supportedBody = Ok body ->
        checkURL env (url c) = Some e ->
        GetSupported env c s
        = (Some (Err (Errorf_w "failed to create supported request: " e)), s)).
Proof.
  unfold Verify, Settle, verifyHTTP, settleHTTP, GetSupported, buildBody.
  fold spec_supportedBody.
  split; [intros e He; rewrite He; split; reflexivity|].
  split; [intros version e Hd Hp; rewrite Hd, Hp; split; reflexivity|].
  split; [intros version pm e Hd Hp Hr; rewrite Hd, Hp, Hr; split; reflexivity|].
  split.
  { intros version pm rm Hd Hp Hr. rewrite Hd, Hp, Hr.
    fold (spec_requestBody "x402.verify" version pm rm).
    fold (spec_requestBody "x402.settle" version pm rm).
    split; [intros e He; rewrite He; reflexivity|].
    split; [intros e He; rewrite He; reflexivity|].
    split; intros e body Hb Hu; rewrite Hb;
      unfold roundTrip, NewRequestWithContext; rewrite Hu; reflexivity. }
  split; [intros e He; rewrite He; reflexivity|].
  intros e body Hb Hu. rewrite Hb.
  unfold roundTrip, NewRequestWithContext. rewrite Hu. reflexivity.
Qed.

Lemma Get_setHeader_other r k v k' :
  String.eqb (CanonicalMIMEHeaderKey k') (CanonicalMIMEHeaderKey k) = false ->
  Get (Hdr (setHeader r k v)) k' = Get (Hdr r) k'.
Proof. intros H. rewrite HeaderFacts.Get_setHeader, H. reflexivity. Qed.

(** X19. [applyGateWeb3Signature] always returns a request and changes
    nothing but the seven headers of the signing scheme: method, URL and
    body are those of the request it was given, and every header whose
    canonical name is not one of the seven reads as before.  When
    credentials are configured it reads the clock once and then draws one
    request id, and x-target-uri holds the target URI without its leading
    slash. *)
Theorem signing_changes_only_its_headers req body uri s :
  exists req' w' tr,
    applyGateWeb3Signature env req body uri s
      = (Some req', mkSt w' (trace s ++ tr))
    /\ Method req' = Method req /\ URL req' = URL req /\ Body req' = Body req
    /\ (forall k, amongHeaders gateWeb3Headers k = false ->
          Get (Hdr req') k = Get (Hdr req) k)
    /\ (forall creds, loadGateWeb3Credentials env (world s) = Some creds ->
          (exists ts id, tr = [EvNow ts; EvNewUUID id])
          /\ Get (Hdr req') "x-target-uri" = Some (TrimPrefix uri "/"))
    /\ (loadGateWeb3Credentials env (world s) = None ->
          tr = [] /\ req' = req /\ w' = world s).
Proof.
  destruct (loadGateWeb3Credentials env (world s)) as [creds|] eqn:Hl.
  - rewrite (applyGateWeb3Signature_on env _ _ _ _ creds Hl).
    eexists _, _, _. split; [reflexivity|].
    destruct (signedRequest_frame env creds
                (fst (NowUnixMilli env (world s)))
                (fst (NewUUID env (snd (NowUnixMilli env (world s)))))
                req body uri) as (Hm & Hu & Hb).
    split; [exact Hm|]. split; [exact Hu|]. split; [exact Hb|].
    split; [|split; [|discriminate]].
    + intros k Hk. unfold amongHeaders, gateWeb3Headers in Hk.
      cbn [existsb] in Hk.
      repeat (apply orb_false_iff in Hk; destruct Hk as [? Hk]).
      unfold signedRequest.
      destruct (negb (String.eqb (Passphrase creds) ""));
        destruct (negb (String.eqb (RealIP creds) ""));
        repeat (rewrite Get_setHeader_other by assumption); reflexivity.
    + intros creds' _. split; [eauto|].
      unfold signedRequest. rewrite HeaderFacts.Get_setHeader.
      rewrite String.eqb_refl. reflexivity.
  - rewrite (applyGateWeb3Signature_off env _ _ _ _ Hl).
    exists req, (world s), []. rewrite app_nil_r. destruct s.
    split; [reflexivity|]. do 3 (split; [reflexivity|]).
    split; [reflexivity|]. split; [discriminate|]. intros _. auto.
Qed.

(** X20. With a non-blank key and secret in the environment, the request
    [applyGateWeb3Signature] returns always carries X-Forwarded-For: the
    value of GATE_WEB3_REAL_IP, or 127.0.0.1 when that variable is unset
    or empty.  X-Api-Key is the key with surrounding white space removed,
    while the passphrase is sent exactly as the environment holds it,
    untrimmed, and X-Passphrase is left alone when it is empty. *)
Theorem forwarded_for_defaults_to_loopback req body uri s :
  TrimSpace env (Getenv env (world s) envGateWeb3APIKey) <> "" ->
  TrimSpace env (Getenv env (world s) envGateWeb3APISecret) <> "" ->
  exists req' s',
    applyGateWeb3Signature env req body uri s = (Some req', s')
    /\ Get (Hdr req') "X-Forwarded-For"
       = Some (if String.eqb (Getenv env (world s) envGateWeb3RealIP) ""
               then "127.0.0.1"
               else Getenv env (world s) envGateWeb3RealIP)
    /\ Get (Hdr req') "X-Api-Key"
       = Some (TrimSpace env (Getenv env (world s) envGateWeb3APIKey))
    /\ Get (Hdr req') "X-Passphrase"
       = (if String.eqb (Getenv env (world s) envGateWeb3Passphrase) ""
          then Get (Hdr req) "X-Passphrase"
          else Some (Getenv env (world s) envGateWeb3Passphrase)).
Proof.
  intros Hk Hs.
  assert (Hl : exists creds,
    loadGateWeb3Credentials env (world s) = Some creds
    /\ APIKey creds = TrimSpace env (Getenv env (world s) envGateWeb3APIKey)
    /\ Passphrase creds = Getenv env (world s) envGateWeb3Passphrase
    /\ RealIP creds
       = (if String.eqb (Getenv env (world s) envGateWeb3RealIP) ""
          then "127.0.0.1" else Getenv env (world s) envGateWeb3RealIP)).
  { unfold loadGateWeb3Credentials.
    apply String.eqb_neq in Hk, Hs. rewrite Hk, Hs. cbn [orb].
    eexists. split; [reflexivity|]. cbn [APIKey Passphrase RealIP].
    split; [reflexivity|]. split; [|reflexivity].
    unfold defaultGateWeb3Passphrase.
    destruct (String.eqb_spec (Getenv env (world s) envGateWeb3Passphrase) "");
      congruence. }
  destruct Hl as (creds & Hl & Hak & Hpass & Hip).
  rewrite (applyGateWeb3Signature_on env _ _ _ _ creds Hl).
  eexists _, _. split; [reflexivity|].
  assert (Hne : String.eqb (RealIP creds) "" = false).
  { rewrite Hip.
    destruct (String.eqb_spec (Getenv env (world s) envGateWeb3RealIP) "");
      [reflexivity|]. apply String.eqb_neq. assumption. }
  unfold signedRequest. rewrite Hne. cbn [negb].
  rewrite <- Hip, <- Hak, <- Hpass.
  destruct (String.eqb (Passphrase creds) ""); cbn [negb];
    repeat split;
    repeat (rewrite HeaderFacts.Get_setHeader;
            match goal with
            | |- context [String.eqb ?a ?b] =>
                let t := eval vm_compute in (String.eqb a b) in
                change (String.eqb a b) with t; cbv iota
            end); reflexivity.
Qed.

(** X21. A client made by [NewHTTPFacilitatorClient] never has an empty
    URL or identifier: an absent configuration or an empty URL gives the
    default facilitator URL, an empty identifier gives the URL in use.  A
    configured HTTP client is kept and the timeout is then ignored;
    otherwise the client is built with the configured timeout, or with 30
    seconds when it is zero.  Such a client sends its requests to that
    URL. *)
Theorem new_client_defaults (defaultClient : Z -> HttpClient W)
    (config : option (FacilitatorConfig W)) p r s :
  let c := NewHTTPFacilitatorClient defaultClient config in
  url c <> "" /\ identifier c <> ""
  /\ (config = None ->
        url c = DefaultFacilitatorURL /\ identifier c = DefaultFacilitatorURL
        /\ httpClient c = defaultClient 30000000000
        /\ authProvider c = None)
  /\ (forall cfg, config = Some cfg ->
        url c = (if String.eqb (cfgURL cfg) "" then DefaultFacilitatorURL
                 else cfgURL cfg)
        /\ identifier c = (if String.eqb (cfgIdentifier cfg) "" then url c
                          else cfgIdentifier cfg)
        /\ authProvider c = cfgAuthProvider cfg
        /\ (forall h, cfgHTTPClient cfg = Some h -> httpClient c = h)
        /\ (cfgHTTPClient cfg = None ->
              httpClient c
              = defaultClient (if cfgTimeout cfg =? 0 then 30000000000
                               else cfgTimeout cfg)))
  /\ (exists rv w' tr,
        Verify env c p r s = (Some rv, mkSt w' (trace s ++ tr))
        /\ forall q rr, In (EvDo q rr) tr -> URL q = url c)
  /\ (exists rv w' tr,
        Settle env c p r s = (Some rv, mkSt w' (trace s ++ tr))
        /\ forall q rr, In (EvDo q rr) tr -> URL q = url c)
  /\ (exists rv w' tr,
        GetSupported env c s = (Some rv, mkSt w' (trace s ++ tr))
        /\ forall q rr, In (EvDo q rr) tr -> URL q = url c).
Proof.
  intros c.
  assert (Hu : url c <> "").
  { unfold c, NewHTTPFacilitatorClient. cbn [url].
    destruct config as [cfg|]; cbn [cfgURL].
    - destruct (String.eqb_spec (cfgURL cfg) ""); [discriminate|assumption].
    - discriminate. }
  split; [exact Hu|]. split.
  { assert (E : identifier c = url c \/ (identifier c <> "")).
    { unfold c, NewHTTPFacilitatorClient. cbn [url identifier].
      destruct config as [cfg|]; cbn [cfgIdentifier]; [|left; reflexivity].
      destruct (String.eqb_spec (cfgIdentifier cfg) ""); [left; reflexivity|].
      right; assumption. }
    destruct E as [E|E]; [rewrite E; exact Hu|exact E]. }
  split; [intros ->; repeat split|].
  split.
  { intros cfg ->. unfold c, NewHTTPFacilitatorClient.
    cbn [url identifier authProvider httpClient].
    repeat split.
    - intros h ->. reflexivity.
    - intros ->. reflexivity. }
  split; [|split].
  - destruct (Verify_run env c p r s) as (rv & w' & tr & Hrun & Hop).
    exists rv, w', tr. split; [exact Hrun|]. intros q rr Hin.
    destruct (opRun_singlePost env _ _ _ _ _ _ _ _ _ _ _ Hop) as (_ & H & _).
    apply (H q rr Hin).
  - destruct (Settle_run env c p r s) as (rv & w' & tr & Hrun & Hop).
    exists rv, w', tr. split; [exact Hrun|]. intros q rr Hin.
    destruct (opRun_singlePost env _ _ _ _ _ _ _ _ _ _ _ Hop) as (_ & H & _).
    apply (H q rr Hin).
  - destruct (GetSupported_run env c s) as (rv & w' & tr & Hrun & Hop).
    exists rv, w', tr. split; [exact Hrun|]. intros q rr Hin.
    destruct (opRun_singlePost env _ _ _ _ _ _ _ _ _ _ _ Hop) as (_ & H & _).
    apply (H q rr Hin).
Qed.

End ClientMore.

Module Base64More.
Import Base64.

Lemma enc_base64 i :
  0 <= i < 64 -> (0 <=? base64Index (enc i)) || Ascii.eqb (enc i) "=" = true.
Proof.
  intros H. rewrite (Base64Facts.base64Index_enc i H).
  apply orb_true_iff. left. apply Z.leb_le. lia.
Qed.

Lemma EncodeToString_shape_le : forall n l,
  (List.length l <= n)%nat ->
  base64Text (EncodeToString l) = true
  /\ String.length (EncodeToString l) = (4 * ((List.length l + 2) / 3))%nat.
Proof.
  induction n as [n IH] using (well_founded_induction lt_wf).
  intros l Hn.
  destruct l as [|a [|b [|c r]]].
  - split; reflexivity.
  - split; [|reflexivity].
    unfold base64Text.
    cbn [EncodeToString list_ascii_of_string forallb].
    rewrite !enc_base64 by apply Base64Facts.sextet_range. reflexivity.
  - split; [|reflexivity].
    unfold base64Text.
    cbn [EncodeToString list_ascii_of_string forallb].
    rewrite !enc_base64 by apply Base64Facts.sextet_range. reflexivity.
  - cbn [List.length] in Hn.
    destruct (IH (List.length r) ltac:(lia) r (Nat.le_refl _)) as [Hb Hl].
    split.
    + unfold base64Text in *.
      cbn [EncodeToString list_ascii_of_string forallb].
      rewrite !enc_base64
        by (first [apply Base64Facts.sextet_range | apply Z.mod_pos_bound; lia]).
      exact Hb.
    + cbn [EncodeToString String.length List.length]. rewrite Hl.
      replace (S (S (S (List.length r))) + 2)%nat
        with ((List.length r + 2) + 1 * 3)%nat by lia.
      rewrite Nat.div_add by lia. lia.
Qed.

End Base64More.

Section SignatureMore.
Context {W SR : Type}.
Variable env : HttpEnv W SR.

(** X23. The X-Signature value is plain base64 text: every character is
    of the standard alphabet or the padding sign, so the header value
    holds no control character or line break whatever the MAC, and it has
    four characters for every group of three bytes of the MAC, which is 44
    characters for the 32 bytes of HMAC-SHA256. *)
Theorem signature_is_base64_text secret prehash :
  let mac := HMAC_SHA256 env (bytes_of_string secret) (bytes_of_string prehash) in
  base64Text (signatureOf env secret prehash) = true
  /\ String.length (signatureOf env secret prehash)
     = (4 * ((List.length mac + 2) / 3))%nat
  /\ (List.length mac = 32%nat ->
      String.length (signatureOf env secret prehash) = 44%nat).
Proof.
  intros mac. unfold signatureOf. fold mac.
  destruct (Base64More.EncodeToString_shape_le (List.length mac) mac (Nat.le_refl _))
    as [Hb Hl].
  split; [exact Hb|]. split; [exact Hl|].
  intros H32. rewrite Hl, H32. reflexivity.
Qed.

End SignatureMore.

Section StatusMore.
Context {W SR : Type}.
Variable env : HttpEnv W SR.

Lemma status_not_ok (st code : Z) :
  st <> 200 -> negb (st =? StatusOK) || negb (code =? 0) = true.
Proof.
  intros H. destruct (Z.eqb_spec st StatusOK) as [E|E]; [contradiction|reflexivity].
Qed.

(** X24. A response with an HTTP status other than 200 is an error for
    Verify, Settle and GetSupported whatever the envelope's code, code 0
    included: the typed verify or settle error when the envelope carries a
    reason, a plain error naming status, code and message otherwise.  A
    response body that does not decode as the envelope is an error naming
    the status and quoting the body, even under status 200. *)
Theorem bad_status_is_error (c : HTTPFacilitatorClient W) p r s :
  (exists rv w' tr,
     Verify env c p r s = (Some rv, mkSt w' (trace s ++ tr))
     /\ forall q resp rb,
          In (EvDo q (Ok resp)) tr -> ReadAll resp = Ok rb ->
          (UnmarshalVerify env rb = None ->
           rv = Err (ErrorString
                       (decodeFailedMsg "verify" (StatusCode resp) rb)))
          /\ (forall apiResp,
                UnmarshalVerify env rb = Some apiResp ->
                StatusCode resp <> 200 ->
                rv = Err
                  (if String.eqb (InvalidReason (Data apiResp)) ""
                   then ErrorString
                          (failedMsg "verify" (StatusCode resp)
                             (Code apiResp) (Msg apiResp))
                   else VerifyError (InvalidReason (Data apiResp))
                          (vPayer (Data apiResp)) ""
                          (ErrorString
                             (returnedMsg (StatusCode resp) (Code apiResp)
                                (Msg apiResp))))))
  /\ (exists rv w' tr,
     Settle env c p r s = (Some rv, mkSt w' (trace s ++ tr))
     /\ forall q resp rb,
          In (EvDo q (Ok resp)) tr -> ReadAll resp = Ok rb ->
          (UnmarshalSettle env rb = None ->
           rv = Err (ErrorString
                       (decodeFailedMsg "settle" (StatusCode resp) rb)))
          /\ (forall apiResp,
                UnmarshalSettle env rb = Some apiResp ->
                StatusCode resp <> 200 ->
                rv = Err
                  (if String.eqb (ErrorReason (Data apiResp)) ""
                   then ErrorString
                          (failedMsg "settle" (StatusCode resp)
                             (Code apiResp) (Msg apiResp))
                   else SettleError (ErrorReason (Data apiResp))
                          (sPayer (Data apiResp)) (sNetwork (Data apiResp))
                          (Transaction (Data apiResp))
                          (ErrorString
                             (returnedMsg (StatusCode resp) (Code apiResp)
                                (Msg apiResp))))))
  /\ (exists rv w' tr,
     GetSupported env c s = (Some rv, mkSt w' (trace s ++ tr))
     /\ forall q resp rb,
          In (EvDo q (Ok resp)) tr -> ReadAll resp = Ok rb ->
          (UnmarshalSupported env rb = None ->
           rv = Err (ErrorString
                       ("failed to decode supported response ("
                          ++ fmt_d (StatusCode resp) ++ "): "
                          ++ string_of_list_byte rb)%string))
          /\ (forall apiResp,
                UnmarshalSupported env rb = Some apiResp ->
                StatusCode resp <> 200 ->
                rv = Err (ErrorString
                            (failedMsg "supported" (StatusCode resp)
                               (Code apiResp) (Msg apiResp))))).
Proof.
  split; [|split].
  - destruct (Verify_run env c p r s) as (rv & w' & tr & Hrun & Hop).
    exists rv, w', tr. split; [exact Hrun|].
    intros q resp rb Hin Hr.
    rewrite (opRun_answered env _ _ _ _ _ _ _ _ _ _ _ Hop q resp rb Hin Hr).
    unfold verifyOutcome. split.
    + intros ->. reflexivity.
    + intros apiResp -> Hs. rewrite (status_not_ok _ _ Hs).
      destruct (String.eqb (InvalidReason (Data apiResp)) ""); reflexivity.
  - destruct (Settle_run env c p r s) as (rv & w' & tr & Hrun & Hop).
    exists rv, w', tr. split; [exact Hrun|].
    intros q resp rb Hin Hr.
    rewrite (opRun_answered env _ _ _ _ _ _ _ _ _ _ _ Hop q resp rb Hin Hr).
    unfold settleOutcome. split.
    + intros ->. reflexivity.
    + intros apiResp -> Hs. rewrite (status_not_ok _ _ Hs).
      destruct (String.eqb (ErrorReason (Data apiResp)) ""); reflexivity.
  - destruct (GetSupported_run env c s) as (rv & w' & tr & Hrun & Hop).
    exists rv, w', tr. split; [exact Hrun|].
    intros q resp rb Hin Hr.
    rewrite (opRun_answered env _ _ _ _ _ _ _ _ _ _ _ Hop q resp rb Hin Hr).
    unfold supportedOutcome. split.
    + intros ->. reflexivity.
    + intros apiResp -> Hs. rewrite (status_not_ok _ _ Hs). reflexivity.
Qed.

End StatusMore.

Section HeadersMore.
Context {W SR : Type}.
Variable env : HttpEnv W SR.

Section OneOperation2.
Context {A : Type}.
Variable c : HTTPFacilitatorClient W.
Variable outcome : result (Response * bytes) -> result A.
Variable bodyValue : option value.
Variable uri : string.
Variable pick : AuthHeaders -> list (string * string).
Variables cm sm rm : string.

Lemma opRun_declaresTarget w tr r :
  opRun env c outcome bodyValue uri pick cm sm rm w tr r ->
  declaresTarget env c pick uri w tr.
Proof.
  intros [(-> & _ & _) | (v & body & rt & _ & _ & Hrt & _ & _)] q rr Hin;
    [destruct Hin|].
  destruct (rtTrace_sent env _ _ _ _ _ _ _ _ _ _ _ _ Hrt Hin)
    as (tsig & req1 & tauth & hs & -> & -> & Hs & Ha & _).
  exists hs.
  split; [eapply authTrace_provider; exact Ha|].
  unfold attached.
  inversion Hs; subst.
  - split.
    + intros Ht. rewrite HeaderFacts.Get_setAll by exact Ht. reflexivity.
    + intros creds Hl. congruence.
  - split.
    + intros Ht. rewrite HeaderFacts.Get_setAll by exact Ht.
      unfold signedRequest.
      destruct (negb (String.eqb (Passphrase creds) ""));
        destruct (negb (String.eqb (RealIP creds) ""));
        repeat (rewrite HeaderFacts.Get_setHeader;
          match goal with
          | |- context [String.eqb ?a ?b] =>
              let t := eval vm_compute in (String.eqb a b) in
              change (String.eqb a b) with t; cbv iota
          end); reflexivity.
    + intros creds' _ Ht. rewrite HeaderFacts.Get_setAll by exact Ht.
      unfold signedRequest. rewrite HeaderFacts.Get_setHeader.
      rewrite String.eqb_refl. reflexivity.
Qed.
End OneOperation2.

(** X26. Every request that Verify, Settle and GetSupported send declares
    the content type application/json, and with credentials configured it
    names its logical target in x-target-uri: v1/x402/verify,
    v1/x402/settle or v1/x402/supported, the target URI without its
    leading slash; either header differs only where the auth provider
    wrote the same header. *)
Theorem requests_name_their_target (c : HTTPFacilitatorClient W) p r s :
  (TrimPrefix gateWeb3TargetURIVerify "/" = "v1/x402/verify"
   /\ TrimPrefix gateWeb3TargetURISettle "/" = "v1/x402/settle"
   /\ TrimPrefix gateWeb3TargetURISupported "/" = "v1/x402/supported")
  /\ (exists rv w' tr,
     Verify env c p r s = (Some rv, mkSt w' (trace s ++ tr))
     /\ declaresTarget env c ahVerify gateWeb3TargetURIVerify (world s) tr)
  /\ (exists rv w' tr,
     Settle env c p r s = (Some rv, mkSt w' (trace s ++ tr))
     /\ declaresTarget env c ahSettle gateWeb3TargetURISettle (world s) tr)
  /\ (exists rv w' tr,
     GetSupported env c s = (Some rv, mkSt w' (trace s ++ tr))
     /\ declaresTarget env c ahSupported gateWeb3TargetURISupported (world s) tr).
Proof.
  split; [repeat split|].
  each_operation_by (Verify_run env c p r s) (Settle_run env c p r s)
    (GetSupported_run env c s)
    ltac:(fun H => eapply opRun_declaresTarget; exact H).
Qed.

End HeadersMore.

(* ================================================================== *)
(** * Further concrete runs *)

(** ** The exact-scheme client, further runs *)

(** X2, with an RPC client whose chain answers 32 bytes: one contract call,
    one signing request. *)
Lemma standard_path_signs_once_witness :
  exists tl rs w',
    signAuthorization Keccak.Keccak256 demoEvm demoSchemeRPC demoAuthorization
      10087 "0x9be8Df37C788B244cFc28E46654aD5Ec28a880AF" "USDC" "2"
      (start typedOnlyWorld)
    = (Some rs, mkSt w' (trace (start typedOnlyWorld) ++ tl))
    /\ countEv isSigning tl = 1%nat
    /\ (chainQueries tl <= 1)%nat.
Proof.
  destruct (standard_path_signs_once Keccak.Keccak256 demoEvm demoSchemeRPC
              demoAuthorization 1000 1700000000 1700003600 10087
              "0x9be8Df37C788B244cFc28E46654aD5Ec28a880AF" "USDC" "2"
              (start typedOnlyWorld) eq_refl eq_refl eq_refl)
    as (tl & rs & w' & H1 & H2 & H3 & _).
  exists tl, rs, w'. split; [exact H1|]. split; [exact H2|exact H3].
Defined.

(** X3, at the value "12.5". *)
Lemma unreadable_amount_panics_witness :
  Big.SetString "12.5" = None
  /\ signWithDomainSeparator Keccak.Keccak256 demoEvm demoScheme
       (mkAuthorization "0x857b06519E91e3A54538791bDbb0E22373e36b66"
          "0x209693Bc6afc0C5328bA36FaF03C514EF312287C" "12.5" "1700000000"
          "1700003600" "0x00")
       pinnedDomainSeparator (start calmWorld)
     = (None, start calmWorld).
Proof.
  split; [reflexivity|].
  exact (unreadable_amount_panics Keccak.Keccak256 demoEvm demoScheme
           (mkAuthorization "0x857b06519E91e3A54538791bDbb0E22373e36b66"
              "0x209693Bc6afc0C5328bA36FaF03C514EF312287C" "12.5" "1700000000"
              "1700003600" "0x00")
           pinnedDomainSeparator (start calmWorld) (or_introl eq_refl)).
Defined.

(** X4, at the same authorization: the signer is asked with a nil value. *)
Lemma typed_path_tolerates_unreadable_witness :
  ethClient demoScheme = None
  /\ exists rs w',
       fst (signAuthorization Keccak.Keccak256 demoEvm demoScheme
              (mkAuthorization "0x857b06519E91e3A54538791bDbb0E22373e36b66"
                 "0x209693Bc6afc0C5328bA36FaF03C514EF312287C" "12.5"
                 "1700000000" "1700003600" "0x00")
              10087 "0x9be8Df37C788B244cFc28E46654aD5Ec28a880AF" "USDC" "2"
              (start calmWorld))
       = Some rs
       /\ snd (signAuthorization Keccak.Keccak256 demoEvm demoScheme
              (mkAuthorization "0x857b06519E91e3A54538791bDbb0E22373e36b66"
                 "0x209693Bc6afc0C5328bA36FaF03C514EF312287C" "12.5"
                 "1700000000" "1700003600" "0x00")
              10087 "0x9be8Df37C788B244cFc28E46654aD5Ec28a880AF" "USDC" "2"
              (start calmWorld))
          = mkSt w'
              [EvSignTypedData
                 (mkDomain "USDC" "2" 10087
                    "0x9be8Df37C788B244cFc28E46654aD5Ec28a880AF")
                 eip712Types "TransferWithAuthorization"
                 [ ("from", MString "0x857b06519E91e3A54538791bDbb0E22373e36b66");
                   ("to", MString "0x209693Bc6afc0C5328bA36FaF03C514EF312287C");
                   ("value", MBigInt None);
                   ("validAfter", MBigInt (Some 1700000000));
                   ("validBefore", MBigInt (Some 1700003600));
                   ("nonce", MBytes [x00]) ] rs].
Proof.
  split; [reflexivity|].
  destruct (typed_path_tolerates_unreadable Keccak.Keccak256 demoEvm demoScheme
              (mkAuthorization "0x857b06519E91e3A54538791bDbb0E22373e36b66"
                 "0x209693Bc6afc0C5328bA36FaF03C514EF312287C" "12.5"
                 "1700000000" "1700003600" "0x00")
              10087 "0x9be8Df37C788B244cFc28E46654aD5Ec28a880AF" "USDC" "2"
              (start calmWorld) eq_refl) as (rs & w' & H & _).
  exists rs, w'. rewrite H. split; reflexivity.
Defined.

(** X5, at the transfer of 1000 units. *)
Lemma struct_encoding_is_seven_words_witness :
  List.length (Keccak.Keccak256 (bytes_of_string TransferWithAuthorizationType))
  = 32%nat
  /\ List.length (fst (HexToBytes demoEvm (Nonce demoAuthorization))) = 32%nat
  /\ List.length (structEncoding Keccak.Keccak256 demoEvm demoAuthorization
                    1000 1700000000 1700003600) = 224%nat.
Proof.
  split; [vm_compute; reflexivity|]. split; [vm_compute; reflexivity|].
  refine (proj1 (struct_encoding_is_seven_words Keccak.Keccak256 demoEvm
                   demoScheme demoAuthorization 1000 1700000000 1700003600
                   pinnedDomainSeparator (start calmWorld)
                   eq_refl eq_refl eq_refl eq_refl eq_refl eq_refl _ _));
    vm_compute; reflexivity.
Defined.

(** X6, at the amount 2^256, one more than a word holds. *)
Lemma oversized_amount_is_not_truncated_witness :
  Common.LeftPadBytes (Big.Bytes (2 ^ 256)) 32 = Big.Bytes (2 ^ 256)
  /\ List.length (Big.Bytes (2 ^ 256)) = 33%nat
  /\ beValue (Common.LeftPadBytes (Big.Bytes (2 ^ 256)) 32) = 2 ^ 256.
Proof.
  assert (H : 2 ^ 256 <= Z.abs (2 ^ 256)) by (vm_compute; discriminate).
  destruct (oversized_amount_is_not_truncated Keccak.Keccak256 demoEvm
              demoAuthorization (2 ^ 256) 0 0 H) as (H1 & H2 & _).
  split; [exact H1|]. split; [vm_compute; reflexivity|exact H2].
Defined.

(** X7, at two authorizations that spell the payer's address in different
    letter case: the encodings agree, and so do the address bytes. *)
Lemma struct_encoding_binds_fields_witness :
  let lower :=
    mkAuthorization "0x857b06519e91e3a54538791bdbb0e22373e36b66"
      (To demoAuthorization) (Value demoAuthorization)
      (ValidAfter demoAuthorization) (ValidBefore demoAuthorization)
      (Nonce demoAuthorization) in
  structEncoding Keccak.Keccak256 demoEvm demoAuthorization
    1000 1700000000 1700003600
  = structEncoding Keccak.Keccak256 demoEvm lower 1000 1700000000 1700003600
  /\ Common.HexToAddress (From demoAuthorization)
     = Common.HexToAddress (From lower).
Proof.
  intros lower.
  assert (E : structEncoding Keccak.Keccak256 demoEvm demoAuthorization
                1000 1700000000 1700003600
              = structEncoding Keccak.Keccak256 demoEvm lower
                  1000 1700000000 1700003600) by (vm_compute; reflexivity).
  split; [exact E|].
  exact (proj1 (struct_encoding_binds_fields Keccak.Keccak256 demoEvm
                  demoAuthorization 1000 1700000000 1700003600
                  lower 1000 1700000000 1700003600
                  eq_refl eq_refl eq_refl eq_refl eq_refl eq_refl E)).
Defined.

(** X8, at the values "1000" and "-1000". *)
Lemma value_sign_is_not_signed_witness :
  let negative :=
    mkAuthorization (From demoAuthorization) (To demoAuthorization) "-1000"
      (ValidAfter demoAuthorization) (ValidBefore demoAuthorization)
      (Nonce demoAuthorization) in
  signWithDomainSeparator Keccak.Keccak256 demoEvm demoScheme demoAuthorization
    pinnedDomainSeparator (start calmWorld)
  = signWithDomainSeparator Keccak.Keccak256 demoEvm demoScheme negative
      pinnedDomainSeparator (start calmWorld).
Proof.
  intros negative.
  exact (value_sign_is_not_signed Keccak.Keccak256 demoEvm demoScheme
           demoAuthorization negative 1000 pinnedDomainSeparator
           (start calmWorld) eq_refl eq_refl eq_refl eq_refl eq_refl eq_refl
           eq_refl).
Defined.

(** X9, at a text that is no address at all. *)
Lemma non_hex_payer_signs_as_zero_address_witness :
  let garbled :=
    mkAuthorization "zero" (To demoAuthorization) (Value demoAuthorization)
      (ValidAfter demoAuthorization) (ValidBefore demoAuthorization)
      (Nonce demoAuthorization) in
  Hex.fromHexChar "z" = None
  /\ Common.HexToAddress (From garbled) = repeat x00 20
  /\ fst (signWithDomainSeparator Keccak.Keccak256 demoEvm demoScheme garbled
            pinnedDomainSeparator (start calmWorld))
     = fst (signWithDomainSeparator Keccak.Keccak256 demoEvm demoScheme
              (mkAuthorization "0x0000000000000000000000000000000000000000"
                 (To demoAuthorization) (Value demoAuthorization)
                 (ValidAfter demoAuthorization) (ValidBefore demoAuthorization)
                 (Nonce demoAuthorization))
              pinnedDomainSeparator (start calmWorld)).
Proof.
  intros garbled. split; [reflexivity|].
  destruct (non_hex_payer_signs_as_zero_address Keccak.Keccak256 demoEvm
              demoScheme garbled "z" "ero" pinnedDomainSeparator
              (start calmWorld) eq_refl eq_refl) as [H1 H2].
  split; [exact H1|]. rewrite H2. reflexivity.
Defined.

(** ** The facilitator client, further runs *)

(** X20, with key, secret and passphrase set and no GATE_WEB3_REAL_IP. *)
Lemma forwarded_for_defaults_to_loopback_witness :
  TrimSpace demoHttpEnv
    (Getenv demoHttpEnv (signedWorld acceptance) envGateWeb3APIKey) = "ak-demo"
  /\ exists req' s',
       applyGateWeb3Signature demoHttpEnv
         (baseRequest demoClient demoPayloadBytes) demoPayloadBytes
         gateWeb3TargetURIVerify (start (signedWorld acceptance))
       = (Some req', s')
       /\ Get (Hdr req') "X-Forwarded-For" = Some "127.0.0.1"
       /\ Get (Hdr req') "X-Api-Key" = Some "ak-demo"
       /\ Get (Hdr req') "X-Passphrase" = Some "open sesame".
Proof.
  split; [vm_compute; reflexivity|].
  assert (Hk : TrimSpace demoHttpEnv
                 (Getenv demoHttpEnv (signedWorld acceptance)
                    envGateWeb3APIKey) <> "")
    by (vm_compute; discriminate).
  assert (Hs : TrimSpace demoHttpEnv
                 (Getenv demoHttpEnv (signedWorld acceptance)
                    envGateWeb3APISecret) <> "")
    by (vm_compute; discriminate).
  destruct (forwarded_for_defaults_to_loopback demoHttpEnv
              (baseRequest demoClient demoPayloadBytes) demoPayloadBytes
              gateWeb3TargetURIVerify (start (signedWorld acceptance)) Hk Hs)
    as (req' & s' & H1 & H2 & H3 & H4).
  exists req', s'. split; [exact H1|].
  split; [exact H2|]. split; [exact H3|exact H4].
Defined.

(* ================================================================== *)
(** * Counting tags *)

Module Sha256Facts.
Import Sha256.

Lemma round_length st kw : List.length (round st kw) = List.length st.
Proof.
  unfold round.
  destruct st as [|a [|b [|c0 [|d [|e [|f [|g [|h [|i t]]]]]]]]]; reflexivity.
Qed.

Lemma rounds_length l : forall st,
  List.length (fold_left round l st) = List.length st.
Proof.
  induction l as [|kw l IH]; intros st; [reflexivity|].
  cbn [fold_left]. rewrite IH. apply round_length.
Qed.

Lemma compress_length h block :
  List.length (compress h block) = List.length h.
Proof.
  unfold compress. rewrite length_map, length_combine, rounds_length.
  apply Nat.min_id.
Qed.

Lemma blocks_length l : forall h,
  List.length (fold_left compress l h) = List.length h.
Proof.
  induction l as [|b l IH]; intros h; [reflexivity|].
  cbn [fold_left]. rewrite IH. apply compress_length.
Qed.

Lemma words_length (h : list Z) :
  List.length (flat_map (be_bytes 4) h) = (4 * List.length h)%nat.
Proof.
  induction h as [|x h IH]; [reflexivity|].
  cbn [flat_map]. rewrite length_app, IH.
  unfold be_bytes. rewrite length_map, length_seq. cbn [List.length]. lia.
Qed.

Lemma sumZ_length m : List.length (sumZ m) = 32%nat.
Proof.
  unfold sumZ. rewrite words_length, blocks_length. reflexivity.
Qed.

(** The tag of HMAC-SHA256 has 32 bytes. *)
Lemma HMAC_length key msg : List.length (HMAC key msg) = 32%nat.
Proof.
  unfold HMAC, bytes_of_Zs. rewrite length_map. apply sumZ_length.
Qed.

End Sha256Facts.

Module CountingFacts.

Lemma beAcc_snoc a l x :
  beAcc a (l ++ [x]) = beAcc a l * 256 + Z_of_byte x.
Proof. unfold beAcc. rewrite fold_left_app. reflexivity. Qed.

(** Big-endian reading is one-to-one on byte strings of one length. *)
Lemma beValue_inj_length : forall l1 l2,
  List.length l1 = List.length l2 -> beValue l1 = beValue l2 -> l1 = l2.
Proof.
  unfold beValue.
  induction l1 as [|x l1 IH] using rev_ind; intros l2 Hl He.
  - destruct l2; [reflexivity|discriminate].
  - destruct (exists_last (l := l2)) as (l2' & y & ->).
    { intros ->. rewrite length_app in Hl. cbn in Hl. lia. }
    rewrite !length_app in Hl. cbn [List.length] in Hl.
    rewrite !beAcc_snoc in He.
    pose proof (Base64Facts.Z_of_byte_range x) as Hx.
    pose proof (Base64Facts.Z_of_byte_range y) as Hy.
    assert (Exy : Z_of_byte x = Z_of_byte y) by lia.
    assert (Eacc : beAcc 0 l1 = beAcc 0 l2') by lia.
    apply Base64Facts.Z_of_byte_inj in Exy. subst y.
    f_equal. apply IH; [lia|exact Eacc].
Qed.

(** Among the images of a list without repetition, either two agree or
    none is repeated. *)
Lemma agree_or_NoDup (g : nat -> nat) l :
  NoDup l ->
  (exists x y, In x l /\ In y l /\ x <> y /\ g x = g y)
  \/ NoDup (map g l).
Proof.
  induction 1 as [|a l Hnotin Hnd IH]; [right; constructor|].
  destruct IH as [(x & y & Hx & Hy & Hxy & Hg)|IH].
  - left. exists x, y. cbn [In]. auto.
  - destruct (in_dec Nat.eq_dec (g a) (map g l)) as [Hin|Hin].
    + left. apply in_map_iff in Hin. destruct Hin as (y & Hy & Hyin).
      exists a, y. cbn [In].
      split; [auto|]. split; [auto|]. split; [|congruence].
      intros <-. contradiction.
    + right. cbn [map]. constructor; assumption.
Qed.

(** More pigeons than holes: a function into fewer than [n + 1] values
    takes one value twice. *)
Lemma collision_exists (n : nat) (g : nat -> nat) :
  (forall i, (g i < n)%nat) -> exists x y, x <> y /\ g x = g y.
Proof.
  intros Hb.
  destruct (agree_or_NoDup g (seq 0 (S n)) (seq_NoDup _ _))
    as [(x & y & _ & _ & Hxy & Hg)|Hnd]; [eauto|].
  exfalso.
  assert (Hincl : incl (map g (seq 0 (S n))) (seq 0 n)).
  { intros v Hv. apply in_map_iff in Hv. destruct Hv as (i & <- & _).
    apply in_seq. specialize (Hb i). lia. }
  pose proof (NoDup_incl_length Hnd Hincl) as Hlen.
  rewrite length_map, !length_seq in Hlen. lia.
Qed.

(** The same for values in a range of integers. *)
Lemma collision_below (bound : Z) (g : nat -> Z) :
  (forall i, 0 <= g i < bound) -> exists x y, x <> y /\ g x = g y.
Proof.
  intros Hb.
  destruct (collision_exists (Z.to_nat bound) (fun i => Z.to_nat (g i)))
    as (x & y & Hxy & Hg).
  { intros i. specialize (Hb i). lia. }
  exists x, y. split; [exact Hxy|].
  pose proof (Hb x). pose proof (Hb y). lia.
Qed.

(** A tag of HMAC-SHA256 read as a number is below 2^256. *)
Lemma tag_range key msg : 0 <= beValue (Sha256.HMAC key msg) < 2 ^ 256.
Proof.
  pose proof (beAcc_bound (Sha256.HMAC key msg) 0 (Z.le_refl 0)) as Hb.
  rewrite Sha256Facts.HMAC_length in Hb. exact Hb.
Qed.

End CountingFacts.

